(** * go-cmc: a client for the CoinMarketCap ticker API and website

    A shallow embedding of [cmc.go] and of the parts of the Go libraries it
    calls, followed by the properties the specification states about it
    and by further properties of the code.

    Conventions of the embedding:
    - a Go [string] is a Rocq [string], i.e. a sequence of bytes;
    - a Go pointer [*T] is an [option T], [None] being [nil];
    - a Go slice [[]T] is an [option (list T)], [None] being the [nil]
      slice and [Some []] an empty slice that is not [nil];
    - a Go [error] is an [option Error], [None] being [nil];
    - a Go [int] is a [Z]; the platform is taken to have 64-bit [int];
    - a function that returns [(T, error)] returns a pair, so that what
      comes back next to an error can be stated;
    - the only effect is the network: every request handed to the HTTP
      client is appended to the list of requests sent so far, and the reply
      may depend on that whole history; a call either returns or panics;
    - [defer res.Body.Close()] has no bearing on what a call returns and is
      left out.

    The packages [cmc.go] imports are modelled as far as it uses them, after
    their documented behaviour: [encoding/json] on JSON values rather than
    on text, [goq] and [goquery] on parsed trees rather than on markup, and
    [net/url]'s parser as a parameter of the operations. *)

From Stdlib Require Import ZArith String Ascii List Bool Lia.
From Stdlib Require Import DecimalString DecimalZ DecimalPos DecimalN DecimalFacts.
Import ListNotations.

#[local] Open Scope string_scope.
#[local] Open Scope list_scope.
#[local] Set Warnings "-register-all".

(* ===================================================================== *)
(** * Part I: the model *)
(* ===================================================================== *)

(** ** Go values *)

Definition ptr (A : Type) : Type := option A.
Definition slice (A : Type) : Type := option (list A).

(** [len(s)]: the nil slice has length zero. *)
Definition len {A : Type} (s : slice A) : nat :=
  match s with
  | None => 0
  | Some l => length l
  end.

(** [append(s, x)]: appending to the nil slice allocates. *)
Definition append {A : Type} (s : slice A) (x : A) : slice A :=
  match s with
  | None => Some [x]
  | Some l => Some (l ++ [x])
  end.

(** [make([]T, 0, n)]: an empty slice that is not nil; the capacity has no
    observable effect on the result. *)
Definition make {A : Type} (capacity : nat) : slice A := Some [].

(** [a[i]] on a Go array [[n]string], held as the list of its elements. *)
Definition index (a : list string) (i : nat) : string := nth i a "".

(** Go errors, by the package that creates them. *)
Inductive Error : Type :=
| errorString (text : string)            (* errors.New(text) *)
| url_Error (op : string) (url : string) (* net/url, net/http: *url.Error *)
| io_Error (text : string)               (* a failed read of a body *)
| json_SyntaxError                       (* encoding/json: malformed text *)
| json_UnmarshalTypeError (value : string)
| json_InvalidStringTag (item : string)  (* "invalid use of ,string" *)
| goq_CannotUnmarshalError (reason : string).

Definition error : Type := option Error.

(** ** Package [strings] *)

Module strings.

(** [strings.Replace(s, old, new, -1)] for a one-byte [old]: every
    occurrence is replaced, left to right. *)
Fixpoint ReplaceByte (s : string) (old : ascii) (new : string) : string :=
  match s with
  | EmptyString => EmptyString
  | String c rest =>
      if Ascii.eqb c old then new ++ ReplaceByte rest old new
      else String c (ReplaceByte rest old new)
  end.

Fixpoint contains (c : ascii) (s : string) : bool :=
  match s with
  | EmptyString => false
  | String d rest => Ascii.eqb d c || contains c rest
  end.

Fixpoint rev (s : string) : string :=
  match s with
  | EmptyString => EmptyString
  | String c rest => rev rest ++ String c EmptyString
  end.

Definition bytes (l : list nat) : string :=
  string_of_list_ascii (map ascii_of_nat l).

(** The UTF-8 encodings of the code points with the Unicode property
    White_Space, which is what [unicode.IsSpace] tests. *)
Definition spaces : list string :=
  map bytes
    [ [9]; [10]; [11]; [12]; [13]; [32];
      [194; 133]; [194; 160]; [225; 154; 128];
      [226; 128; 128]; [226; 128; 129]; [226; 128; 130]; [226; 128; 131];
      [226; 128; 132]; [226; 128; 133]; [226; 128; 134]; [226; 128; 135];
      [226; 128; 136]; [226; 128; 137]; [226; 128; 138];
      [226; 128; 168]; [226; 128; 169]; [226; 128; 175];
      [226; 129; 159]; [227; 128; 128] ].

(** [s] without the prefix [p], when it has it. *)
Fixpoint CutPrefix (s p : string) : option string :=
  match p, s with
  | EmptyString, _ => Some s
  | String a p', String b s' =>
      if Ascii.eqb a b then CutPrefix s' p' else None
  | String _ _, EmptyString => None
  end.

Fixpoint cut_first (s : string) (ps : list string) : option string :=
  match ps with
  | [] => None
  | p :: ps' =>
      match CutPrefix s p with
      | Some s' => Some s'
      | None => cut_first s ps'
      end
  end.

Fixpoint trim_left (fuel : nat) (ps : list string) (s : string) : string :=
  match fuel with
  | O => s
  | S fuel' =>
      match cut_first s ps with
      | Some s' => trim_left fuel' ps s'
      | None => s
      end
  end.

(** [strings.TrimSpace]: leading and trailing white space removed. Each
    step removes at least one byte, so [length s] steps are enough. *)
Definition TrimSpace (s : string) : string :=
  let s1 := trim_left (String.length s) spaces s in
  rev (trim_left (String.length s1) (map rev spaces) (rev s1)).

End strings.

(** ** Package [strconv] *)

Module strconv.

(** The bytes a decimal integer is written with. *)
Definition isDigit (c : ascii) : bool :=
  Nat.leb 48 (nat_of_ascii c) && Nat.leb (nat_of_ascii c) 57.

Definition digit_or_minus (c : ascii) : bool := Ascii.eqb c "-" || isDigit c.

(** [strconv.Itoa]: decimal digits, with a leading minus sign for a
    negative number. *)
Definition Itoa (i : Z) : string := NilZero.string_of_int (Z.to_int i).

Definition maxInt64 : Z := 9223372036854775807%Z.
Definition minInt64 : Z := (-9223372036854775808)%Z.
Definition maxUint64 : Z := 18446744073709551615%Z.

(** [strconv.ParseUint(s, 10, 64)]: one or more decimal digits, nothing
    else, and a value that fits 64 bits. *)
Definition ParseUint (s : string) : option Z :=
  match s with
  | EmptyString => None
  | _ =>
      match NilEmpty.uint_of_string s with
      | None => None
      | Some d =>
          let un := Z.of_uint d in
          if Z.leb un maxUint64 then Some un else None
      end
  end.

(** [strconv.ParseInt(s, 10, 64)]: an optional sign, then [ParseUint],
    then the range of a signed 64-bit integer. *)
Definition ParseInt (s : string) : option Z :=
  match s with
  | EmptyString => None
  | String c rest =>
      let neg := Ascii.eqb c "-" in
      let digits := if Ascii.eqb c "+" || neg then rest else s in
      match ParseUint digits with
      | None => None
      | Some un =>
          if neg then
            if Z.leb un (Z.opp minInt64) then Some (Z.opp un) else None
          else
            if Z.leb un maxInt64 then Some un else None
      end
  end.

End strconv.

(** ** Package [fmt] *)

Module fmt.

(** [fmt.Sprintf] for formats whose only verb is [%s] and whose
    arguments are strings: each [%s] is replaced by the next argument,
    every other byte is copied. A verb without an argument prints as Go
    prints it. *)
Fixpoint Sprintf (format : string) (args : list string) : string :=
  match format with
  | String "%" (String "s" rest) =>
      match args with
      | a :: args' => a ++ Sprintf rest args'
      | [] => "%!s(MISSING)" ++ Sprintf rest []
      end
  | String c rest => String c (Sprintf rest args)
  | EmptyString => EmptyString
  end.

End fmt.

(** ** Package [unicode/utf8] *)

Module utf8.

Definition within (lo hi n : nat) : bool := Nat.leb lo n && Nat.leb n hi.

(** The number of bytes of the well-formed UTF-8 encoding at the head of
    [s]; [0] when there is none, the case in which
    [utf8.DecodeRuneInString] returns [(RuneError, 1)]. Over-long forms,
    surrogates and values above U+10FFFF are not well-formed. *)
Definition rune_size (s : string) : nat :=
  match map nat_of_ascii (list_ascii_of_string (substring 0 4 s)) with
  | [] => 0
  | b0 :: t =>
      if Nat.ltb b0 128 then 1
      else if within 194 223 b0 then
        match t with
        | b1 :: _ => if within 128 191 b1 then 2 else 0
        | _ => 0
        end
      else if within 224 239 b0 then
        match t with
        | b1 :: b2 :: _ =>
            let lo := if Nat.eqb b0 224 then 160 else 128 in
            let hi := if Nat.eqb b0 237 then 159 else 191 in
            if within lo hi b1 && within 128 191 b2 then 3 else 0
        | _ => 0
        end
      else if within 240 244 b0 then
        match t with
        | b1 :: b2 :: b3 :: _ =>
            let lo := if Nat.eqb b0 240 then 144 else 128 in
            let hi := if Nat.eqb b0 244 then 143 else 191 in
            if within lo hi b1 && within 128 191 b2 && within 128 191 b3
            then 4 else 0
        | _ => 0
        end
      else 0
  end.

(** [utf8.ValidString], with [inside] the number of bytes of the current
    rune still to be passed over. *)
Fixpoint valid_from (inside : nat) (s : string) : bool :=
  match s with
  | EmptyString => true
  | String _ rest =>
      match inside with
      | S k => valid_from k rest
      | O =>
          match rune_size s with
          | O => false
          | S k => valid_from k rest
          end
      end
  end.

Definition ValidString (s : string) : bool := valid_from 0 s.

(** U+FFFD, the replacement character. *)
Definition RuneError : string := strings.bytes [239; 191; 189].

(** The text with every byte that starts no well-formed rune replaced by
    U+FFFD: what [encoding/json] writes for a Go string. *)
Fixpoint to_valid_from (inside : nat) (s : string) : string :=
  match s with
  | EmptyString => EmptyString
  | String c rest =>
      match inside with
      | S k => String c (to_valid_from k rest)
      | O =>
          match rune_size s with
          | O => RuneError ++ to_valid_from 0 rest
          | S k => String c (to_valid_from k rest)
          end
      end
  end.

Definition ToValid (s : string) : string := to_valid_from 0 s.

End utf8.

(** ** Package [net/url] *)

Module url.

(** [url.Values] is a [map[string][]string]: at most one entry per key. *)
Definition Values : Type := list (string * list string).

(** [Values.Add]: the value is appended to those of the key. *)
Fixpoint Add (v : Values) (key value : string) : Values :=
  match v with
  | [] => [(key, [value])]
  | (k, vs) :: rest =>
      if String.eqb k key then (k, vs ++ [value]) :: rest
      else (k, vs) :: Add rest key value
  end.

Definition isAlnum (c : ascii) : bool :=
  let n := nat_of_ascii c in
  utf8.within 48 57 n || utf8.within 65 90 n || utf8.within 97 122 n.

(** [shouldEscape(c, encodeQueryComponent)]: only letters, digits and
    [-_.~] pass unescaped. *)
Definition shouldEscape (c : ascii) : bool :=
  negb (isAlnum c || strings.contains c "-_.~").

Definition upperhex (n : nat) : ascii :=
  match String.get n "0123456789ABCDEF" with
  | Some c => c
  | None => "0"%char
  end.

(** [url.QueryEscape]. *)
Fixpoint QueryEscape (s : string) : string :=
  match s with
  | EmptyString => EmptyString
  | String c rest =>
      if Ascii.eqb c " " then String "+" (QueryEscape rest)
      else if shouldEscape c then
        let n := nat_of_ascii c in
        String "%" (String (upperhex (Nat.div n 16))
                      (String (upperhex (Nat.modulo n 16)) (QueryEscape rest)))
      else String c (QueryEscape rest)
  end.

Fixpoint insert (e : string * list string) (v : Values) : Values :=
  match v with
  | [] => [e]
  | e' :: rest =>
      if String.leb (fst e) (fst e') then e :: v else e' :: insert e rest
  end.

(** The entries in the order of [sort.Strings] on the keys. *)
Definition sorted (v : Values) : Values := fold_right insert [] v.

(** [Values.Encode]: [key=value] pairs joined by [&], keys sorted. *)
Definition Encode (v : Values) : string :=
  String.concat "&"
    (flat_map
       (fun e =>
          map (fun x => (QueryEscape (fst e) ++ "=" ++ QueryEscape x)%string) (snd e))
       (sorted v)).

End url.

(** ** Package [encoding/json]

    The lexical layer (tokens, escapes, white space) is left out: a JSON
    text is represented by the value it denotes. String values are the
    unquoted texts, object members keep their order and their duplicates. *)

Module json.

Inductive Value : Type :=
| JNull
| JBool (b : bool)
| JNumber (literal : string)
| JString (s : string)
| JArray (elems : list Value)
| JObject (members : list (string * Value)).

(** The fields [encoding/json] sees in a struct type [T] whose fields are
    all strings, or ints tagged [,string]. A field tagged [json:"-"] is
    not in the list. *)
Inductive Field (T : Type) : Type :=
| StringField (name : string) (get : T -> string) (set : T -> string -> T)
| IntStringField (name : string) (get : T -> Z) (set : T -> Z -> T).
Arguments StringField {T} name get set.
Arguments IntStringField {T} name get set.

Definition name {T : Type} (f : Field T) : string :=
  match f with
  | StringField n _ _ => n
  | IntStringField n _ _ => n
  end.

Definition toUpper (c : ascii) : ascii :=
  let n := nat_of_ascii c in
  if utf8.within 97 122 n then ascii_of_nat (n - 32) else c.

(** [foldName]: ASCII letters to upper case; the Kelvin sign U+212A folds
    to [K] and the long s U+017F to [S]. The bytes of any other rune are
    kept as they are; they are never equal to a byte of an ASCII name. *)
Fixpoint foldName_from (inside : nat) (s : string) : string :=
  match s with
  | EmptyString => EmptyString
  | String c rest =>
      match inside with
      | S k => foldName_from k rest
      | O =>
          match strings.CutPrefix s (strings.bytes [226; 132; 170]),
                strings.CutPrefix s (strings.bytes [197; 191]) with
          | Some _, _ => String "K" (foldName_from 2 rest)
          | None, Some _ => String "S" (foldName_from 1 rest)
          | None, None => String (toUpper c) (foldName_from 0 rest)
          end
      end
  end.

Definition foldName (s : string) : string := foldName_from 0 s.

(** The field an object key names: the one with exactly that name, or
    else the first one equal to it under folding. *)
Definition findField {T : Type} (fields : list (Field T)) (key : string)
  : option (Field T) :=
  match find (fun f => String.eqb (name f) key) fields with
  | Some f => Some f
  | None =>
      find (fun f => String.eqb (foldName (name f)) (foldName key)) fields
  end.

(** [decodeState.savedError]: the first error that did not stop the
    decoding. *)
Record decodeState : Type := { savedError : error }.

Definition saveError (d : decodeState) (err : Error) : decodeState :=
  match savedError d with
  | None => {| savedError := Some err |}
  | Some _ => d
  end.

(** The double quote. *)
Definition quote : ascii := "034"%char.

Definition isHex (c : ascii) : bool :=
  let n := nat_of_ascii c in
  utf8.within 48 57 n || utf8.within 65 70 n || utf8.within 97 102 n.

(** Whether [unquoteBytes] accepts [item]: a double-quoted JSON string
    literal. [esc] is the state of the scan inside the quotes: [0] plain,
    [1] after a backslash, [2..5] that many minus one hex digits due. *)
Fixpoint unquote_body (esc : nat) (s : string) : bool :=
  match s with
  | EmptyString => false
  | String c rest =>
      match esc with
      | O =>
          if Ascii.eqb c quote then
            match rest with EmptyString => true | _ => false end
          else if Ascii.eqb c "\" then unquote_body 1 rest
          else if Nat.ltb (nat_of_ascii c) 32 then false
          else unquote_body 0 rest
      | 1 =>
          if Ascii.eqb c "u" then unquote_body 5 rest
          else if strings.contains c (String quote "\/'bfnrt") then unquote_body 0 rest
          else false
      | S (S k) =>
          if isHex c then unquote_body (match k with O => O | _ => S k end) rest
          else false
      end
  end.

Definition unquote_ok (item : string) : bool :=
  match item with
  | String c rest => Ascii.eqb c quote && unquote_body 0 rest
  | EmptyString => false
  end.

Section Decode.
Context {T : Type}.
Variable fields : list (Field T).
Variable zero : T.

(** What the decoding of one value gives: the destination as it is
    afterwards, the decoder state, and the error that stopped the
    decoding, if one did. *)
Definition step (A : Type) : Type := (A * decodeState * error)%type.

(** [literalStore(item, v, fromQuoted = true)] for an [int] field: the
    text inside the quotes of a field tagged [,string]. *)
Definition literalStoreQuotedInt (item : string) (set : Z -> T) (t : T)
           (d : decodeState) : step T :=
  match item with
  | EmptyString => (t, saveError d (json_InvalidStringTag item), None)
  | String c _ =>
      if Ascii.eqb c "n" then
        if String.eqb item "null" then (t, d, None)
        else (t, saveError d (json_InvalidStringTag item), None)
      else if Ascii.eqb c "t" || Ascii.eqb c "f" then
        (t, saveError d (json_InvalidStringTag item), None)
      else if Ascii.eqb c quote then
        if unquote_ok item
        then (t, saveError d (json_UnmarshalTypeError "string"), None)
        else (t, d, Some (json_InvalidStringTag item))
      else if strconv.digit_or_minus c then
        match strconv.ParseInt item with
        | Some n => (set n, d, None)
        | None =>
            (t, saveError d (json_UnmarshalTypeError ("number " ++ item)%string), None)
        end
      else (t, d, Some (json_InvalidStringTag item))
  end.

(** One object member whose key names field [f]. *)
Definition storeField (f : Field T) (v : Value) (t : T) (d : decodeState)
  : step T :=
  match f with
  | StringField _ _ set =>
      match v with
      | JNull => (t, d, None)
      | JString s => (set t s, d, None)
      | JBool _ => (t, saveError d (json_UnmarshalTypeError "bool"), None)
      | JNumber _ => (t, saveError d (json_UnmarshalTypeError "number"), None)
      | JArray _ => (t, saveError d (json_UnmarshalTypeError "array"), None)
      | JObject _ => (t, saveError d (json_UnmarshalTypeError "object"), None)
      end
  | IntStringField _ _ set =>
      match v with
      | JNull => (t, d, None)
      | JString qv => literalStoreQuotedInt qv (set t) t d
      | _ => (t, saveError d (json_InvalidStringTag ""), None)
      end
  end.

(** [decodeState.object] into a struct: the members in order, each one
    stored in the field its key names, unknown keys passed over. *)
Fixpoint object (members : list (string * Value)) (t : T) (d : decodeState)
  : step T :=
  match members with
  | [] => (t, d, None)
  | (key, v) :: rest =>
      match findField fields key with
      | None => object rest t d
      | Some f =>
          match storeField f v t d with
          | (t', d', None) => object rest t' d'
          | stopped => stopped
          end
      end
  end.

(** One array element into a [*T]: [null] sets the pointer to nil; any
    other value allocates when the pointer is nil, and only an object
    fits the struct. *)
Definition valuePtr (v : Value) (old : ptr T) (d : decodeState) : step (ptr T) :=
  let t := match old with Some t => t | None => zero end in
  match v with
  | JNull => (None, d, None)
  | JObject members =>
      match object members t d with
      | (t', d', err) => (Some t', d', err)
      end
  | JBool _ => (Some t, saveError d (json_UnmarshalTypeError "bool"), None)
  | JNumber _ => (Some t, saveError d (json_UnmarshalTypeError "number"), None)
  | JString _ => (Some t, saveError d (json_UnmarshalTypeError "string"), None)
  | JArray _ => (Some t, saveError d (json_UnmarshalTypeError "array"), None)
  end.

(** [decodeState.array] into a [[]*T]: element [i] is decoded into the
    slice's element [i] when it has one and into a nil pointer
    otherwise; the slice ends up as long as the array. *)
Fixpoint array (elems : list Value) (old : list (ptr T)) (d : decodeState)
  : step (list (ptr T)) :=
  match elems with
  | [] => ([], d, None)
  | v :: rest =>
      match valuePtr v (hd None old) d with
      | (p, d', None) =>
          match array rest (tl old) d' with
          | (ps, d'', err) => (p :: ps, d'', err)
          end
      | (p, d', Some err) => (p :: tl old, d', Some err)
      end
  end.

(** [decodeState.value] into a [[]*T]. *)
Definition valueSlice (v : Value) (dst : slice (ptr T)) (d : decodeState)
  : step (slice (ptr T)) :=
  match v with
  | JNull => (None, d, None)
  | JArray elems =>
      match array elems (match dst with Some l => l | None => [] end) d with
      | (ps, d', err) => (Some ps, d', err)
      end
  | JBool _ => (dst, saveError d (json_UnmarshalTypeError "bool"), None)
  | JNumber _ => (dst, saveError d (json_UnmarshalTypeError "number"), None)
  | JString _ => (dst, saveError d (json_UnmarshalTypeError "string"), None)
  | JObject _ => (dst, saveError d (json_UnmarshalTypeError "object"), None)
  end.

(** [decodeState.unmarshal]: the error that stopped the decoding, or
    else the first saved one; the destination is returned as the
    decoding left it. *)
Definition unmarshal (v : Value) (dst : slice (ptr T)) : slice (ptr T) * error :=
  match valueSlice v dst {| savedError := None |} with
  | (s, d, Some err) => (s, Some err)
  | (s, d, None) => (s, savedError d)
  end.

(** [json.Unmarshal(data, &p)] for a [p] of type [*T]. *)
Definition unmarshalPtr (v : Value) (old : ptr T) : ptr T * error :=
  match valuePtr v old {| savedError := None |} with
  | (p, d, Some err) => (p, Some err)
  | (p, d, None) => (p, savedError d)
  end.

(** [json.NewDecoder(r).Decode(&dst)], [next] being the first JSON value
    of the stream or the error of reading it. *)
Definition Decode (next : Value + Error) (dst : slice (ptr T))
  : slice (ptr T) * error :=
  match next with
  | inr err => (dst, Some err)
  | inl v => unmarshal v dst
  end.

(** [json.Marshal] of a struct, of a [*T] and of a [[]*T]. *)
Definition marshalField (t : T) (f : Field T) : string * Value :=
  match f with
  | StringField n get _ => (n, JString (utf8.ToValid (get t)))
  | IntStringField n get _ => (n, JString (strconv.Itoa (get t)))
  end.

Definition marshalStruct (t : T) : Value := JObject (map (marshalField t) fields).

Definition marshalPtr (p : ptr T) : Value :=
  match p with
  | None => JNull
  | Some t => marshalStruct t
  end.

Definition Marshal (s : slice (ptr T)) : Value :=
  match s with
  | None => JNull
  | Some l => JArray (map marshalPtr l)
  end.

End Decode.

End json.

(** ** Package [golang.org/x/net/html]: the parsed tree *)

Module html.

Inductive NodeType : Type :=
| ErrorNode | TextNode | DocumentNode | ElementNode | CommentNode | DoctypeNode.

Record Attribute : Type := { Key : string; Val : string }.

(** [html.Node]: for an element [Data] is the tag name in lower case, for
    a text node it is the text. The children stand for the
    [FirstChild]/[NextSibling] chain. *)
Inductive Node : Type :=
| mkNode (Type_ : NodeType) (Data : string) (Attr : list Attribute)
         (children : list Node).

Definition Type_ (n : Node) : NodeType := let (ty, _, _, _) := n in ty.
Definition Data (n : Node) : string := let (_, data, _, _) := n in data.
Definition Attr (n : Node) : list Attribute := let (_, _, attr, _) := n in attr.
Definition children (n : Node) : list Node := let (_, _, _, cs) := n in cs.

Definition isElement (n : Node) : bool :=
  match Type_ n with ElementNode => true | _ => false end.

Definition isText (n : Node) : bool :=
  match Type_ n with TextNode => true | _ => false end.

(** A [*html.Node] in a tree: the node and its chain of [Parent]
    pointers, nearest first. *)
Record Ref : Type := { parents : list Node; node : Node }.

End html.

(** ** Package [github.com/andybalholm/cascadia]: the selectors in use *)

Module cascadia.
Import html.

Inductive Selector : Type :=
| typeSelector (tag : string)
| attributeExistsSelector (key : string)
| attributeIncludesSelector (key val : string)
| intersectionSelector (a b : Selector)
| descendantSelector (a d : Selector).

(** The pieces of [s] between the separators [" \t\r\n\f"], [tok] being
    the piece read so far, in reverse. *)
Fixpoint pieces (tok : string) (s : string) : list string :=
  match s with
  | EmptyString => [strings.rev tok]
  | String c rest =>
      if strings.contains c (strings.bytes [32; 9; 13; 10; 12])
      then strings.rev tok :: pieces EmptyString rest
      else pieces (String c tok) rest
  end.

Definition includes (val s : string) : bool :=
  match s with
  | EmptyString => false
  | _ => existsb (String.eqb val) (pieces EmptyString s)
  end.

(** Whether some node of the [Parent] chain satisfies [f]; [f] gets each
    node with its own chain. *)
Fixpoint anyParent (f : list Node -> Node -> bool) (parents : list Node) : bool :=
  match parents with
  | [] => false
  | p :: up => f up p || anyParent f up
  end.

(** [Selector.Match]. *)
Fixpoint Match (s : Selector) (parents : list Node) (n : Node) : bool :=
  match s with
  | typeSelector tag => isElement n && String.eqb (Data n) tag
  | attributeExistsSelector key =>
      isElement n && existsb (fun a => String.eqb (Key a) key) (Attr n)
  | attributeIncludesSelector key val =>
      isElement n &&
      existsb (fun a => String.eqb (Key a) key && includes val (Val a)) (Attr n)
  | intersectionSelector a b => Match a parents n && Match b parents n
  | descendantSelector a d => Match d parents n && anyParent (Match a) parents
  end.

(** [Selector.MatchAll]: the nodes of the subtree at [n] that match, in
    document order. *)
Fixpoint MatchAll (s : Selector) (parents : list Node) (n : Node) : list Ref :=
  (if Match s parents n then [{| html.parents := parents; node := n |}] else [])
  ++ match n with
     | mkNode _ _ _ cs => flat_map (MatchAll s (n :: parents)) cs
     end.

(** The selectors the struct tags of [cmc.go] name, as
    [cascadia.Compile] builds them. *)
Definition tbody_tr : Selector :=                    (* "tbody tr" *)
  descendantSelector (typeSelector "tbody") (typeSelector "tr").
Definition td_text_left : Selector :=                (* "td.text-left" *)
  intersectionSelector (typeSelector "td")
                       (attributeIncludesSelector "class" "text-left").
Definition data_format_value : Selector :=           (* "[data-format-value]" *)
  attributeExistsSelector "data-format-value".
Definition td_a : Selector :=                        (* "td a" *)
  descendantSelector (typeSelector "td") (typeSelector "a").
Definition td_span : Selector :=                     (* "td span" *)
  descendantSelector (typeSelector "td") (typeSelector "span").

End cascadia.

(** ** Package [github.com/PuerkitoBio/goquery] *)

Module goquery.
Import html.

Definition Selection : Type := list Ref.

(** [Selection.Find] on a selection of one node: the matching nodes
    among its descendants, in document order. [goq] only ever calls
    [Find] on the document or on [s.Eq(i)], where the removal of
    duplicates that [Find] performs has nothing to remove. *)
Definition Find (r : Ref) (m : cascadia.Selector) : Selection :=
  flat_map
    (fun c =>
       if isElement c then cascadia.MatchAll m (node r :: parents r) c else [])
    (children (node r)).

(** The text nodes of the subtree at [n], concatenated. *)
Fixpoint text (n : Node) : string :=
  match n with
  | mkNode ty data _ cs =>
      ((match ty with TextNode => data | _ => EmptyString end)
       ++ String.concat EmptyString (map text cs))%string
  end.

(** [Selection.Text]: the texts of all the nodes of the selection. *)
Definition Text (s : Selection) : string :=
  String.concat EmptyString (map (fun r => text (node r)) s).

(** [goquery.NewDocumentFromReader]: the selection of the document node. *)
Definition Document (root : Node) : Ref := {| parents := []; node := root |}.

End goquery.

(** ** Package [astuart.co/goq] *)

Module goq.
Import html goquery.

Definition arrayLengthMismatch : string :=
  "array length does not match document elements found".

Definition valFunc : Type := Selection -> string.

(** The value of a tag that names no value source: the trimmed text. *)
Definition textVal : valFunc := fun s => strings.TrimSpace (Text s).

(** [unmarshalArray] into a Go array [[n]string]: as many nodes as the
    array has elements, or an error; element [i] takes the value of
    [s.Eq(i)]. Of the chain of errors [goq] wraps around a failure only
    the innermost is kept. *)
Definition unmarshalArray (n : nat) (s : Selection) (f : valFunc)
  : list string + Error :=
  if Nat.eqb n (length s) then inl (map (fun r => f [r]) s)
  else inr (goq_CannotUnmarshalError arrayLengthMismatch).

(** [unmarshalSlice]: one element per node of the selection, in order,
    stopping at the first element that fails. *)
Fixpoint unmarshalSlice {A : Type} (elem : Ref -> A + Error) (s : Selection)
  : list A + Error :=
  match s with
  | [] => inl []
  | r :: rest =>
      match elem r with
      | inr err => inr err
      | inl a =>
          match unmarshalSlice elem rest with
          | inr err => inr err
          | inl l => inl (a :: l)
          end
      end
  end.

End goq.

(** ** Package [net/http] *)

Module http.

(** A request: the method and the URL it was built from. *)
Record Request : Type := { Method : string; URL : string }.

(** A response body is a stream of bytes that is read once, by one of
    two parsers of other packages. It is represented by what each of
    them makes of it: the first JSON value [encoding/json] reads from
    it, and the tree [html.Parse] builds from it. Either may instead
    fail to read. *)
Record ReadCloser : Type := {
  json : json.Value + Error;
  tree : html.Node + Error
}.

Record Response : Type := { Body : ReadCloser }.

(** [http.Client]: what comes back for a request may depend on the
    requests sent before it. *)
Record Client : Type := {
  RoundTrip : list Request -> Request -> Response + Error
}.

(** [http.NewRequest(method, url, nil)] fails when [url.Parse] rejects
    the URL; the methods used here are valid. [parse] is that check. *)
Definition NewRequest (parse : string -> error) (method url : string)
  : Request + Error :=
  match parse url with
  | Some err => inr err
  | None => inl {| Method := method; URL := url |}
  end.

End http.

(** ** Running a call: requests sent, and panics *)

Inductive Outcome (A : Type) : Type :=
| Return (a : A)
| Panic (msg : string).
Arguments Return {A} a.
Arguments Panic {A} msg.

(** A computation takes the requests sent so far and gives its outcome and
    the requests sent by the time it ends. *)
Definition M (A : Type) : Type :=
  list http.Request -> Outcome A * list http.Request.

Definition ret {A : Type} (a : A) : M A := fun sent => (Return a, sent).

Definition bind {A B : Type} (c : M A) (k : A -> M B) : M B :=
  fun sent =>
    match c sent with
    | (Return a, sent') => k a sent'
    | (Panic msg, sent') => (Panic msg, sent')
    end.

Definition panic {A : Type} (msg : string) : M A := fun sent => (Panic msg, sent).

Notation "x <- c ;; k" := (bind c (fun x => k))
  (at level 61, c at next level, right associativity).

(** [c.Do(req)] on a [*http.Client]: one request goes out. *)
Definition Client_Do (c : ptr http.Client) (req : http.Request)
  : M (http.Response + Error) :=
  match c with
  | None => panic "invalid memory address or nil pointer dereference"
  | Some c => fun sent => (Return (http.RoundTrip c sent req), sent ++ [req])
  end.

(** [s[i]] on a slice. *)
Definition at_ {A : Type} (s : slice A) (i : nat) : M A :=
  match nth_error (match s with Some l => l | None => [] end) i with
  | Some a => ret a
  | None => panic "index out of range"
  end.

(** ** Package [cmc]: the types *)

(** [Ticker] contains all the information available about a coin. [Rank] is
    the one field that is not text: an [int] tagged [json:"rank,string"]. *)
Module Ticker.
Record t : Type := {
  ID : string;
  Name : string;
  Symbol : string;
  Rank : Z;
  PriceUSD : string;
  PriceBTC : string;
  VolumeUSD24hr : string;
  MarketCapUSD : string;
  SupplyAvailable : string;
  SupplyTotal : string;
  PercentChange1h : string;
  PercentChange24h : string;
  PercentChange7d : string;
  LastUpdated : string
}.

(** The zero value of the struct. *)
Definition zero : t :=
  {| ID := EmptyString; Name := EmptyString; Symbol := EmptyString;
     Rank := 0%Z; PriceUSD := EmptyString; PriceBTC := EmptyString;
     VolumeUSD24hr := EmptyString; MarketCapUSD := EmptyString;
     SupplyAvailable := EmptyString; SupplyTotal := EmptyString;
     PercentChange1h := EmptyString; PercentChange24h := EmptyString;
     PercentChange7d := EmptyString; LastUpdated := EmptyString |}.

(** Assignment to one field. *)
Definition set_ID (x : t) (v : string) : t :=
  {| ID := v; Name := Name x; Symbol := Symbol x; Rank := Rank x;
     PriceUSD := PriceUSD x; PriceBTC := PriceBTC x;
     VolumeUSD24hr := VolumeUSD24hr x; MarketCapUSD := MarketCapUSD x;
     SupplyAvailable := SupplyAvailable x; SupplyTotal := SupplyTotal x;
     PercentChange1h := PercentChange1h x;
     PercentChange24h := PercentChange24h x;
     PercentChange7d := PercentChange7d x; LastUpdated := LastUpdated x |}.

Definition set_Name (x : t) (v : string) : t :=
  {| ID := ID x; Name := v; Symbol := Symbol x; Rank := Rank x;
     PriceUSD := PriceUSD x; PriceBTC := PriceBTC x;
     VolumeUSD24hr := VolumeUSD24hr x; MarketCapUSD := MarketCapUSD x;
     SupplyAvailable := SupplyAvailable x; SupplyTotal := SupplyTotal x;
     PercentChange1h := PercentChange1h x;
     PercentChange24h := PercentChange24h x;
     PercentChange7d := PercentChange7d x; LastUpdated := LastUpdated x |}.

Definition set_Symbol (x : t) (v : string) : t :=
  {| ID := ID x; Name := Name x; Symbol := v; Rank := Rank x;
     PriceUSD := PriceUSD x; PriceBTC := PriceBTC x;
     VolumeUSD24hr := VolumeUSD24hr x; MarketCapUSD := MarketCapUSD x;
     SupplyAvailable := SupplyAvailable x; SupplyTotal := SupplyTotal x;
     PercentChange1h := PercentChange1h x;
     PercentChange24h := PercentChange24h x;
     PercentChange7d := PercentChange7d x; LastUpdated := LastUpdated x |}.

Definition set_Rank (x : t) (v : Z) : t :=
  {| ID := ID x; Name := Name x; Symbol := Symbol x; Rank := v;
     PriceUSD := PriceUSD x; PriceBTC := PriceBTC x;
     VolumeUSD24hr := VolumeUSD24hr x; MarketCapUSD := MarketCapUSD x;
     SupplyAvailable := SupplyAvailable x; SupplyTotal := SupplyTotal x;
     PercentChange1h := PercentChange1h x;
     PercentChange24h := PercentChange24h x;
     PercentChange7d := PercentChange7d x; LastUpdated := LastUpdated x |}.

Definition set_PriceUSD (x : t) (v : string) : t :=
  {| ID := ID x; Name := Name x; Symbol := Symbol x; Rank := Rank x;
     PriceUSD := v; PriceBTC := PriceBTC x; VolumeUSD24hr := VolumeUSD24hr x;
     MarketCapUSD := MarketCapUSD x; SupplyAvailable := SupplyAvailable x;
     SupplyTotal := SupplyTotal x; PercentChange1h := PercentChange1h x;
     PercentChange24h := PercentChange24h x;
     PercentChange7d := PercentChange7d x; LastUpdated := LastUpdated x |}.

Definition set_PriceBTC (x : t) (v : string) : t :=
  {| ID := ID x; Name := Name x; Symbol := Symbol x; Rank := Rank x;
     PriceUSD := PriceUSD x; PriceBTC := v; VolumeUSD24hr := VolumeUSD24hr x;
     MarketCapUSD := MarketCapUSD x; SupplyAvailable := SupplyAvailable x;
     SupplyTotal := SupplyTotal x; PercentChange1h := PercentChange1h x;
     PercentChange24h := PercentChange24h x;
     PercentChange7d := PercentChange7d x; LastUpdated := LastUpdated x |}.

Definition set_VolumeUSD24hr (x : t) (v : string) : t :=
  {| ID := ID x; Name := Name x; Symbol := Symbol x; Rank := Rank x;
     PriceUSD := PriceUSD x; PriceBTC := PriceBTC x; VolumeUSD24hr := v;
     MarketCapUSD := MarketCapUSD x; SupplyAvailable := SupplyAvailable x;
     SupplyTotal := SupplyTotal x; PercentChange1h := PercentChange1h x;
     PercentChange24h := PercentChange24h x;
     PercentChange7d := PercentChange7d x; LastUpdated := LastUpdated x |}.

Definition set_MarketCapUSD (x : t) (v : string) : t :=
  {| ID := ID x; Name := Name x; Symbol := Symbol x; Rank := Rank x;
     PriceUSD := PriceUSD x; PriceBTC := PriceBTC x;
     VolumeUSD24hr := VolumeUSD24hr x; MarketCapUSD := v;
     SupplyAvailable := SupplyAvailable x; SupplyTotal := SupplyTotal x;
     PercentChange1h := PercentChange1h x;
     PercentChange24h := PercentChange24h x;
     PercentChange7d := PercentChange7d x; LastUpdated := LastUpdated x |}.

Definition set_SupplyAvailable (x : t) (v : string) : t :=
  {| ID := ID x; Name := Name x; Symbol := Symbol x; Rank := Rank x;
     PriceUSD := PriceUSD x; PriceBTC := PriceBTC x;
     VolumeUSD24hr := VolumeUSD24hr x; MarketCapUSD := MarketCapUSD x;
     SupplyAvailable := v; SupplyTotal := SupplyTotal x;
     PercentChange1h := PercentChange1h x;
     PercentChange24h := PercentChange24h x;
     PercentChange7d := PercentChange7d x; LastUpdated := LastUpdated x |}.

Definition set_SupplyTotal (x : t) (v : string) : t :=
  {| ID := ID x; Name := Name x; Symbol := Symbol x; Rank := Rank x;
     PriceUSD := PriceUSD x; PriceBTC := PriceBTC x;
     VolumeUSD24hr := VolumeUSD24hr x; MarketCapUSD := MarketCapUSD x;
     SupplyAvailable := SupplyAvailable x; SupplyTotal := v;
     PercentChange1h := PercentChange1h x;
     PercentChange24h := PercentChange24h x;
     PercentChange7d := PercentChange7d x; LastUpdated := LastUpdated x |}.

Definition set_PercentChange1h (x : t) (v : string) : t :=
  {| ID := ID x; Name := Name x; Symbol := Symbol x; Rank := Rank x;
     PriceUSD := PriceUSD x; PriceBTC := PriceBTC x;
     VolumeUSD24hr := VolumeUSD24hr x; MarketCapUSD := MarketCapUSD x;
     SupplyAvailable := SupplyAvailable x; SupplyTotal := SupplyTotal x;
     PercentChange1h := v; PercentChange24h := PercentChange24h x;
     PercentChange7d := PercentChange7d x; LastUpdated := LastUpdated x |}.

Definition set_PercentChange24h (x : t) (v : string) : t :=
  {| ID := ID x; Name := Name x; Symbol := Symbol x; Rank := Rank x;
     PriceUSD := PriceUSD x; PriceBTC := PriceBTC x;
     VolumeUSD24hr := VolumeUSD24hr x; MarketCapUSD := MarketCapUSD x;
     SupplyAvailable := SupplyAvailable x; SupplyTotal := SupplyTotal x;
     PercentChange1h := PercentChange1h x; PercentChange24h := v;
     PercentChange7d := PercentChange7d x; LastUpdated := LastUpdated x |}.

Definition set_PercentChange7d (x : t) (v : string) : t :=
  {| ID := ID x; Name := Name x; Symbol := Symbol x; Rank := Rank x;
     PriceUSD := PriceUSD x; PriceBTC := PriceBTC x;
     VolumeUSD24hr := VolumeUSD24hr x; MarketCapUSD := MarketCapUSD x;
     SupplyAvailable := SupplyAvailable x; SupplyTotal := SupplyTotal x;
     PercentChange1h := PercentChange1h x;
     PercentChange24h := PercentChange24h x; PercentChange7d := v;
     LastUpdated := LastUpdated x |}.

Definition set_LastUpdated (x : t) (v : string) : t :=
  {| ID := ID x; Name := Name x; Symbol := Symbol x; Rank := Rank x;
     PriceUSD := PriceUSD x; PriceBTC := PriceBTC x;
     VolumeUSD24hr := VolumeUSD24hr x; MarketCapUSD := MarketCapUSD x;
     SupplyAvailable := SupplyAvailable x; SupplyTotal := SupplyTotal x;
     PercentChange1h := PercentChange1h x;
     PercentChange24h := PercentChange24h x;
     PercentChange7d := PercentChange7d x; LastUpdated := v |}.

(** The fields with their [json] tags, in declaration order. *)
Definition fields : list (json.Field t) :=
  [ json.StringField "id" ID set_ID;
    json.StringField "name" Name set_Name;
    json.StringField "symbol" Symbol set_Symbol;
    json.IntStringField "rank" Rank set_Rank;
    json.StringField "price_usd" PriceUSD set_PriceUSD;
    json.StringField "price_btc" PriceBTC set_PriceBTC;
    json.StringField "24h_volume_usd" VolumeUSD24hr set_VolumeUSD24hr;
    json.StringField "market_cap_usd" MarketCapUSD set_MarketCapUSD;
    json.StringField "available_supply" SupplyAvailable set_SupplyAvailable;
    json.StringField "total_supply" SupplyTotal set_SupplyTotal;
    json.StringField "percent_change_1h" PercentChange1h set_PercentChange1h;
    json.StringField "percent_change_24h" PercentChange24h set_PercentChange24h;
    json.StringField "percent_change_7d" PercentChange7d set_PercentChange7d;
    json.StringField "last_updated" LastUpdated set_LastUpdated ].
End Ticker.

(** [Price] contains information about the price of a cryptocurrency. *)
Module Price.
Record t : Type := {
  Date : string;
  OpenUSD : string;
  HighUSD : string;
  LowUSD : string;
  CloseUSD : string;
  VolumeUSD24hr : string;
  MarketCapUSD : string
}.

(** The zero value of the struct. *)
Definition zero : t :=
  {| Date := EmptyString; OpenUSD := EmptyString; HighUSD := EmptyString;
     LowUSD := EmptyString; CloseUSD := EmptyString;
     VolumeUSD24hr := EmptyString; MarketCapUSD := EmptyString |}.

(** Assignment to one field. *)
Definition set_Date (x : t) (v : string) : t :=
  {| Date := v; OpenUSD := OpenUSD x; HighUSD := HighUSD x;
     LowUSD := LowUSD x; CloseUSD := CloseUSD x;
     VolumeUSD24hr := VolumeUSD24hr x; MarketCapUSD := MarketCapUSD x |}.

Definition set_OpenUSD (x : t) (v : string) : t :=
  {| Date := Date x; OpenUSD := v; HighUSD := HighUSD x; LowUSD := LowUSD x;
     CloseUSD := CloseUSD x; VolumeUSD24hr := VolumeUSD24hr x;
     MarketCapUSD := MarketCapUSD x |}.

Definition set_HighUSD (x : t) (v : string) : t :=
  {| Date := Date x; OpenUSD := OpenUSD x; HighUSD := v; LowUSD := LowUSD x;
     CloseUSD := CloseUSD x; VolumeUSD24hr := VolumeUSD24hr x;
     MarketCapUSD := MarketCapUSD x |}.

Definition set_LowUSD (x : t) (v : string) : t :=
  {| Date := Date x; OpenUSD := OpenUSD x; HighUSD := HighUSD x; LowUSD := v;
     CloseUSD := CloseUSD x; VolumeUSD24hr := VolumeUSD24hr x;
     MarketCapUSD := MarketCapUSD x |}.

Definition set_CloseUSD (x : t) (v : string) : t :=
  {| Date := Date x; OpenUSD := OpenUSD x; HighUSD := HighUSD x;
     LowUSD := LowUSD x; CloseUSD := v; VolumeUSD24hr := VolumeUSD24hr x;
     MarketCapUSD := MarketCapUSD x |}.

Definition set_VolumeUSD24hr (x : t) (v : string) : t :=
  {| Date := Date x; OpenUSD := OpenUSD x; HighUSD := HighUSD x;
     LowUSD := LowUSD x; CloseUSD := CloseUSD x; VolumeUSD24hr := v;
     MarketCapUSD := MarketCapUSD x |}.

Definition set_MarketCapUSD (x : t) (v : string) : t :=
  {| Date := Date x; OpenUSD := OpenUSD x; HighUSD := HighUSD x;
     LowUSD := LowUSD x; CloseUSD := CloseUSD x;
     VolumeUSD24hr := VolumeUSD24hr x; MarketCapUSD := v |}.

(** The fields with their [json] tags, in declaration order. *)
Definition fields : list (json.Field t) :=
  [ json.StringField "date" Date set_Date;
    json.StringField "open" OpenUSD set_OpenUSD;
    json.StringField "high_usd" HighUSD set_HighUSD;
    json.StringField "low_usd" LowUSD set_LowUSD;
    json.StringField "close_usd" CloseUSD set_CloseUSD;
    json.StringField "24hr_volume_usd" VolumeUSD24hr set_VolumeUSD24hr;
    json.StringField "market_cap_usd" MarketCapUSD set_MarketCapUSD ].
End Price.

(** [Market] contains information about a market a cryptocurrency is sold
    on. [VolumeUSD24hr] and [PriceUSD] are tagged [json:"-"]: they are no
    fields as far as [encoding/json] is concerned. *)
Module Market.
Record t : Type := {
  Source : string;
  Pair : string;
  VolumeUSD24hr : string;
  PriceUSD : string;
  VolumePercentage : string
}.

(** The zero value of the struct. *)
Definition zero : t :=
  {| Source := EmptyString; Pair := EmptyString;
     VolumeUSD24hr := EmptyString; PriceUSD := EmptyString;
     VolumePercentage := EmptyString |}.

(** Assignment to one field. *)
Definition set_Source (x : t) (v : string) : t :=
  {| Source := v; Pair := Pair x; VolumeUSD24hr := VolumeUSD24hr x;
     PriceUSD := PriceUSD x; VolumePercentage := VolumePercentage x |}.

Definition set_Pair (x : t) (v : string) : t :=
  {| Source := Source x; Pair := v; VolumeUSD24hr := VolumeUSD24hr x;
     PriceUSD := PriceUSD x; VolumePercentage := VolumePercentage x |}.

Definition set_VolumePercentage (x : t) (v : string) : t :=
  {| Source := Source x; Pair := Pair x; VolumeUSD24hr := VolumeUSD24hr x;
     PriceUSD := PriceUSD x; VolumePercentage := v |}.

(** The fields with their [json] tags, in declaration order. *)
Definition fields : list (json.Field t) :=
  [ json.StringField "source" Source set_Source;
    json.StringField "pair" Pair set_Pair;
    json.StringField "volume_percent" VolumePercentage set_VolumePercentage ].
End Market.

(** [TickersOptions] allows for customizing the response from the
    [Tickers] call. *)
Module TickersOptions.
Record t : Type := { Start : Z; Limit : Z }.
End TickersOptions.

(** [PricesOptions] allows you to specify start and end date for
    historical price data. *)
Module PricesOptions.
Record t : Type := { Start : string; End_ : string }.
End PricesOptions.

(** [pricesQ] contains the goquery queries for parsing out the historical
    price data from the HTML: one element per ["tbody tr"], with [Date] the
    text of its ["td.text-left"] and [Vals], a [[6]string], the texts of its
    ["[data-format-value]"] nodes. *)
Module pricesQ.
Record row : Type := { Date : string; Vals : list string }.
Record t : Type := { Prices : list row }.

Definition unmarshalRow (r : html.Ref) : row + Error :=
  let date := goq.textVal (goquery.Find r cascadia.td_text_left) in
  match goq.unmarshalArray 6 (goquery.Find r cascadia.data_format_value) goq.textVal with
  | inr err => inr err
  | inl vals => inl {| Date := date; Vals := vals |}
  end.

(** [goq.NewDecoder(body).Decode(&_prices)]. *)
Definition Decode (body : http.ReadCloser) : t + Error :=
  match http.tree body with
  | inr err => inr err
  | inl root =>
      match goq.unmarshalSlice unmarshalRow
              (goquery.Find (goquery.Document root) cascadia.tbody_tr) with
      | inr err => inr err
      | inl rows => inl {| Prices := rows |}
      end
  end.
End pricesQ.

(** [marketsQ]: one element per ["tbody tr"], with [SourcePair], a
    [[2]string], the texts of its ["td a"] nodes and [Vals], a [[3]string],
    the texts of its ["td span"] nodes. *)
Module marketsQ.
Record row : Type := { SourcePair : list string; Vals : list string }.
Record t : Type := { Markets : list row }.

Definition unmarshalRow (r : html.Ref) : row + Error :=
  match goq.unmarshalArray 2 (goquery.Find r cascadia.td_a) goq.textVal with
  | inr err => inr err
  | inl sp =>
      match goq.unmarshalArray 3 (goquery.Find r cascadia.td_span) goq.textVal with
      | inr err => inr err
      | inl vals => inl {| SourcePair := sp; Vals := vals |}
      end
  end.

(** [goq.NewDecoder(body).Decode(&_markets)]. *)
Definition Decode (body : http.ReadCloser) : t + Error :=
  match http.tree body with
  | inr err => inr err
  | inl root =>
      match goq.unmarshalSlice unmarshalRow
              (goquery.Find (goquery.Document root) cascadia.tbody_tr) with
      | inr err => inr err
      | inl rows => inl {| Markets := rows |}
      end
  end.
End marketsQ.

(** ** Package [cmc]: the client *)

Definition apiAddr : string := "https://api.coinmarketcap.com/v1".
Definition websiteAddr : string := "https://coinmarketcap.com/currencies".

Definition errors_New (text : string) : Error := errorString text.

(** [clean], the closure of [Prices]: [strings.Replace(s, ",", "", -1)]. *)
Definition clean (s : string) : string := strings.ReplaceByte s "," "".

(** [WebClient] implements [Client] by calling an HTTP server that is the
    CoinMarketCap API. *)
Module WebClient.
Record t : Type := {
  apiAddr : string;
  websiteAddr : string;
  httpClient : ptr http.Client
}.

Section Operations.

(** What [url.Parse] makes of a URL: [None] when it accepts it. *)
Variable url_Parse : string -> error.

(** The URL [Tickers] builds. *)
Definition Tickers_u (cli : t) (opts : ptr TickersOptions.t) : string :=
  let u := fmt.Sprintf "%s/ticker" [apiAddr cli] in
  match opts with
  | Some opts =>
      let q : url.Values := [] in
      let q := url.Add q "start" (strconv.Itoa (TickersOptions.Start opts)) in
      let q := url.Add q "limit" (strconv.Itoa (TickersOptions.Limit opts)) in
      fmt.Sprintf "%s?%s" [u; url.Encode q]
  | None => u
  end.

(** [Tickers] returns available information about coin tickers. *)
Definition Tickers (cli : t) (opts : ptr TickersOptions.t)
  : M (slice (ptr Ticker.t) * error) :=
  let u := Tickers_u cli opts in
  match http.NewRequest url_Parse "GET" u with
  | inr err => ret (None, Some err)
  | inl req =>
      r <- Client_Do (httpClient cli) req ;;
      match r with
      | inr err => ret (None, Some err)
      | inl res =>
          let tickers : slice (ptr Ticker.t) := Some [] in
          match json.Decode Ticker.fields Ticker.zero
                  (http.json (http.Body res)) tickers with
          | (_, Some err) => ret (None, Some err)
          | (tickers, None) => ret (tickers, None)
          end
      end
  end.

(** [Ticker] returns information about one coin. *)
Definition Ticker (cli : t) (id : string) : M (ptr Ticker.t * error) :=
  match http.NewRequest url_Parse "GET"
          (fmt.Sprintf "%s/ticker/%s" [apiAddr cli; id]) with
  | inr err => ret (None, Some err)
  | inl req =>
      r <- Client_Do (httpClient cli) req ;;
      match r with
      | inr err => ret (None, Some err)
      | inl res =>
          let tickers : slice (ptr Ticker.t) := Some [] in
          match json.Decode Ticker.fields Ticker.zero
                  (http.json (http.Body res)) tickers with
          | (_, Some err) => ret (None, Some err)
          | (tickers, None) =>
              if negb (Nat.eqb (len tickers) 1) then
                ret (None, Some (errors_New "unexpected error retreiving ticker"))
              else
                t <- at_ tickers 0 ;;
                ret (t, None)
          end
      end
  end.

(** The URL [Prices] builds. *)
Definition Prices_u (cli : t) (id : string) (opts : ptr PricesOptions.t)
  : string :=
  let u := fmt.Sprintf "%s/%s/historical-data" [websiteAddr cli; id] in
  match opts with
  | Some opts =>
      let q : url.Values := [] in
      let q := url.Add q "start" (PricesOptions.Start opts) in
      let q := url.Add q "end" (PricesOptions.End_ opts) in
      fmt.Sprintf "%s?%s" [u; url.Encode q]
  | None => u
  end.

(** The body of the loop of [Prices]. *)
Definition Prices_step (prices : slice (ptr Price.t)) (p : pricesQ.row)
  : slice (ptr Price.t) :=
  let price :=
    Some {| Price.Date := pricesQ.Date p;
            Price.OpenUSD := clean (index (pricesQ.Vals p) 0);
            Price.HighUSD := clean (index (pricesQ.Vals p) 1);
            Price.LowUSD := clean (index (pricesQ.Vals p) 2);
            Price.CloseUSD := clean (index (pricesQ.Vals p) 3);
            Price.VolumeUSD24hr := clean (index (pricesQ.Vals p) 4);
            Price.MarketCapUSD := clean (index (pricesQ.Vals p) 5) |} in
  append prices price.

(** [Prices] returns historical price data. This is not part of the
    standard API, so it involves scraping and is brittle. *)
Definition Prices (cli : t) (id : string) (opts : ptr PricesOptions.t)
  : M (slice (ptr Price.t) * error) :=
  let u := Prices_u cli id opts in
  match http.NewRequest url_Parse "GET" u with
  | inr err => ret (None, Some err)
  | inl req =>
      r <- Client_Do (httpClient cli) req ;;
      match r with
      | inr err => ret (None, Some err)
      | inl res =>
          match pricesQ.Decode (http.Body res) with
          | inr err => ret (None, Some err)
          | inl _prices =>
              let prices : slice (ptr Price.t) := make 30 in
              let prices := fold_left Prices_step (pricesQ.Prices _prices) prices in
              ret (prices, None)
          end
      end
  end.

(** The body of the loop of [Markets]. *)
Definition Markets_step (markets : slice (ptr Market.t)) (m : marketsQ.row)
  : slice (ptr Market.t) :=
  let market :=
    Some {| Market.Source := index (marketsQ.SourcePair m) 0;
            Market.Pair := index (marketsQ.SourcePair m) 1;
            Market.VolumeUSD24hr := index (marketsQ.Vals m) 0;
            Market.PriceUSD := index (marketsQ.Vals m) 1;
            Market.VolumePercentage := index (marketsQ.Vals m) 2 |} in
  append markets market.

(** [Markets] returns information about how much volume is happening on
    each exchange. This involves scraping. *)
Definition Markets (cli : t) (id : string)
  : M (slice (ptr Market.t) * error) :=
  match http.NewRequest url_Parse "GET"
          (fmt.Sprintf "%s/%s#markets" [websiteAddr cli; id]) with
  | inr err => ret (None, Some err)
  | inl req =>
      r <- Client_Do (httpClient cli) req ;;
      match r with
      | inr err => ret (None, Some err)
      | inl res =>
          match marketsQ.Decode (http.Body res) with
          | inr err => ret (None, Some err)
          | inl _markets =>
              let markets : slice (ptr Market.t) := make 5 in
              let markets := fold_left Markets_step (marketsQ.Markets _markets) markets in
              ret (markets, None)
          end
      end
  end.

End Operations.

End WebClient.

(** [Option] allows for the customization of a [WebClient]. *)
Definition Option : Type := WebClient.t -> WebClient.t.

Definition WithHTTPClient (httpClient : ptr http.Client) : Option :=
  fun cli =>
    {| WebClient.apiAddr := WebClient.apiAddr cli;
       WebClient.websiteAddr := WebClient.websiteAddr cli;
       WebClient.httpClient := httpClient |}.

Definition WithAPIAddress (apiAddr : string) : Option :=
  fun cli =>
    {| WebClient.apiAddr := apiAddr;
       WebClient.websiteAddr := WebClient.websiteAddr cli;
       WebClient.httpClient := WebClient.httpClient cli |}.

(** [NewWebClient] instantiates a new client, [DefaultClient] standing for
    [http.DefaultClient]. *)
Definition NewWebClient (DefaultClient : http.Client) (opts : list Option)
  : WebClient.t :=
  fold_left (fun cli opt => opt cli) opts
    {| WebClient.apiAddr := apiAddr;
       WebClient.websiteAddr := websiteAddr;
       WebClient.httpClient := Some DefaultClient |}.

(** ** The words of the specification

    Readings of a page and of a JSON body in which the properties below
    are stated. None of them is used by the client. *)

(** The table rows of a page, its ["tbody tr"] elements in document order,
    and the cells of a row. *)
Definition rows (root : html.Node) : goquery.Selection :=
  goquery.Find (goquery.Document root) cascadia.tbody_tr.

Definition date_cell (r : html.Ref) : string :=
  goq.textVal (goquery.Find r cascadia.td_text_left).

Definition value_cells (r : html.Ref) : list string :=
  map (fun c => goq.textVal [c]) (goquery.Find r cascadia.data_format_value).

Definition link_texts (r : html.Ref) : list string :=
  map (fun c => goq.textVal [c]) (goquery.Find r cascadia.td_a).

Definition span_texts (r : html.Ref) : list string :=
  map (fun c => goq.textVal [c]) (goquery.Find r cascadia.td_span).

(** What [goq] fills an element of [pricesQ.Prices] and of
    [marketsQ.Markets] with, for a row of the documented shape. *)
Definition pricesQ_of_row (r : html.Ref) : pricesQ.row :=
  {| pricesQ.Date := date_cell r; pricesQ.Vals := value_cells r |}.

Definition marketsQ_of_row (r : html.Ref) : marketsQ.row :=
  {| marketsQ.SourcePair := link_texts r; marketsQ.Vals := span_texts r |}.

(** A text with every comma taken out and nothing else changed. *)
Definition without_commas (s : string) : string :=
  string_of_list_ascii
    (filter (fun c => negb (Ascii.eqb c ",")) (list_ascii_of_string s)).

(** The record of a row of the historical-data table: the date, then the
    six values in the column order open, high, low, close, volume, market
    cap. *)
Definition Price_of_row (r : html.Ref) : Price.t :=
  {| Price.Date := date_cell r;
     Price.OpenUSD := without_commas (nth 0 (value_cells r) "");
     Price.HighUSD := without_commas (nth 1 (value_cells r) "");
     Price.LowUSD := without_commas (nth 2 (value_cells r) "");
     Price.CloseUSD := without_commas (nth 3 (value_cells r) "");
     Price.VolumeUSD24hr := without_commas (nth 4 (value_cells r) "");
     Price.MarketCapUSD := without_commas (nth 5 (value_cells r) "") |}.

(** The record of a row of the markets table: the two link texts, then the
    three further cells. *)
Definition Market_of_row (r : html.Ref) : Market.t :=
  {| Market.Source := nth 0 (link_texts r) "";
     Market.Pair := nth 1 (link_texts r) "";
     Market.VolumeUSD24hr := nth 0 (span_texts r) "";
     Market.PriceUSD := nth 1 (span_texts r) "";
     Market.VolumePercentage := nth 2 (span_texts r) "" |}.

(** A row of the shape each table is documented to have. *)
Definition price_row_ok (r : html.Ref) : bool :=
  Nat.eqb (length (value_cells r)) 6.

Definition market_row_ok (r : html.Ref) : bool :=
  Nat.eqb (length (link_texts r)) 2 && Nat.eqb (length (span_texts r)) 3.

(** Whether an object key names the [Ticker] field tagged [tag]. *)
Definition names (tag key : string) : bool :=
  match json.findField Ticker.fields key with
  | Some f => String.eqb (json.name f) tag
  | None => false
  end.

(** The value of the last member of an object that names [tag]. *)
Definition last_member (tag : string) (members : list (string * json.Value))
  : option json.Value :=
  option_map snd (find (fun kv => names tag (fst kv)) (rev members)).

(** The string a member gives a text field, [default] when no member
    names the field, and the integer a member gives [Rank]. *)
Definition member_text_or (default : string) (tag : string)
           (members : list (string * json.Value)) : string :=
  match last_member tag members with
  | Some (json.JString s) => s
  | _ => default
  end.

Definition member_int_or (default : Z) (tag : string)
           (members : list (string * json.Value)) : Z :=
  match last_member tag members with
  | Some (json.JString s) =>
      match strconv.ParseInt s with
      | Some n => n
      | None => default
      end
  | _ => default
  end.

(** The members of an object laid over a record: each text field is the
    string of the member that names it, as it stands; [Rank] is the
    integer parse of the string of the member that names it; a field that
    no member names is left as it was. *)
Definition Ticker_over (members : list (string * json.Value)) (t : Ticker.t)
  : Ticker.t :=
  {| Ticker.ID := member_text_or (Ticker.ID t) "id" members;
     Ticker.Name := member_text_or (Ticker.Name t) "name" members;
     Ticker.Symbol := member_text_or (Ticker.Symbol t) "symbol" members;
     Ticker.Rank := member_int_or (Ticker.Rank t) "rank" members;
     Ticker.PriceUSD := member_text_or (Ticker.PriceUSD t) "price_usd" members;
     Ticker.PriceBTC := member_text_or (Ticker.PriceBTC t) "price_btc" members;
     Ticker.VolumeUSD24hr := member_text_or (Ticker.VolumeUSD24hr t) "24h_volume_usd" members;
     Ticker.MarketCapUSD := member_text_or (Ticker.MarketCapUSD t) "market_cap_usd" members;
     Ticker.SupplyAvailable := member_text_or (Ticker.SupplyAvailable t) "available_supply" members;
     Ticker.SupplyTotal := member_text_or (Ticker.SupplyTotal t) "total_supply" members;
     Ticker.PercentChange1h := member_text_or (Ticker.PercentChange1h t) "percent_change_1h" members;
     Ticker.PercentChange24h := member_text_or (Ticker.PercentChange24h t) "percent_change_24h" members;
     Ticker.PercentChange7d := member_text_or (Ticker.PercentChange7d t) "percent_change_7d" members;
     Ticker.LastUpdated := member_text_or (Ticker.LastUpdated t) "last_updated" members |}.

(** The record a ticker object denotes: the members laid over the zero
    value, so that a field no member names is empty, and [Rank] is 0. *)
Definition Ticker_of_members (members : list (string * json.Value)) : Ticker.t :=
  Ticker_over members Ticker.zero.

Definition Ticker_of_json (v : json.Value) : ptr Ticker.t :=
  match v with
  | json.JObject members => Some (Ticker_of_members members)
  | _ => None
  end.

(** A decimal integer literal that fits an [int]: an optional minus sign
    and digits. *)
Definition int_literal (s : string) : bool :=
  match s with
  | EmptyString => false
  | String c _ =>
      strconv.digit_or_minus c
      && match strconv.ParseInt s with Some _ => true | None => false end
  end.

(** A valid ticker-array body: an array of objects in which every member
    that names a field of [Ticker] holds a string, the one that names
    [Rank] a numeric string. *)
Definition valid_member (kv : string * json.Value) : bool :=
  match json.findField Ticker.fields (fst kv), snd kv with
  | None, _ => true
  | Some (json.StringField _ _ _), json.JString _ => true
  | Some (json.IntStringField _ _ _), json.JString s => int_literal s
  | Some _, _ => false
  end.

Definition valid_ticker (v : json.Value) : bool :=
  match v with
  | json.JObject members => forallb valid_member members
  | _ => false
  end.

Definition valid_tickers (v : json.Value) : bool :=
  match v with
  | json.JArray elems => forallb valid_ticker elems
  | _ => false
  end.

(** The request [http.NewRequest("GET", u, nil)] builds. *)
Definition GET (u : string) : http.Request :=
  {| http.Method := "GET"; http.URL := u |}.

(** All or nothing: whatever comes back next to an error is nil, and the
    call has sent at most one request. *)
Definition all_or_nothing {A : Type} (sent : list http.Request)
           (run : Outcome (option A * error) * list http.Request) : Prop :=
  (forall r err, fst run = Return (r, Some err) -> r = None)
  /\ (snd run = sent \/ exists req, snd run = sent ++ [req]).

(** The first failure on the path of a call: the URL does not parse, or
    the request fails, or the body does not decode. *)
Definition first_failure (url_Parse : string -> error) (c : http.Client)
           (sent : list http.Request) (u : string)
           (decode : http.ReadCloser -> error) : error :=
  match url_Parse u with
  | Some err => Some err
  | None =>
      match http.RoundTrip c sent (GET u) with
      | inr err => Some err
      | inl res => decode (http.Body res)
      end
  end.

Definition Tickers_failure (body : http.ReadCloser) : error :=
  snd (json.Decode Ticker.fields Ticker.zero (http.json body) (Some [])).

Definition Ticker_failure (body : http.ReadCloser) : error :=
  match json.Decode Ticker.fields Ticker.zero (http.json body) (Some []) with
  | (_, Some err) => Some err
  | (tickers, None) =>
      if Nat.eqb (len tickers) 1 then None
      else Some (errors_New "unexpected error retreiving ticker")
  end.

Definition Prices_failure (body : http.ReadCloser) : error :=
  match pricesQ.Decode body with
  | inr err => Some err
  | inl _ => None
  end.

Definition Markets_failure (body : http.ReadCloser) : error :=
  match marketsQ.Decode body with
  | inr err => Some err
  | inl _ => None
  end.

(** Encoding a record sequence to JSON and decoding the result into a
    fresh slice, and the same for one record. *)
Definition roundtrip {T : Type} (fields : list (json.Field T)) (zero : T)
           (s : slice (ptr T)) : slice (ptr T) * error :=
  json.Decode fields zero (inl (json.Marshal fields s)) None.

Definition roundtrip_ptr {T : Type} (fields : list (json.Field T)) (zero : T)
           (p : ptr T) : ptr T * error :=
  json.unmarshalPtr fields zero (json.marshalPtr fields p) None.

(** [Rank] fits an [int]. *)
Definition Rank_fits (p : ptr Ticker.t) : Prop :=
  match p with
  | None => True
  | Some t => (strconv.minInt64 <= Ticker.Rank t <= strconv.maxInt64)%Z
  end.

(** Every text field that is encoded is well-formed UTF-8. *)
Definition texts_valid {T : Type} (fields : list (json.Field T)) (p : ptr T) : bool :=
  match p with
  | None => true
  | Some t =>
      forallb
        (fun f =>
           match f with
           | json.StringField _ get _ => utf8.ValidString (get t)
           | json.IntStringField _ _ _ => true
           end)
        fields
  end.

Definition all_texts_valid {T : Type} (fields : list (json.Field T))
           (s : slice (ptr T)) : bool :=
  match s with
  | None => true
  | Some l => forallb (texts_valid fields) l
  end.

(** What is left of a [Market] in its JSON encoding. *)
Definition Market_encoded (p : ptr Market.t) : ptr Market.t :=
  match p with
  | None => None
  | Some m =>
      Some {| Market.Source := Market.Source m;
              Market.Pair := Market.Pair m;
              Market.VolumeUSD24hr := "";
              Market.PriceUSD := "";
              Market.VolumePercentage := Market.VolumePercentage m |}
  end.

(** ** Pages, bodies and clients used as examples *)

Definition element (tag : string) (attr : list (string * string))
           (children : list html.Node) : html.Node :=
  html.mkNode html.ElementNode tag
    (map (fun kv => {| html.Key := fst kv; html.Val := snd kv |}) attr) children.

Definition text (s : string) : html.Node := html.mkNode html.TextNode s [] [].

Definition document (children : list html.Node) : html.Node :=
  html.mkNode html.DocumentNode "" [] children.

Definition value_td (s : string) : html.Node :=
  element "td" [("data-format-fiat", ""); ("data-format-value", s)] [text s].

(** A historical-data page with a header row and one row of data. *)
Definition historical_page : html.Node :=
  document
    [ element "html" []
        [ element "head" [] [];
          element "body" []
            [ element "table" [("class", "table")]
                [ element "thead" []
                    [ element "tr" [] [ element "th" [("class", "text-left")] [text "Date"] ] ];
                  element "tbody" []
                    [ element "tr" [("class", "text-right")]
                        [ element "td" [("class", "text-left")] [text "2020-01-01"];
                          value_td "1,000"; value_td "1,100"; value_td "900";
                          value_td "1,050"; value_td "500,000"; value_td "1,000,000" ] ] ] ] ] ].

(** A well-formed page that has no table. *)
Definition no_table_page : html.Node :=
  document
    [ element "html" []
        [ element "head" [] [ element "title" [] [text "Not found"] ];
          element "body" [] [ element "p" [] [text "Nothing here."] ] ] ].

(** A markets page with one row. *)
Definition markets_page : html.Node :=
  document
    [ element "html" []
        [ element "head" [] [];
          element "body" []
            [ element "table" [("id", "markets-table")]
                [ element "tbody" []
                    [ element "tr" []
                        [ element "td" [] [text "1"];
                          element "td" [] [ element "a" [("href", "/exchanges/binance/")] [text "Binance"] ];
                          element "td" [] [ element "a" [("href", "https://www.binance.com/")] [text "BTC/USDT"] ];
                          element "td" [] [ element "span" [("class", "volume")] [text "$1,000"] ];
                          element "td" [] [ element "span" [("class", "price")] [text "$9,000.00"] ];
                          element "td" [] [ element "span" [] [text "12.5%"] ] ] ] ] ] ] ].

(** A body that is an HTML page, and one that is a JSON text. *)
Definition html_body (root : html.Node) : http.ReadCloser :=
  {| http.json := inr json_SyntaxError; http.tree := inl root |}.

Definition json_body (v : json.Value) : http.ReadCloser :=
  {| http.json := inl v;
     http.tree := inl (document [ element "html" [] [ element "head" [] []; element "body" [] [] ] ]) |}.

(** A server that answers every request with the same body, as the
    handler of [TestTickers] does. *)
Definition serving (body : http.ReadCloser) : WebClient.t :=
  {| WebClient.apiAddr := "http://127.0.0.1:8080";
     WebClient.websiteAddr := websiteAddr;
     WebClient.httpClient :=
       Some {| http.RoundTrip := fun _ _ => inl {| http.Body := body |} |} |}.

(** A network that is down. *)
Definition unreachable : WebClient.t :=
  {| WebClient.apiAddr := apiAddr;
     WebClient.websiteAddr := websiteAddr;
     WebClient.httpClient :=
       Some {| http.RoundTrip := fun _ req => inr (url_Error "Get" (http.URL req)) |} |}.

(** A historical-data page one of whose rows is a notice instead of data. *)
Definition no_data_page : html.Node :=
  document
    [ element "html" []
        [ element "head" [] [];
          element "body" []
            [ element "table" []
                [ element "tbody" []
                    [ element "tr" []
                        [ element "td" [("colspan", "7")]
                            [text "No data was found for the selected time period."] ] ] ] ] ] ].

(** A historical-data page one of whose cells holds a byte that is not
    UTF-8. *)
Definition latin1_page : html.Node :=
  document
    [ element "html" []
        [ element "head" [] [];
          element "body" []
            [ element "table" []
                [ element "tbody" []
                    [ element "tr" []
                        [ element "td" [("class", "text-left")] [text "2020-01-01"];
                          value_td (strings.bytes [50; 255]); value_td "1"; value_td "1";
                          value_td "1"; value_td "1"; value_td "1" ] ] ] ] ] ].

(** A URL parser that accepts everything, and one that accepts nothing. *)
Definition accept : string -> error := fun _ => None.
Definition reject : string -> error := fun u => Some (url_Error "parse" u).

Definition member (key value : string) : string * json.Value :=
  (key, json.JString value).

(** A ticker array whose second element is not an object. *)
Definition broken_tickers : json.Value :=
  json.JArray [ json.JObject [member "id" "bitcoin"]; json.JNumber "5" ].

(** The body of [TestTickers]. *)
Definition TestTickers_body : json.Value :=
  json.JArray
    [ json.JObject
        [ member "id" "bitcoin"; member "name" "Bitcoin"; member "symbol" "BTC";
          member "rank" "1"; member "price_usd" "573.137"; member "price_btc" "1.0";
          member "24h_volume_usd" "72855700.0"; member "market_cap_usd" "9080883500.0";
          member "available_supply" "15844176.0"; member "total_supply" "15844176.0";
          member "percent_change_1h" "0.04"; member "percent_change_24h" "-0.3";
          member "percent_change_7d" "-0.57"; member "last_updated" "1472762067" ];
      json.JObject
        [ member "id" "ethereum"; member "name" "Ethereum"; member "symbol" "ETH";
          member "rank" "2"; member "price_usd" "12.1844"; member "price_btc" "0.021262";
          member "24h_volume_usd" "24085900.0"; member "market_cap_usd" "1018098455.0";
          member "available_supply" "83557537.0"; member "total_supply" "83557537.0";
          member "percent_change_1h" "-0.58"; member "percent_change_24h" "6.34";
          member "percent_change_7d" "8.59"; member "last_updated" "1472762062" ] ].


(** ** More words: options, acceptance, the nodes of a page *)

(** The options a user of the package can build: the fields of
    [WebClient] are not exported, so [WithHTTPClient] and [WithAPIAddress]
    are the only ones there are. *)
Inductive Opt : Type :=
| OptHTTPClient (httpClient : ptr http.Client)
| OptAPIAddress (apiAddr : string).

Definition option_of (o : Opt) : Option :=
  match o with
  | OptHTTPClient c => WithHTTPClient c
  | OptAPIAddress a => WithAPIAddress a
  end.

(** The address of the last [WithAPIAddress] of a list of options, and the
    client of the last [WithHTTPClient]. *)
Definition last_address (os : list Opt) : string :=
  fold_left (fun a o => match o with OptAPIAddress b => b | _ => a end) os apiAddr.

Definition last_client (DefaultClient : http.Client) (os : list Opt)
  : ptr http.Client :=
  fold_left (fun c o => match o with OptHTTPClient c' => c' | _ => c end) os
    (Some DefaultClient).

(** The message of the panic of a nil pointer dereference. *)
Definition nil_dereference : string :=
  "invalid memory address or nil pointer dereference".

(** What a call sends: one [GET] of [u] when the URL parses and there is a
    client, nothing otherwise. *)
Definition sends (url_Parse : string -> error) (cli : WebClient.t) (u : string)
  : list http.Request :=
  match url_Parse u, WebClient.httpClient cli with
  | None, Some _ => [GET u]
  | _, _ => []
  end.

(** The bytes [url.QueryEscape] leaves as they are, and the bytes its
    result is made of. *)
Definition unreserved (c : ascii) : bool :=
  url.isAlnum c || strings.contains c "-_.~".

Definition query_safe (c : ascii) : bool :=
  url.isAlnum c || strings.contains c "-_.~%+".

(** The bodies [Tickers] decodes without an error: [null], or an array
    whose elements are [null] or objects in which every member that names
    a text field holds a string or [null], and every member that names
    [Rank] holds [null], the string ["null"], or a string that is a
    decimal integer fitting an [int]. *)
Definition accepts_member (kv : string * json.Value) : bool :=
  match json.findField Ticker.fields (fst kv), snd kv with
  | None, _ => true
  | Some _, json.JNull => true
  | Some (json.StringField _ _ _), json.JString _ => true
  | Some (json.IntStringField _ _ _), json.JString s =>
      int_literal s || String.eqb s "null"
  | Some _, _ => false
  end.

Definition accepts_element (v : json.Value) : bool :=
  match v with
  | json.JNull => true
  | json.JObject members => forallb accepts_member members
  | _ => false
  end.

Definition accepts (v : json.Value) : bool :=
  match v with
  | json.JNull => true
  | json.JArray elems => forallb accepts_element elems
  | _ => false
  end.

(** A body without the members that name no field of [Ticker]. *)
Definition known_member (kv : string * json.Value) : bool :=
  match json.findField Ticker.fields (fst kv) with
  | Some _ => true
  | None => false
  end.

Definition known_only (v : json.Value) : json.Value :=
  match v with
  | json.JArray elems =>
      json.JArray
        (map (fun e =>
                match e with
                | json.JObject members => json.JObject (filter known_member members)
                | _ => e
                end)
             elems)
  | _ => v
  end.

(** The value of a field of a record. *)
Definition read {T : Type} (f : json.Field T) (t : T) : string + Z :=
  match f with
  | json.StringField _ get _ => inl (get t)
  | json.IntStringField _ get _ => inr (get t)
  end.

(** The nodes of a tree, in document order, and the test for an element
    of a given name. *)
Fixpoint subnodes (n : html.Node) : list html.Node :=
  n :: match n with
       | html.mkNode _ _ _ cs => flat_map subnodes cs
       end.

Definition is_tag (tag : string) (n : html.Node) : bool :=
  html.isElement n && String.eqb (html.Data n) tag.

(** A client that gets the same body for every request, and a ticker
    body with a member that [Ticker] has no field for. *)
Definition replying (body : http.ReadCloser) : http.Client :=
  {| http.RoundTrip := fun _ _ => inl {| http.Body := body |} |}.

Definition with_max_supply : json.Value :=
  json.JArray
    [json.JObject [member "id" "bitcoin"; ("max_supply", json.JNumber "21000000")]].

(* ===================================================================== *)
(** * Part II: the properties *)
(* ===================================================================== *)

(** ** Texts *)

Lemma append_nil_r (s : string) : (s ++ "")%string = s.
Proof. induction s as [|c s IH]; simpl; [|rewrite IH]; reflexivity. Qed.

Lemma append_assoc (a b c : string) : ((a ++ b) ++ c)%string = (a ++ (b ++ c))%string.
Proof. induction a as [|x a IH]; simpl; [|rewrite IH]; reflexivity. Qed.

Lemma ReplaceByte_empty_filter (s : string) (old : ascii) :
  strings.ReplaceByte s old "" =
  string_of_list_ascii
    (filter (fun c => negb (Ascii.eqb c old)) (list_ascii_of_string s)).
Proof.
  induction s as [|c s IH]; simpl; [reflexivity|].
  destruct (Ascii.eqb c old); simpl; rewrite IH; reflexivity.
Qed.

Lemma clean_without_commas (s : string) : clean s = without_commas s.
Proof. apply ReplaceByte_empty_filter. Qed.

Lemma clean_no_comma (s : string) : strings.contains "," (clean s) = false.
Proof.
  unfold clean.
  induction s as [|c s IH]; simpl; [reflexivity|].
  destruct (Ascii.eqb c ",") eqn:E; simpl; [exact IH|].
  rewrite E. exact IH.
Qed.

Lemma clean_fixed (s : string) : strings.contains "," s = false -> clean s = s.
Proof.
  unfold clean.
  induction s as [|c s IH]; simpl; [reflexivity|].
  destruct (Ascii.eqb c ",") eqn:E; simpl; [discriminate|].
  intros H. rewrite (IH H). reflexivity.
Qed.

(** ** Decimal numbers *)

Lemma string_of_uint_digits (d : Decimal.uint) :
  forall c, strings.contains c (NilEmpty.string_of_uint d) = true ->
            strconv.isDigit c = true.
Proof.
  induction d; cbn [NilEmpty.string_of_uint strings.contains]; intros c H;
    try discriminate;
    apply orb_true_iff in H as [H|H]; auto;
    apply Ascii.eqb_eq in H; subst c; reflexivity.
Qed.

Lemma string_of_uint_head (d : Decimal.uint) :
  d <> Decimal.Nil ->
  exists c r, NilEmpty.string_of_uint d = String c r
              /\ strconv.isDigit c = true.
Proof.
  destruct d; intros H; try congruence; simpl; eauto.
Qed.

Lemma NilZero_NilEmpty (d : Decimal.uint) :
  d <> Decimal.Nil -> NilZero.string_of_uint d = NilEmpty.string_of_uint d.
Proof. destruct d; intros H; try congruence; reflexivity. Qed.

Lemma Itoa_chars (n : Z) :
  forall c, strings.contains c (strconv.Itoa n) = true -> strconv.digit_or_minus c = true.
Proof.
  intros c. unfold strconv.Itoa, strconv.digit_or_minus.
  destruct n as [|p|p]; cbn [Z.to_int NilZero.string_of_int].
  - cbn [NilZero.string_of_uint NilEmpty.string_of_uint strings.contains].
    intros H. apply orb_true_iff in H as [H|H]; [|discriminate].
    apply Ascii.eqb_eq in H; subst c; reflexivity.
  - rewrite NilZero_NilEmpty by apply DecimalPos.Unsigned.to_uint_nonnil.
    intros H. apply string_of_uint_digits in H. rewrite H. apply orb_true_r.
  - rewrite NilZero_NilEmpty by apply DecimalPos.Unsigned.to_uint_nonnil.
    cbn [strings.contains].
    intros H. apply orb_true_iff in H as [H|H].
    + apply Ascii.eqb_eq in H; subst c; reflexivity.
    + apply string_of_uint_digits in H. rewrite H. apply orb_true_r.
Qed.

Lemma Itoa_head (n : Z) :
  exists c r, strconv.Itoa n = String c r /\ strconv.digit_or_minus c = true.
Proof.
  destruct (strconv.Itoa n) as [|c r] eqn:E.
  - destruct n as [|p|p]; try discriminate.
    unfold strconv.Itoa in E; simpl in E.
    rewrite NilZero_NilEmpty in E by apply DecimalPos.Unsigned.to_uint_nonnil.
    destruct (string_of_uint_head (Pos.to_uint p)) as (c & r & H & _);
      [apply DecimalPos.Unsigned.to_uint_nonnil | congruence].
  - exists c, r. split; [reflexivity|].
    apply Itoa_chars with (n := n). rewrite E. simpl.
    rewrite Ascii.eqb_refl. reflexivity.
Qed.

Lemma ParseUint_to_uint (p : positive) :
  (Z.pos p <= strconv.maxUint64)%Z ->
  strconv.ParseUint (NilEmpty.string_of_uint (Pos.to_uint p)) = Some (Z.pos p).
Proof.
  intros H. unfold strconv.ParseUint.
  destruct (string_of_uint_head (Pos.to_uint p)) as (c & r & E & _);
    [apply DecimalPos.Unsigned.to_uint_nonnil|].
  rewrite E, <- E, NilEmpty.usu.
  unfold Z.of_uint. rewrite DecimalPos.Unsigned.of_to. simpl Z.of_N.
  apply Z.leb_le in H. rewrite H. reflexivity.
Qed.

Lemma digit_not_sign (c : ascii) :
  strconv.isDigit c = true ->
  Ascii.eqb c "+" = false /\ Ascii.eqb c "-" = false.
Proof.
  intros H. split; apply Ascii.eqb_neq; intros ->; discriminate.
Qed.

Lemma ParseInt_Itoa (n : Z) :
  (strconv.minInt64 <= n <= strconv.maxInt64)%Z ->
  strconv.ParseInt (strconv.Itoa n) = Some n.
Proof.
  unfold strconv.minInt64, strconv.maxInt64. intros Hn.
  destruct n as [|p|p]; [reflexivity| |].
  - unfold strconv.Itoa; simpl.
    rewrite NilZero_NilEmpty by apply DecimalPos.Unsigned.to_uint_nonnil.
    destruct (string_of_uint_head (Pos.to_uint p)) as (c & r & E & Hc);
      [apply DecimalPos.Unsigned.to_uint_nonnil|].
    unfold strconv.ParseInt. rewrite E.
    destruct (digit_not_sign c Hc) as [-> ->]. simpl orb. cbv iota.
    rewrite <- E, ParseUint_to_uint by (unfold strconv.maxUint64; lia).
    replace (Z.pos p <=? strconv.maxInt64)%Z with true; [reflexivity|].
    symmetry. apply Z.leb_le. unfold strconv.maxInt64. lia.
  - unfold strconv.Itoa; simpl.
    rewrite NilZero_NilEmpty by apply DecimalPos.Unsigned.to_uint_nonnil.
    unfold strconv.ParseInt. simpl.
    rewrite ParseUint_to_uint by (unfold strconv.maxUint64; lia).
    unfold strconv.minInt64. cbn [Z.opp].
    replace (Z.pos p <=? 9223372036854775808)%Z with true; [reflexivity|].
    symmetry. apply Z.leb_le. lia.
Qed.

Lemma ParseUint_nonneg (s : string) (n : Z) :
  strconv.ParseUint s = Some n -> (0 <= n)%Z.
Proof.
  unfold strconv.ParseUint. destruct s; [discriminate|].
  destruct (NilEmpty.uint_of_string _) as [d|]; [|discriminate].
  destruct (Z.leb _ _); [|discriminate]. intros [= <-].
  unfold Z.of_uint. apply N2Z.is_nonneg.
Qed.

Lemma ParseInt_range (s : string) (n : Z) :
  strconv.ParseInt s = Some n ->
  (strconv.minInt64 <= n <= strconv.maxInt64)%Z.
Proof.
  unfold strconv.ParseInt. destruct s as [|c rest]; [discriminate|].
  destruct (strconv.ParseUint _) as [un|] eqn:E; [|discriminate].
  apply ParseUint_nonneg in E.
  destruct (Ascii.eqb c "-").
  - destruct (Z.leb un _) eqn:L; [|discriminate]. intros [= <-].
    apply Z.leb_le in L. unfold strconv.minInt64, strconv.maxInt64 in *. lia.
  - destruct (Z.leb un _) eqn:L; [|discriminate]. intros [= <-].
    apply Z.leb_le in L. unfold strconv.minInt64, strconv.maxInt64 in *. lia.
Qed.

(** ** Query strings *)

Lemma digit_or_minus_unescaped (c : ascii) :
  strconv.digit_or_minus c = true -> Ascii.eqb c " " = false /\ url.shouldEscape c = false.
Proof.
  unfold strconv.digit_or_minus. intros H. apply orb_true_iff in H as [H|H].
  - apply Ascii.eqb_eq in H. subst c. split; reflexivity.
  - split.
    + apply Ascii.eqb_neq. intros ->. discriminate.
    + unfold url.shouldEscape, url.isAlnum, utf8.within.
      unfold strconv.isDigit in H. rewrite H. reflexivity.
Qed.

Lemma QueryEscape_plain (s : string) :
  (forall c, strings.contains c s = true -> strconv.digit_or_minus c = true) ->
  url.QueryEscape s = s.
Proof.
  induction s as [|c s IH]; simpl; intros H; [reflexivity|].
  destruct (digit_or_minus_unescaped c) as [-> ->].
  - apply H. rewrite Ascii.eqb_refl. reflexivity.
  - rewrite IH; [reflexivity|]. intros c' Hc'. apply H. rewrite Hc'. apply orb_true_r.
Qed.

Lemma QueryEscape_Itoa (n : Z) : url.QueryEscape (strconv.Itoa n) = strconv.Itoa n.
Proof. apply QueryEscape_plain, Itoa_chars. Qed.

Lemma contains_app (c : ascii) (a b : string) :
  strings.contains c (a ++ b) = strings.contains c a || strings.contains c b.
Proof.
  induction a as [|d a IH]; simpl; [reflexivity|].
  rewrite IH. apply orb_assoc.
Qed.

(** ** Well-formed UTF-8 *)

Lemma to_valid_from_valid (s : string) :
  forall inside, utf8.valid_from inside s = true -> utf8.to_valid_from inside s = s.
Proof.
  induction s as [|c s IH]; intros inside H; [reflexivity|].
  simpl in H |- *. destruct inside as [|k].
  - destruct (utf8.rune_size (String c s)); [discriminate|].
    rewrite (IH _ H). reflexivity.
  - rewrite (IH _ H). reflexivity.
Qed.

Lemma ToValid_valid (s : string) : utf8.ValidString s = true -> utf8.ToValid s = s.
Proof. apply to_valid_from_valid. Qed.

(** ** Running the four operations

    Each operation, unfolded along its path: the URL is parsed, the request
    goes out, the body is decoded. *)

Lemma Tickers_run (url_Parse : string -> error) (cli : WebClient.t)
      (opts : ptr TickersOptions.t) (sent : list http.Request) :
  WebClient.Tickers url_Parse cli opts sent =
  let u := WebClient.Tickers_u cli opts in
  match url_Parse u, WebClient.httpClient cli with
  | Some err, _ => (Return (None, Some err), sent)
  | None, None =>
      (Panic "invalid memory address or nil pointer dereference", sent)
  | None, Some c =>
      match http.RoundTrip c sent (GET u) with
      | inr err => (Return (None, Some err), sent ++ [GET u])
      | inl res =>
          match json.Decode Ticker.fields Ticker.zero
                  (http.json (http.Body res)) (Some []) with
          | (_, Some err) => (Return (None, Some err), sent ++ [GET u])
          | (tickers, None) => (Return (tickers, None), sent ++ [GET u])
          end
      end
  end.
Proof.
  unfold WebClient.Tickers, http.NewRequest, GET. cbv zeta.
  destruct (url_Parse _); [reflexivity|].
  destruct (WebClient.httpClient cli) as [c|]; [|reflexivity].
  unfold bind, Client_Do.
  destruct (http.RoundTrip c sent _) as [res|err]; [|reflexivity].
  destruct (json.Decode _ _ _ _) as [tickers [err|]]; reflexivity.
Qed.

Lemma Ticker_run (url_Parse : string -> error) (cli : WebClient.t)
      (id : string) (sent : list http.Request) :
  WebClient.Ticker url_Parse cli id sent =
  let u := fmt.Sprintf "%s/ticker/%s" [WebClient.apiAddr cli; id] in
  match url_Parse u, WebClient.httpClient cli with
  | Some err, _ => (Return (None, Some err), sent)
  | None, None =>
      (Panic "invalid memory address or nil pointer dereference", sent)
  | None, Some c =>
      match http.RoundTrip c sent (GET u) with
      | inr err => (Return (None, Some err), sent ++ [GET u])
      | inl res =>
          match json.Decode Ticker.fields Ticker.zero
                  (http.json (http.Body res)) (Some []) with
          | (_, Some err) => (Return (None, Some err), sent ++ [GET u])
          | (tickers, None) =>
              match tickers with
              | Some [t] => (Return (t, None), sent ++ [GET u])
              | _ =>
                  (Return (None, Some (errors_New "unexpected error retreiving ticker")),
                   sent ++ [GET u])
              end
          end
      end
  end.
Proof.
  unfold WebClient.Ticker, http.NewRequest, GET. cbv zeta.
  destruct (url_Parse _); [reflexivity|].
  destruct (WebClient.httpClient cli) as [c|]; [|reflexivity].
  unfold bind, Client_Do.
  destruct (http.RoundTrip c sent _) as [res|err]; [|reflexivity].
  destruct (json.Decode _ _ _ _) as [tickers [err|]]; [reflexivity|].
  destruct tickers as [[|t [|t' l]]|]; reflexivity.
Qed.

Lemma Prices_run (url_Parse : string -> error) (cli : WebClient.t)
      (id : string) (opts : ptr PricesOptions.t) (sent : list http.Request) :
  WebClient.Prices url_Parse cli id opts sent =
  let u := WebClient.Prices_u cli id opts in
  match url_Parse u, WebClient.httpClient cli with
  | Some err, _ => (Return (None, Some err), sent)
  | None, None =>
      (Panic "invalid memory address or nil pointer dereference", sent)
  | None, Some c =>
      match http.RoundTrip c sent (GET u) with
      | inr err => (Return (None, Some err), sent ++ [GET u])
      | inl res =>
          match pricesQ.Decode (http.Body res) with
          | inr err => (Return (None, Some err), sent ++ [GET u])
          | inl q =>
              (Return (fold_left WebClient.Prices_step (pricesQ.Prices q) (Some []), None),
               sent ++ [GET u])
          end
      end
  end.
Proof.
  unfold WebClient.Prices, http.NewRequest, GET. cbv zeta.
  destruct (url_Parse _); [reflexivity|].
  destruct (WebClient.httpClient cli) as [c|]; [|reflexivity].
  unfold bind, Client_Do.
  destruct (http.RoundTrip c sent _) as [res|err]; [|reflexivity].
  destruct (pricesQ.Decode _); reflexivity.
Qed.

Lemma Markets_run (url_Parse : string -> error) (cli : WebClient.t)
      (id : string) (sent : list http.Request) :
  WebClient.Markets url_Parse cli id sent =
  let u := fmt.Sprintf "%s/%s#markets" [WebClient.websiteAddr cli; id] in
  match url_Parse u, WebClient.httpClient cli with
  | Some err, _ => (Return (None, Some err), sent)
  | None, None =>
      (Panic "invalid memory address or nil pointer dereference", sent)
  | None, Some c =>
      match http.RoundTrip c sent (GET u) with
      | inr err => (Return (None, Some err), sent ++ [GET u])
      | inl res =>
          match marketsQ.Decode (http.Body res) with
          | inr err => (Return (None, Some err), sent ++ [GET u])
          | inl q =>
              (Return (fold_left WebClient.Markets_step (marketsQ.Markets q) (Some []), None),
               sent ++ [GET u])
          end
      end
  end.
Proof.
  unfold WebClient.Markets, http.NewRequest, GET. cbv zeta.
  destruct (url_Parse _); [reflexivity|].
  destruct (WebClient.httpClient cli) as [c|]; [|reflexivity].
  unfold bind, Client_Do.
  destruct (http.RoundTrip c sent _) as [res|err]; [|reflexivity].
  destruct (marketsQ.Decode _); reflexivity.
Qed.

(** ** The URL of [Tickers] *)

Lemma Tickers_u_eq (cli : WebClient.t) (opts : ptr TickersOptions.t) :
  WebClient.Tickers_u cli opts =
  (WebClient.apiAddr cli ++ "/ticker" ++
   match opts with
   | None => ""
   | Some o =>
       "?limit=" ++ strconv.Itoa (TickersOptions.Limit o)
       ++ "&start=" ++ strconv.Itoa (TickersOptions.Start o)
   end)%string.
Proof.
  unfold WebClient.Tickers_u. destruct opts as [o|]; cbn [fmt.Sprintf].
  - unfold url.Encode. cbn -[url.QueryEscape strconv.Itoa String.append].
    rewrite !QueryEscape_Itoa.
    change (url.QueryEscape "limit") with "limit".
    change (url.QueryEscape "start") with "start".
    rewrite append_nil_r, !append_assoc. reflexivity.
  - rewrite append_nil_r. reflexivity.
Qed.

(** C8. [Tickers] appends the query parameters [start] and [limit] to the
    ticker-listing URL if and only if options are supplied: without
    options the URL is the API address followed by [/ticker] and nothing
    else, with options it is followed by a query string that carries
    exactly the two parameters, each with the decimal digits of its
    integer. That URL is the one of the request that is sent; and when the
    API address holds no question mark, the URL has a query string exactly
    when options are supplied. *)
Theorem Tickers_query_iff_options (url_Parse : string -> error)
        (cli : WebClient.t) (opts : ptr TickersOptions.t) :
  WebClient.Tickers_u cli opts =
    (WebClient.apiAddr cli ++ "/ticker" ++
     match opts with
     | None => ""
     | Some o =>
         "?limit=" ++ strconv.Itoa (TickersOptions.Limit o)
         ++ "&start=" ++ strconv.Itoa (TickersOptions.Start o)
     end)%string
  /\ (forall o c, opts = Some o ->
        (strings.contains c (strconv.Itoa (TickersOptions.Limit o)) = true \/
         strings.contains c (strconv.Itoa (TickersOptions.Start o)) = true) ->
        strconv.digit_or_minus c = true)
  /\ (forall c sent,
        WebClient.httpClient cli = Some c ->
        url_Parse (WebClient.Tickers_u cli opts) = None ->
        snd (WebClient.Tickers url_Parse cli opts sent)
        = sent ++ [GET (WebClient.Tickers_u cli opts)])
  /\ (strings.contains "?" (WebClient.apiAddr cli) = false ->
      (strings.contains "?" (WebClient.Tickers_u cli opts) = true <-> opts <> None)).
Proof.
  split; [apply Tickers_u_eq|]. split; [|split].
  - intros o c _ [H|H]; exact (Itoa_chars _ _ H).
  - intros c sent Hc Hu. rewrite Tickers_run. cbv zeta. rewrite Hu, Hc.
    destruct (http.RoundTrip c sent _) as [res|err]; [|reflexivity].
    destruct (json.Decode _ _ _ _) as [tickers [err|]]; reflexivity.
  - intros Hq. rewrite Tickers_u_eq, contains_app, Hq. cbn [orb].
    destruct opts as [o|].
    + split; [discriminate|]. intros _. reflexivity.
    + split; [discriminate|]. intros H. congruence.
Qed.

Lemma Tickers_query_iff_options_witness :
  WebClient.Tickers_u (serving (json_body TestTickers_body))
    (Some {| TickersOptions.Start := 100; TickersOptions.Limit := 0 |})
  = "http://127.0.0.1:8080/ticker?limit=0&start=100"
  /\ WebClient.Tickers_u (serving (json_body TestTickers_body)) None
     = "http://127.0.0.1:8080/ticker"
  /\ snd (WebClient.Tickers accept (serving (json_body TestTickers_body)) None [])
     = [GET "http://127.0.0.1:8080/ticker"]
  /\ strings.contains "?"
       (WebClient.Tickers_u (serving (json_body TestTickers_body)) None) = false.
Proof.
  pose proof (Tickers_query_iff_options accept
                (serving (json_body TestTickers_body)) None) as (_ & _ & Hsent & Hq).
  split; [reflexivity|]. split; [reflexivity|]. split.
  - exact (Hsent _ [] eq_refl eq_refl).
  - destruct (strings.contains "?" (WebClient.Tickers_u _ None)) eqn:E; [|reflexivity].
    destruct (proj1 (Hq eq_refl) eq_refl eq_refl).
Defined.

(** ** Decoding pages *)

Lemma unmarshalSlice_total {A : Type} (elem : html.Ref -> A + Error)
      (f : html.Ref -> A) (s : goquery.Selection) :
  (forall r, In r s -> elem r = inl (f r)) ->
  goq.unmarshalSlice elem s = inl (map f s).
Proof.
  induction s as [|r s IH]; intros H; [reflexivity|].
  cbn [goq.unmarshalSlice map].
  rewrite (H r (or_introl eq_refl)), IH; [reflexivity|].
  intros r' Hr'. apply H. right. exact Hr'.
Qed.

Lemma unmarshalSlice_fails {A : Type} (elem : html.Ref -> A + Error)
      (err : Error) (s : goquery.Selection) :
  (forall r, In r s -> elem r = inr err \/ exists a, elem r = inl a) ->
  (exists r, In r s /\ elem r = inr err) ->
  goq.unmarshalSlice elem s = inr err.
Proof.
  induction s as [|r s IH]; intros Hall (r0 & Hin & Hr0); [destruct Hin|].
  cbn [goq.unmarshalSlice].
  destruct (Hall r (or_introl eq_refl)) as [E|(a & E)]; rewrite E; [reflexivity|].
  rewrite IH; [reflexivity| |].
  - intros r' Hr'. apply Hall. right. exact Hr'.
  - destruct Hin as [->|Hin]; [congruence|]. exists r0. split; assumption.
Qed.

Lemma forallb_false_exists {A : Type} (f : A -> bool) (l : list A) :
  forallb f l = false -> exists x, In x l /\ f x = false.
Proof.
  induction l as [|a l IH]; cbn [forallb]; [discriminate|].
  destruct (f a) eqn:E; cbn [andb].
  - intros H. destruct (IH H) as (x & Hx & Hf). exists x. split; [right|]; assumption.
  - intros _. exists a. split; [left; reflexivity | exact E].
Qed.

Lemma pricesQ_unmarshalRow_eq (r : html.Ref) :
  pricesQ.unmarshalRow r =
  if price_row_ok r then inl (pricesQ_of_row r)
  else inr (goq_CannotUnmarshalError goq.arrayLengthMismatch).
Proof.
  unfold pricesQ.unmarshalRow, goq.unmarshalArray, price_row_ok, value_cells.
  rewrite length_map, (Nat.eqb_sym 6).
  destruct (Nat.eqb _ 6); reflexivity.
Qed.

Lemma marketsQ_unmarshalRow_eq (r : html.Ref) :
  marketsQ.unmarshalRow r =
  if market_row_ok r then inl (marketsQ_of_row r)
  else inr (goq_CannotUnmarshalError goq.arrayLengthMismatch).
Proof.
  unfold marketsQ.unmarshalRow, goq.unmarshalArray, market_row_ok,
    link_texts, span_texts.
  rewrite !length_map, (Nat.eqb_sym 2), (Nat.eqb_sym 3).
  destruct (Nat.eqb _ 2); [|reflexivity].
  destruct (Nat.eqb _ 3); reflexivity.
Qed.

Lemma pricesQ_Decode_eq (body : http.ReadCloser) (root : html.Node) :
  http.tree body = inl root ->
  pricesQ.Decode body =
  if forallb price_row_ok (rows root)
  then inl {| pricesQ.Prices := map pricesQ_of_row (rows root) |}
  else inr (goq_CannotUnmarshalError goq.arrayLengthMismatch).
Proof.
  intros Ht. unfold pricesQ.Decode. rewrite Ht. fold (rows root).
  destruct (forallb price_row_ok (rows root)) eqn:E.
  - rewrite (unmarshalSlice_total _ pricesQ_of_row); [reflexivity|].
    intros r Hr. rewrite pricesQ_unmarshalRow_eq.
    rewrite (proj1 (forallb_forall _ _) E r Hr). reflexivity.
  - rewrite (unmarshalSlice_fails _ (goq_CannotUnmarshalError goq.arrayLengthMismatch));
      [reflexivity| |].
    + intros r _. rewrite pricesQ_unmarshalRow_eq.
      destruct (price_row_ok r); [right; eauto | left; reflexivity].
    + destruct (forallb_false_exists _ _ E) as (r & Hr & Hf).
      exists r. split; [exact Hr|]. rewrite pricesQ_unmarshalRow_eq, Hf. reflexivity.
Qed.

Lemma marketsQ_Decode_eq (body : http.ReadCloser) (root : html.Node) :
  http.tree body = inl root ->
  marketsQ.Decode body =
  if forallb market_row_ok (rows root)
  then inl {| marketsQ.Markets := map marketsQ_of_row (rows root) |}
  else inr (goq_CannotUnmarshalError goq.arrayLengthMismatch).
Proof.
  intros Ht. unfold marketsQ.Decode. rewrite Ht. fold (rows root).
  destruct (forallb market_row_ok (rows root)) eqn:E.
  - rewrite (unmarshalSlice_total _ marketsQ_of_row); [reflexivity|].
    intros r Hr. rewrite marketsQ_unmarshalRow_eq.
    rewrite (proj1 (forallb_forall _ _) E r Hr). reflexivity.
  - rewrite (unmarshalSlice_fails _ (goq_CannotUnmarshalError goq.arrayLengthMismatch));
      [reflexivity| |].
    + intros r _. rewrite marketsQ_unmarshalRow_eq.
      destruct (market_row_ok r); [right; eauto | left; reflexivity].
    + destruct (forallb_false_exists _ _ E) as (r & Hr & Hf).
      exists r. split; [exact Hr|]. rewrite marketsQ_unmarshalRow_eq, Hf. reflexivity.
Qed.

(** ** The loops of [Prices] and [Markets] *)

Lemma range_append {A B : Type} (step : slice B -> A -> slice B) (f : A -> B)
      (l : list A) :
  (forall s a, step s a = append s (f a)) ->
  forall acc, fold_left step l (Some acc) = Some (acc ++ map f l).
Proof.
  intros Hstep. induction l as [|a l IH]; intros acc; cbn [fold_left map].
  - rewrite List.app_nil_r. reflexivity.
  - rewrite Hstep. cbn [append]. rewrite IH, <- List.app_assoc. reflexivity.
Qed.

Lemma Prices_loop (q : list html.Ref) :
  fold_left WebClient.Prices_step (map pricesQ_of_row q) (Some [])
  = Some (map (fun r => Some (Price_of_row r)) q).
Proof.
  rewrite (range_append WebClient.Prices_step
             (fun p => Some {| Price.Date := pricesQ.Date p;
                               Price.OpenUSD := clean (index (pricesQ.Vals p) 0);
                               Price.HighUSD := clean (index (pricesQ.Vals p) 1);
                               Price.LowUSD := clean (index (pricesQ.Vals p) 2);
                               Price.CloseUSD := clean (index (pricesQ.Vals p) 3);
                               Price.VolumeUSD24hr := clean (index (pricesQ.Vals p) 4);
                               Price.MarketCapUSD := clean (index (pricesQ.Vals p) 5) |}));
    [|reflexivity].
  cbn [app]. rewrite map_map. f_equal. apply map_ext. intros r.
  unfold Price_of_row, pricesQ_of_row, index. cbn [pricesQ.Date pricesQ.Vals].
  rewrite !clean_without_commas. reflexivity.
Qed.

Lemma Markets_loop (q : list html.Ref) :
  fold_left WebClient.Markets_step (map marketsQ_of_row q) (Some [])
  = Some (map (fun r => Some (Market_of_row r)) q).
Proof.
  rewrite (range_append WebClient.Markets_step
             (fun m => Some {| Market.Source := index (marketsQ.SourcePair m) 0;
                               Market.Pair := index (marketsQ.SourcePair m) 1;
                               Market.VolumeUSD24hr := index (marketsQ.Vals m) 0;
                               Market.PriceUSD := index (marketsQ.Vals m) 1;
                               Market.VolumePercentage := index (marketsQ.Vals m) 2 |}));
    [|reflexivity].
  cbn [app]. rewrite map_map. reflexivity.
Qed.

(** What [Prices] and [Markets] return for a page. *)
Lemma Prices_of_page (url_Parse : string -> error) (cli : WebClient.t)
      (c : http.Client) (id : string) (opts : ptr PricesOptions.t)
      (sent : list http.Request) (res : http.Response) (root : html.Node) :
  WebClient.httpClient cli = Some c ->
  url_Parse (WebClient.Prices_u cli id opts) = None ->
  http.RoundTrip c sent (GET (WebClient.Prices_u cli id opts)) = inl res ->
  http.tree (http.Body res) = inl root ->
  fst (WebClient.Prices url_Parse cli id opts sent) =
  if forallb price_row_ok (rows root)
  then Return (Some (map (fun r => Some (Price_of_row r)) (rows root)), None)
  else Return (None, Some (goq_CannotUnmarshalError goq.arrayLengthMismatch)).
Proof.
  intros Hc Hu Hr Ht. rewrite Prices_run. cbv zeta.
  rewrite Hu, Hc, Hr, (pricesQ_Decode_eq _ _ Ht).
  destruct (forallb price_row_ok (rows root)); [|reflexivity].
  cbn [pricesQ.Prices fst]. rewrite Prices_loop. reflexivity.
Qed.

Lemma Markets_of_page (url_Parse : string -> error) (cli : WebClient.t)
      (c : http.Client) (id : string)
      (sent : list http.Request) (res : http.Response) (root : html.Node) :
  let u := fmt.Sprintf "%s/%s#markets" [WebClient.websiteAddr cli; id] in
  WebClient.httpClient cli = Some c ->
  url_Parse u = None ->
  http.RoundTrip c sent (GET u) = inl res ->
  http.tree (http.Body res) = inl root ->
  fst (WebClient.Markets url_Parse cli id sent) =
  if forallb market_row_ok (rows root)
  then Return (Some (map (fun r => Some (Market_of_row r)) (rows root)), None)
  else Return (None, Some (goq_CannotUnmarshalError goq.arrayLengthMismatch)).
Proof.
  intros u Hc Hu Hr Ht. rewrite Markets_run. cbv zeta. fold u.
  rewrite Hu, Hc, Hr, (marketsQ_Decode_eq _ _ Ht).
  destruct (forallb market_row_ok (rows root)); [|reflexivity].
  cbn [marketsQ.Markets fst]. rewrite Markets_loop. reflexivity.
Qed.

(** ** Decoding JSON arrays *)

Lemma array_length {T : Type} (fields : list (json.Field T)) (zero : T)
      (elems : list json.Value) :
  forall old d ps d',
    json.array fields zero elems old d = (ps, d', None) ->
    length ps = length elems.
Proof.
  induction elems as [|v elems IH]; intros old d ps d'; cbn [json.array].
  - intros [= <- _]. reflexivity.
  - destruct (json.valuePtr fields zero v (hd None old) d) as [[p d1] [err|]].
    + discriminate.
    + destruct (json.array fields zero elems (tl old) d1) as [[ps' d2] err] eqn:E.
      intros [= <- <- ->]. cbn [length]. f_equal. exact (IH _ _ _ _ E).
Qed.

Lemma Decode_array_len {T : Type} (fields : list (json.Field T)) (zero : T)
      (elems : list json.Value) (dst s : slice (ptr T)) :
  json.Decode fields zero (inl (json.JArray elems)) dst = (s, None) ->
  exists ps, s = Some ps /\ length ps = length elems.
Proof.
  unfold json.Decode, json.unmarshal, json.valueSlice.
  destruct (json.array _ _ _ _ _) as [[ps d] [err|]] eqn:E; [discriminate|].
  intros [= <- _]. exists ps. split; [reflexivity|]. exact (array_length _ _ _ _ _ _ _ E).
Qed.

Lemma Decode_success_nil {T : Type} (fields : list (json.Field T)) (zero : T)
      (next : json.Value + Error) (s : slice (ptr T)) :
  json.Decode fields zero next (Some []) = (s, None) ->
  (s = None <-> next = inl json.JNull).
Proof.
  unfold json.Decode, json.unmarshal, json.valueSlice.
  destruct next as [v|err]; [|discriminate].
  destruct v; cbn [json.saveError json.savedError].
  - intros [= <-]. split; reflexivity.
  - discriminate.
  - discriminate.
  - discriminate.
  - destruct (json.array _ _ _ _ _) as [[ps d] [err|]]; [discriminate|].
    intros [= <- _]. split; [discriminate | intros [=]].
  - discriminate.
Qed.

(** ** C1: the cardinality check of [Ticker] *)

(** C1. When the body of the single-ticker endpoint decodes, [Ticker]
    returns the error ["unexpected error retreiving ticker"], with a nil
    record and without a panic, whenever the decoded sequence does not have
    exactly one element, and returns the one element when it has exactly
    one. A body that is an array decodes to as many elements as it has, so
    the error is what the bodies [[]] and those of two or more elements
    get. *)
Theorem Ticker_cardinality (url_Parse : string -> error) (cli : WebClient.t)
        (c : http.Client) (id : string) (sent : list http.Request)
        (res : http.Response) (tickers : slice (ptr Ticker.t)) :
  let u := fmt.Sprintf "%s/ticker/%s" [WebClient.apiAddr cli; id] in
  WebClient.httpClient cli = Some c ->
  url_Parse u = None ->
  http.RoundTrip c sent (GET u) = inl res ->
  json.Decode Ticker.fields Ticker.zero (http.json (http.Body res)) (Some [])
  = (tickers, None) ->
  (len tickers <> 1 ->
   fst (WebClient.Ticker url_Parse cli id sent)
   = Return (None, Some (errors_New "unexpected error retreiving ticker")))
  /\ (forall t, tickers = Some [t] ->
        fst (WebClient.Ticker url_Parse cli id sent) = Return (t, None))
  /\ (forall elems, http.json (http.Body res) = inl (json.JArray elems) ->
        len tickers = length elems).
Proof.
  intros u Hc Hu Hr Hd. rewrite Ticker_run. cbv zeta. fold u.
  rewrite Hu, Hc, Hr, Hd. split; [|split].
  - intros Hlen. destruct tickers as [[|t [|t' l]]|]; try reflexivity.
    exfalso. apply Hlen. reflexivity.
  - intros t ->. reflexivity.
  - intros elems He. rewrite He in Hd.
    destruct (Decode_array_len _ _ _ _ _ Hd) as (ps & -> & Hps). exact Hps.
Qed.

Lemma Ticker_cardinality_witness :
  fst (WebClient.Ticker accept (serving (json_body (json.JArray []))) "bitcoin" [])
  = Return (None, Some (errors_New "unexpected error retreiving ticker"))
  /\ fst (WebClient.Ticker accept (serving (json_body TestTickers_body)) "bitcoin" [])
     = Return (None, Some (errors_New "unexpected error retreiving ticker"))
  /\ fst (WebClient.Ticker accept
            (serving (json_body (json.JArray [json.JObject [member "id" "bitcoin"]])))
            "bitcoin" [])
     = Return (Some (Ticker.set_ID Ticker.zero "bitcoin"), None).
Proof.
  split; [|split].
  - refine (proj1 (Ticker_cardinality accept
                     (serving (json_body (json.JArray []))) _ "bitcoin" [] _ (Some [])
                     eq_refl eq_refl eq_refl eq_refl) _).
    cbn. discriminate.
  - refine (proj1 (Ticker_cardinality accept
                     (serving (json_body TestTickers_body)) _ "bitcoin" [] _ _
                     eq_refl eq_refl eq_refl eq_refl) _).
    cbn. discriminate.
  - refine (proj1 (proj2 (Ticker_cardinality accept
                     (serving (json_body (json.JArray [json.JObject [member "id" "bitcoin"]])))
                     _ "bitcoin" [] _ _
                     eq_refl eq_refl eq_refl eq_refl)) _ eq_refl).
Defined.

(** ** C3, C4: the historical-data table *)

Lemma nth_error_map_Some {A B : Type} (f : A -> B) (l : list A) (i : nat) (a : A) :
  nth_error l i = Some a -> nth_error (map f l) i = Some (f a).
Proof.
  intros H. rewrite nth_error_map, H. reflexivity.
Qed.

(** C4. [Prices] produces exactly one [Price] per table row, in document
    order: for a page each of whose rows has its six value cells, the
    result has the length of the row sequence, and its i-th record holds
    the date cell of the i-th row in [Date] and the six value cells, by
    position, in [OpenUSD], [HighUSD], [LowUSD], [CloseUSD],
    [VolumeUSD24hr], [MarketCapUSD]. And whenever [Prices] returns without
    an error, what it returns is that sequence of records. *)
Theorem Prices_one_record_per_row (url_Parse : string -> error)
        (cli : WebClient.t) (c : http.Client) (id : string)
        (opts : ptr PricesOptions.t) (sent : list http.Request)
        (res : http.Response) (root : html.Node) :
  WebClient.httpClient cli = Some c ->
  url_Parse (WebClient.Prices_u cli id opts) = None ->
  http.RoundTrip c sent (GET (WebClient.Prices_u cli id opts)) = inl res ->
  http.tree (http.Body res) = inl root ->
  (forallb price_row_ok (rows root) = true ->
   exists prices,
     fst (WebClient.Prices url_Parse cli id opts sent) = Return (Some prices, None)
     /\ length prices = length (rows root)
     /\ forall i r, nth_error (rows root) i = Some r ->
          nth_error prices i =
          Some (Some {| Price.Date := date_cell r;
                        Price.OpenUSD := without_commas (nth 0 (value_cells r) "");
                        Price.HighUSD := without_commas (nth 1 (value_cells r) "");
                        Price.LowUSD := without_commas (nth 2 (value_cells r) "");
                        Price.CloseUSD := without_commas (nth 3 (value_cells r) "");
                        Price.VolumeUSD24hr := without_commas (nth 4 (value_cells r) "");
                        Price.MarketCapUSD := without_commas (nth 5 (value_cells r) "") |}))
  /\ (forall prices,
        fst (WebClient.Prices url_Parse cli id opts sent) = Return (prices, None) ->
        prices = Some (map (fun r => Some (Price_of_row r)) (rows root))
        /\ forallb price_row_ok (rows root) = true).
Proof.
  intros Hc Hu Hr Ht.
  rewrite (Prices_of_page _ _ _ _ _ _ _ _ Hc Hu Hr Ht). split.
  - intros Hok. rewrite Hok. eexists. split; [reflexivity|]. split.
    + apply length_map.
    + intros i r Hi. exact (nth_error_map_Some _ _ _ _ Hi).
  - intros prices. destruct (forallb price_row_ok (rows root)); [|discriminate].
    intros [= <-]. split; reflexivity.
Qed.

Lemma Prices_one_record_per_row_witness :
  exists prices,
    fst (WebClient.Prices accept (serving (html_body historical_page)) "bitcoin" None [])
    = Return (Some prices, None)
    /\ length prices = 1.
Proof.
  destruct (proj1 (Prices_one_record_per_row accept
                     (serving (html_body historical_page)) _ "bitcoin" None [] _
                     historical_page eq_refl eq_refl eq_refl eq_refl) eq_refl)
    as (prices & Hrun & Hlen & _).
  exists prices. split; [exact Hrun | exact Hlen].
Defined.

(** C3. Each of the six value cells of each row has every comma removed
    before it is stored: [clean] takes out the commas and nothing else, so
    that ["1,234.56"] is stored as ["1234.56"]; every record that [Prices]
    returns holds in its six value fields the cleaned cells of a row of the
    page, none of which contains a comma; and the one-row page with the
    cells 2020-01-01, 1,000, 1,100, 900, 1,050, 500,000, 1,000,000 yields
    one record, with [OpenUSD] 1000 and [VolumeUSD24hr] 500000. *)
Theorem Prices_cells_without_commas :
  (forall s, clean s = without_commas s /\ strings.contains "," (clean s) = false)
  /\ clean "1,234.56" = "1234.56"
  /\ (forall (url_Parse : string -> error) (cli : WebClient.t) (c : http.Client)
             (id : string) (opts : ptr PricesOptions.t) (sent : list http.Request)
             (res : http.Response) (root : html.Node)
             (prices : list (ptr Price.t)) (p : Price.t),
        WebClient.httpClient cli = Some c ->
        url_Parse (WebClient.Prices_u cli id opts) = None ->
        http.RoundTrip c sent (GET (WebClient.Prices_u cli id opts)) = inl res ->
        http.tree (http.Body res) = inl root ->
        fst (WebClient.Prices url_Parse cli id opts sent) = Return (Some prices, None) ->
        In (Some p) prices ->
        exists r, In r (rows root)
          /\ Price.OpenUSD p = clean (nth 0 (value_cells r) "")
          /\ Price.HighUSD p = clean (nth 1 (value_cells r) "")
          /\ Price.LowUSD p = clean (nth 2 (value_cells r) "")
          /\ Price.CloseUSD p = clean (nth 3 (value_cells r) "")
          /\ Price.VolumeUSD24hr p = clean (nth 4 (value_cells r) "")
          /\ Price.MarketCapUSD p = clean (nth 5 (value_cells r) "")
          /\ forallb (fun s => negb (strings.contains "," s))
               [Price.OpenUSD p; Price.HighUSD p; Price.LowUSD p;
                Price.CloseUSD p; Price.VolumeUSD24hr p; Price.MarketCapUSD p] = true)
  /\ map value_cells (rows historical_page)
     = [["1,000"; "1,100"; "900"; "1,050"; "500,000"; "1,000,000"]]
  /\ fst (WebClient.Prices accept (serving (html_body historical_page)) "bitcoin" None [])
     = Return (Some [Some {| Price.Date := "2020-01-01";
                            Price.OpenUSD := "1000";
                            Price.HighUSD := "1100";
                            Price.LowUSD := "900";
                            Price.CloseUSD := "1050";
                            Price.VolumeUSD24hr := "500000";
                            Price.MarketCapUSD := "1000000" |}], None).
Proof.
  split; [|split; [|split; [|split]]].
  - intros s. split; [apply clean_without_commas | apply clean_no_comma].
  - reflexivity.
  - intros url_Parse cli c id opts sent res root prices p Hc Hu Hr Ht Hrun Hin.
    rewrite (Prices_of_page _ _ _ _ _ _ _ _ Hc Hu Hr Ht) in Hrun.
    destruct (forallb price_row_ok (rows root)); [|discriminate].
    injection Hrun as <-. apply in_map_iff in Hin as (r & [= <-] & Hr').
    exists r. split; [exact Hr'|].
    unfold Price_of_row.
    cbn [Price.OpenUSD Price.HighUSD Price.LowUSD Price.CloseUSD
         Price.VolumeUSD24hr Price.MarketCapUSD forallb].
    rewrite <- !clean_without_commas, !clean_no_comma.
    repeat split; reflexivity.
  - reflexivity.
  - reflexivity.
Qed.

Lemma Prices_cells_without_commas_witness :
  exists r, In r (rows historical_page)
            /\ "500000" = clean (nth 4 (value_cells r) "").
Proof.
  destruct (proj1 (proj2 (proj2 Prices_cells_without_commas))
              accept (serving (html_body historical_page)) _ "bitcoin" None [] _
              historical_page _
              {| Price.Date := "2020-01-01";
                 Price.OpenUSD := "1000";
                 Price.HighUSD := "1100";
                 Price.LowUSD := "900";
                 Price.CloseUSD := "1050";
                 Price.VolumeUSD24hr := "500000";
                 Price.MarketCapUSD := "1000000" |}
              eq_refl eq_refl eq_refl eq_refl eq_refl (or_introl eq_refl))
    as (r & Hr & _ & _ & _ & _ & Hv & _).
  exists r. split; [exact Hr | exact Hv].
Defined.

(** ** C5: the markets table *)

(** C5. [Markets] returns a sequence as long as the table has rows, in
    document order: for a page each of whose rows has its two links and
    its three further cells, the i-th record holds the first and second
    link texts of the i-th row in [Source] and [Pair], and the three
    further cells, in order, in [VolumeUSD24hr], [PriceUSD] and
    [VolumePercentage]. And whenever [Markets] returns without an error,
    what it returns is that sequence of records. *)
Theorem Markets_one_record_per_row (url_Parse : string -> error)
        (cli : WebClient.t) (c : http.Client) (id : string)
        (sent : list http.Request) (res : http.Response) (root : html.Node) :
  let u := fmt.Sprintf "%s/%s#markets" [WebClient.websiteAddr cli; id] in
  WebClient.httpClient cli = Some c ->
  url_Parse u = None ->
  http.RoundTrip c sent (GET u) = inl res ->
  http.tree (http.Body res) = inl root ->
  (forallb market_row_ok (rows root) = true ->
   exists markets,
     fst (WebClient.Markets url_Parse cli id sent) = Return (Some markets, None)
     /\ length markets = length (rows root)
     /\ forall i r, nth_error (rows root) i = Some r ->
          nth_error markets i =
          Some (Some {| Market.Source := nth 0 (link_texts r) "";
                        Market.Pair := nth 1 (link_texts r) "";
                        Market.VolumeUSD24hr := nth 0 (span_texts r) "";
                        Market.PriceUSD := nth 1 (span_texts r) "";
                        Market.VolumePercentage := nth 2 (span_texts r) "" |}))
  /\ (forall markets,
        fst (WebClient.Markets url_Parse cli id sent) = Return (markets, None) ->
        markets = Some (map (fun r => Some (Market_of_row r)) (rows root))
        /\ len markets = length (rows root)
        /\ forallb market_row_ok (rows root) = true).
Proof.
  intros u Hc Hu Hr Ht.
  rewrite (Markets_of_page _ _ _ _ _ _ _ Hc Hu Hr Ht). split.
  - intros Hok. rewrite Hok. eexists. split; [reflexivity|]. split.
    + apply length_map.
    + intros i r Hi. exact (nth_error_map_Some _ _ _ _ Hi).
  - intros markets. destruct (forallb market_row_ok (rows root)); [|discriminate].
    intros [= <-]. split; [reflexivity|]. split; [apply length_map | reflexivity].
Qed.

Lemma Markets_one_record_per_row_witness :
  exists markets,
    fst (WebClient.Markets accept (serving (html_body markets_page)) "bitcoin" [])
    = Return (Some markets, None)
    /\ length markets = 1
    /\ nth_error markets 0
       = Some (Some {| Market.Source := "Binance";
                       Market.Pair := "BTC/USDT";
                       Market.VolumeUSD24hr := "$1,000";
                       Market.PriceUSD := "$9,000.00";
                       Market.VolumePercentage := "12.5%" |}).
Proof.
  destruct (proj1 (Markets_one_record_per_row accept
                     (serving (html_body markets_page)) _ "bitcoin" [] _
                     markets_page eq_refl eq_refl eq_refl eq_refl) eq_refl)
    as (markets & Hrun & Hlen & Hnth).
  exists markets. split; [exact Hrun|]. split; [exact Hlen|].
  exact (Hnth 0 _ eq_refl).
Defined.

(** ** C7: pages without the table *)

Lemma price_rows_bad (l : list html.Ref) :
  forallb price_row_ok l = false <->
  exists r, In r l /\ length (value_cells r) <> 6.
Proof.
  split.
  - intros H. destruct (forallb_false_exists _ _ H) as (r & Hr & Hf).
    exists r. split; [exact Hr|]. apply Nat.eqb_neq. exact Hf.
  - intros (r & Hr & Hn). destruct (forallb price_row_ok l) eqn:E; [|reflexivity].
    rewrite forallb_forall in E. specialize (E r Hr).
    apply Nat.eqb_eq in E. contradiction.
Qed.

Lemma market_rows_bad (l : list html.Ref) :
  forallb market_row_ok l = false <->
  exists r, In r l /\ (length (link_texts r) <> 2 \/ length (span_texts r) <> 3).
Proof.
  split.
  - intros H. destruct (forallb_false_exists _ _ H) as (r & Hr & Hf).
    exists r. split; [exact Hr|]. unfold market_row_ok in Hf.
    apply andb_false_iff in Hf as [Hf|Hf]; apply Nat.eqb_neq in Hf; auto.
  - intros (r & Hr & Hn). destruct (forallb market_row_ok l) eqn:E; [|reflexivity].
    rewrite forallb_forall in E. specialize (E r Hr).
    unfold market_row_ok in E. apply andb_true_iff in E as [E1 E2].
    apply Nat.eqb_eq in E1, E2. destruct Hn; contradiction.
Qed.

(** C7, as the code has it. For a page without table rows [Prices] and
    [Markets] succeed, with an empty sequence. They fail with the
    extraction error of [goq] exactly when some table row does not have
    the cells its struct asks for: six value cells for [Prices], two links
    and three further cells for [Markets]. *)
Theorem extraction_fails_on_malformed_rows_only :
  (forall (url_Parse : string -> error) (cli : WebClient.t) (c : http.Client)
          (id : string) (opts : ptr PricesOptions.t) (sent : list http.Request)
          (res : http.Response) (root : html.Node),
      WebClient.httpClient cli = Some c ->
      url_Parse (WebClient.Prices_u cli id opts) = None ->
      http.RoundTrip c sent (GET (WebClient.Prices_u cli id opts)) = inl res ->
      http.tree (http.Body res) = inl root ->
      (rows root = [] ->
       fst (WebClient.Prices url_Parse cli id opts sent) = Return (Some [], None))
      /\ ((exists r err, fst (WebClient.Prices url_Parse cli id opts sent)
                         = Return (r, Some err))
          <-> exists r, In r (rows root) /\ length (value_cells r) <> 6)
      /\ (forall r err,
            fst (WebClient.Prices url_Parse cli id opts sent) = Return (r, Some err) ->
            err = goq_CannotUnmarshalError goq.arrayLengthMismatch))
  /\ (forall (url_Parse : string -> error) (cli : WebClient.t) (c : http.Client)
             (id : string) (sent : list http.Request)
             (res : http.Response) (root : html.Node),
        let u := fmt.Sprintf "%s/%s#markets" [WebClient.websiteAddr cli; id] in
        WebClient.httpClient cli = Some c ->
        url_Parse u = None ->
        http.RoundTrip c sent (GET u) = inl res ->
        http.tree (http.Body res) = inl root ->
        (rows root = [] ->
         fst (WebClient.Markets url_Parse cli id sent) = Return (Some [], None))
        /\ ((exists r err, fst (WebClient.Markets url_Parse cli id sent)
                           = Return (r, Some err))
            <-> exists r, In r (rows root)
                          /\ (length (link_texts r) <> 2 \/ length (span_texts r) <> 3))
        /\ (forall r err,
              fst (WebClient.Markets url_Parse cli id sent) = Return (r, Some err) ->
              err = goq_CannotUnmarshalError goq.arrayLengthMismatch)).
Proof.
  split.
  - intros url_Parse cli c id opts sent res root Hc Hu Hr Ht.
    rewrite (Prices_of_page _ _ _ _ _ _ _ _ Hc Hu Hr Ht).
    split; [|split].
    + intros ->. reflexivity.
    + rewrite <- price_rows_bad.
      destruct (forallb price_row_ok (rows root)); split.
      * intros (r & err & [=]).
      * discriminate.
      * reflexivity.
      * intros _. eauto.
    + intros r err. destruct (forallb price_row_ok (rows root)); intros [=]; congruence.
  - intros url_Parse cli c id sent res root u Hc Hu Hr Ht.
    rewrite (Markets_of_page _ _ _ _ _ _ _ Hc Hu Hr Ht).
    split; [|split].
    + intros ->. reflexivity.
    + rewrite <- market_rows_bad.
      destruct (forallb market_row_ok (rows root)); split.
      * intros (r & err & [=]).
      * discriminate.
      * reflexivity.
      * intros _. eauto.
    + intros r err. destruct (forallb market_row_ok (rows root)); intros [=]; congruence.
Qed.

Lemma extraction_fails_on_malformed_rows_only_witness :
  fst (WebClient.Prices accept (serving (html_body no_table_page)) "bitcoin" None [])
  = Return (Some [], None)
  /\ fst (WebClient.Markets accept (serving (html_body no_table_page)) "bitcoin" [])
     = Return (Some [], None)
  /\ (exists r err,
        fst (WebClient.Prices accept (serving (html_body no_data_page)) "bitcoin" None [])
        = Return (r, Some err)).
Proof.
  destruct extraction_fails_on_malformed_rows_only as [HP HM].
  split; [|split].
  - exact (proj1 (HP accept (serving (html_body no_table_page)) _ "bitcoin" None [] _
                     no_table_page eq_refl eq_refl eq_refl eq_refl) eq_refl).
  - exact (proj1 (HM accept (serving (html_body no_table_page)) _ "bitcoin" [] _
                     no_table_page eq_refl eq_refl eq_refl eq_refl) eq_refl).
  - apply (proj1 (proj2 (HP accept (serving (html_body no_data_page)) _ "bitcoin"
                               None [] _ no_data_page eq_refl eq_refl eq_refl eq_refl))).
    eexists. split; [left; reflexivity | cbn; discriminate].
Defined.

(** C7 as it is stated fails: a well-formed page without any table row
    makes [Prices] and [Markets] succeed with an empty sequence; neither
    returns an error. *)
Lemma page_without_table_is_no_error :
  rows no_table_page = []
  /\ fst (WebClient.Prices accept (serving (html_body no_table_page)) "bitcoin" None [])
     = Return (Some [], None)
  /\ fst (WebClient.Markets accept (serving (html_body no_table_page)) "bitcoin" [])
     = Return (Some [], None)
  /\ ~ (exists r err,
          fst (WebClient.Prices accept (serving (html_body no_table_page)) "bitcoin" None [])
          = Return (r, Some err))
  /\ ~ (exists r err,
          fst (WebClient.Markets accept (serving (html_body no_table_page)) "bitcoin" [])
          = Return (r, Some err)).
Proof.
  split; [reflexivity|]. split; [reflexivity|]. split; [reflexivity|].
  split; intros (r & err & H); discriminate H.
Qed.

(** ** C10: nil and empty results *)

Lemma range_append_Some {A B : Type} (step : slice B -> A -> slice B) (f : A -> B)
      (l : list A) :
  (forall s a, step s a = append s (f a)) ->
  fold_left step l (Some []) <> None.
Proof.
  intros Hstep. rewrite (range_append step f l Hstep). discriminate.
Qed.

Lemma Prices_success_not_nil (url_Parse : string -> error) (cli : WebClient.t)
      (id : string) (opts : ptr PricesOptions.t) (sent : list http.Request)
      (r : slice (ptr Price.t)) :
  fst (WebClient.Prices url_Parse cli id opts sent) = Return (r, None) -> r <> None.
Proof.
  rewrite Prices_run. cbv zeta.
  destruct (url_Parse _); [discriminate|].
  destruct (WebClient.httpClient cli) as [c|]; [|discriminate].
  destruct (http.RoundTrip c sent _) as [res|err]; [|discriminate].
  destruct (pricesQ.Decode _) as [q|err]; [|discriminate].
  intros [= <-]. eapply range_append_Some. intros s a. reflexivity.
Qed.

Lemma Markets_success_not_nil (url_Parse : string -> error) (cli : WebClient.t)
      (id : string) (sent : list http.Request) (r : slice (ptr Market.t)) :
  fst (WebClient.Markets url_Parse cli id sent) = Return (r, None) -> r <> None.
Proof.
  rewrite Markets_run. cbv zeta.
  destruct (url_Parse _); [discriminate|].
  destruct (WebClient.httpClient cli) as [c|]; [|discriminate].
  destruct (http.RoundTrip c sent _) as [res|err]; [|discriminate].
  destruct (marketsQ.Decode _) as [q|err]; [|discriminate].
  intros [= <-]. eapply range_append_Some. intros s a. reflexivity.
Qed.

(** C10, as the code has it. On success [Prices] and [Markets] always
    return a sequence that is not nil, empty when the page has no table
    row. On success [Tickers] returns a sequence that is not nil unless the
    body is the JSON value [null], in which case it returns nil; for the
    body [[]] it returns an empty sequence that is not nil. *)
Theorem success_is_not_nil_unless_body_is_null :
  (forall url_Parse cli id opts sent r,
      fst (WebClient.Prices url_Parse cli id opts sent) = Return (r, None) ->
      r <> None)
  /\ (forall url_Parse cli id sent r,
        fst (WebClient.Markets url_Parse cli id sent) = Return (r, None) ->
        r <> None)
  /\ (forall url_Parse cli c opts sent res,
        WebClient.httpClient cli = Some c ->
        url_Parse (WebClient.Tickers_u cli opts) = None ->
        http.RoundTrip c sent (GET (WebClient.Tickers_u cli opts)) = inl res ->
        (forall r,
            fst (WebClient.Tickers url_Parse cli opts sent) = Return (r, None) ->
            (r = None <-> http.json (http.Body res) = inl json.JNull))
        /\ (http.json (http.Body res) = inl json.JNull ->
            fst (WebClient.Tickers url_Parse cli opts sent) = Return (None, None))
        /\ (http.json (http.Body res) = inl (json.JArray []) ->
            fst (WebClient.Tickers url_Parse cli opts sent) = Return (Some [], None)))
  /\ (forall url_Parse cli c id opts sent res root,
        WebClient.httpClient cli = Some c ->
        url_Parse (WebClient.Prices_u cli id opts) = None ->
        http.RoundTrip c sent (GET (WebClient.Prices_u cli id opts)) = inl res ->
        http.tree (http.Body res) = inl root ->
        rows root = [] ->
        fst (WebClient.Prices url_Parse cli id opts sent) = Return (Some [], None))
  /\ (forall url_Parse cli c id sent res root,
        WebClient.httpClient cli = Some c ->
        url_Parse (fmt.Sprintf "%s/%s#markets" [WebClient.websiteAddr cli; id]) = None ->
        http.RoundTrip c sent
          (GET (fmt.Sprintf "%s/%s#markets" [WebClient.websiteAddr cli; id])) = inl res ->
        http.tree (http.Body res) = inl root ->
        rows root = [] ->
        fst (WebClient.Markets url_Parse cli id sent) = Return (Some [], None)).
Proof.
  split; [exact Prices_success_not_nil|].
  split; [exact Markets_success_not_nil|].
  split; [|split].
  - intros url_Parse cli c opts sent res Hc Hu Hr.
    rewrite Tickers_run. cbv zeta. rewrite Hu, Hc, Hr. split; [|split].
    + intros r.
      destruct (json.Decode _ _ _ _) as [tickers [err|]] eqn:E; [discriminate|].
      intros [= <-]. exact (Decode_success_nil _ _ _ _ E).
    + intros ->. reflexivity.
    + intros ->. reflexivity.
  - intros url_Parse cli c id opts sent res root Hc Hu Hr Ht Hrows.
    rewrite (Prices_of_page _ _ _ _ _ _ _ _ Hc Hu Hr Ht), Hrows. reflexivity.
  - intros url_Parse cli c id sent res root Hc Hu Hr Ht Hrows.
    rewrite (Markets_of_page _ _ _ _ _ _ _ Hc Hu Hr Ht), Hrows. reflexivity.
Qed.

Lemma success_is_not_nil_unless_body_is_null_witness :
  fst (WebClient.Tickers accept (serving (json_body (json.JArray []))) None [])
  = Return (Some [], None)
  /\ fst (WebClient.Tickers accept (serving (json_body json.JNull)) None [])
     = Return (None, None)
  /\ fst (WebClient.Prices accept (serving (html_body no_table_page)) "bitcoin" None [])
     = Return (Some [], None)
  /\ fst (WebClient.Markets accept (serving (html_body no_table_page)) "bitcoin" [])
     = Return (Some [], None)
  /\ Some [Some {| Price.Date := "2020-01-01";
                   Price.OpenUSD := "1000";
                   Price.HighUSD := "1100";
                   Price.LowUSD := "900";
                   Price.CloseUSD := "1050";
                   Price.VolumeUSD24hr := "500000";
                   Price.MarketCapUSD := "1000000" |}] <> None.
Proof.
  destruct success_is_not_nil_unless_body_is_null as (HP & HM & HT & HP0 & HM0).
  split; [|split; [|split; [|split]]].
  - exact (proj2 (proj2 (HT accept (serving (json_body (json.JArray []))) _ None [] _
                            eq_refl eq_refl eq_refl)) eq_refl).
  - exact (proj1 (proj2 (HT accept (serving (json_body json.JNull)) _ None [] _
                            eq_refl eq_refl eq_refl)) eq_refl).
  - exact (HP0 accept (serving (html_body no_table_page)) _ "bitcoin" None [] _
               no_table_page eq_refl eq_refl eq_refl eq_refl eq_refl).
  - exact (HM0 accept (serving (html_body no_table_page)) _ "bitcoin" [] _
               no_table_page eq_refl eq_refl eq_refl eq_refl eq_refl).
  - exact (HP accept (serving (html_body historical_page)) "bitcoin" None [] _ eq_refl).
Defined.

(** C10 as it is stated fails: when the body of the ticker listing is the
    JSON value [null], [Tickers] succeeds and the sequence it returns is
    nil. *)
Lemma Tickers_of_null_body_is_nil :
  fst (WebClient.Tickers accept (serving (json_body json.JNull)) None [])
  = Return (None, None).
Proof. reflexivity. Qed.

(** ** C9: all or nothing *)

Lemma all_or_nothing_failed {A : Type} (sent sent' : list http.Request) (err : Error) :
  (sent' = sent \/ exists req, sent' = sent ++ [req]) ->
  @all_or_nothing A sent (Return (None, Some err), sent').
Proof.
  intros H. split; [|exact H]. cbn [fst]. intros r e [= <- _]. reflexivity.
Qed.

Lemma all_or_nothing_succeeded {A : Type} (sent sent' : list http.Request) (r : option A) :
  (sent' = sent \/ exists req, sent' = sent ++ [req]) ->
  all_or_nothing sent (Return (r, None), sent').
Proof.
  intros H. split; [|exact H]. cbn [fst]. intros r' e [=].
Qed.

Lemma all_or_nothing_panicked {A : Type} (sent : list http.Request) (msg : string) :
  @all_or_nothing A sent (Panic msg, sent).
Proof.
  split; [|left; reflexivity]. cbn [fst]. intros r e [=].
Qed.

Create HintDb cmc.
#[local] Hint Resolve all_or_nothing_failed all_or_nothing_succeeded
  all_or_nothing_panicked : cmc.

Ltac along_the_path :=
  cbv zeta;
  repeat match goal with
         | |- context [match ?x with _ => _ end] =>
             lazymatch x with
             | context [match _ with _ => _ end] => fail
             | _ => destruct x eqn:?
             end
         end;
  eauto 6 with cmc.

(** C9. Every operation is all or nothing: whenever it returns an error,
    what it returns next to it is nil, and it has sent at most one request,
    so nothing is tried again. The error it returns is the one of the first
    step that fails: the construction of the request, the request itself,
    the decoding of the body, or, for [Ticker], the cardinality check; when
    the URL does not parse no request is sent at all. *)
Theorem failures_are_returned_with_nil (url_Parse : string -> error)
        (cli : WebClient.t) (sent : list http.Request) :
  (forall opts, all_or_nothing sent (WebClient.Tickers url_Parse cli opts sent))
  /\ (forall id, all_or_nothing sent (WebClient.Ticker url_Parse cli id sent))
  /\ (forall id opts, all_or_nothing sent (WebClient.Prices url_Parse cli id opts sent))
  /\ (forall id, all_or_nothing sent (WebClient.Markets url_Parse cli id sent))
  /\ (forall c, WebClient.httpClient cli = Some c ->
        (forall opts, exists r,
            fst (WebClient.Tickers url_Parse cli opts sent)
            = Return (r, first_failure url_Parse c sent
                           (WebClient.Tickers_u cli opts) Tickers_failure))
        /\ (forall id, exists r,
              fst (WebClient.Ticker url_Parse cli id sent)
              = Return (r, first_failure url_Parse c sent
                             (fmt.Sprintf "%s/ticker/%s" [WebClient.apiAddr cli; id])
                             Ticker_failure))
        /\ (forall id opts, exists r,
              fst (WebClient.Prices url_Parse cli id opts sent)
              = Return (r, first_failure url_Parse c sent
                             (WebClient.Prices_u cli id opts) Prices_failure))
        /\ (forall id, exists r,
              fst (WebClient.Markets url_Parse cli id sent)
              = Return (r, first_failure url_Parse c sent
                             (fmt.Sprintf "%s/%s#markets" [WebClient.websiteAddr cli; id])
                             Markets_failure)))
  /\ (forall opts err,
        url_Parse (WebClient.Tickers_u cli opts) = Some err ->
        WebClient.Tickers url_Parse cli opts sent = (Return (None, Some err), sent))
  /\ (forall id err,
        url_Parse (fmt.Sprintf "%s/ticker/%s" [WebClient.apiAddr cli; id]) = Some err ->
        WebClient.Ticker url_Parse cli id sent = (Return (None, Some err), sent))
  /\ (forall id opts err,
        url_Parse (WebClient.Prices_u cli id opts) = Some err ->
        WebClient.Prices url_Parse cli id opts sent = (Return (None, Some err), sent))
  /\ (forall id err,
        url_Parse (fmt.Sprintf "%s/%s#markets" [WebClient.websiteAddr cli; id]) = Some err ->
        WebClient.Markets url_Parse cli id sent = (Return (None, Some err), sent)).
Proof.
  split; [|split; [|split; [|split; [|split; [|split; [|split; [|split]]]]]]].
  - intros opts. rewrite Tickers_run. along_the_path.
  - intros id. rewrite Ticker_run. along_the_path.
  - intros id opts. rewrite Prices_run. along_the_path.
  - intros id. rewrite Markets_run. along_the_path.
  - intros c Hc. split; [|split; [|split]].
    + intros opts. rewrite Tickers_run. unfold first_failure, Tickers_failure.
      cbv zeta. rewrite Hc.
      destruct (url_Parse _); [eexists; reflexivity|].
      destruct (http.RoundTrip c sent _) as [res|err]; [|eexists; reflexivity].
      destruct (json.Decode _ _ _ _) as [tickers [err|]]; eexists; reflexivity.
    + intros id. rewrite Ticker_run. unfold first_failure, Ticker_failure.
      cbv zeta. rewrite Hc.
      destruct (url_Parse _); [eexists; reflexivity|].
      destruct (http.RoundTrip c sent _) as [res|err]; [|eexists; reflexivity].
      destruct (json.Decode _ _ _ _) as [tickers [err|]]; [eexists; reflexivity|].
      destruct tickers as [[|t [|t' l]]|]; cbn [len length Nat.eqb]; eexists; reflexivity.
    + intros id opts. rewrite Prices_run. unfold first_failure, Prices_failure.
      cbv zeta. rewrite Hc.
      destruct (url_Parse _); [eexists; reflexivity|].
      destruct (http.RoundTrip c sent _) as [res|err]; [|eexists; reflexivity].
      destruct (pricesQ.Decode _) as [q|err]; eexists; reflexivity.
    + intros id. rewrite Markets_run. unfold first_failure, Markets_failure.
      cbv zeta. rewrite Hc.
      destruct (url_Parse _); [eexists; reflexivity|].
      destruct (http.RoundTrip c sent _) as [res|err]; [|eexists; reflexivity].
      destruct (marketsQ.Decode _) as [q|err]; eexists; reflexivity.
  - intros opts err Hu. rewrite Tickers_run. cbv zeta. rewrite Hu. reflexivity.
  - intros id err Hu. rewrite Ticker_run. cbv zeta. rewrite Hu. reflexivity.
  - intros id opts err Hu. rewrite Prices_run. cbv zeta. rewrite Hu. reflexivity.
  - intros id err Hu. rewrite Markets_run. cbv zeta. rewrite Hu. reflexivity.
Qed.

Lemma failures_are_returned_with_nil_witness :
  json.Decode Ticker.fields Ticker.zero (inl broken_tickers) (Some [])
  = (Some [Some (Ticker.set_ID Ticker.zero "bitcoin"); Some Ticker.zero],
     Some (json_UnmarshalTypeError "number"))
  /\ WebClient.Tickers accept (serving (json_body broken_tickers)) None []
     = (Return (None, Some (json_UnmarshalTypeError "number")),
        [GET "http://127.0.0.1:8080/ticker"])
  /\ WebClient.Tickers reject unreachable None []
     = (Return (None, Some (url_Error "parse" "https://api.coinmarketcap.com/v1/ticker")), [])
  /\ (exists r,
        fst (WebClient.Prices accept unreachable "bitcoin" None [])
        = Return (r, Some (url_Error "Get"
                    "https://coinmarketcap.com/currencies/bitcoin/historical-data"))).
Proof.
  split; [reflexivity|]. split; [reflexivity|]. split.
  - exact (proj1 (proj2 (proj2 (proj2 (proj2 (proj2
             (failures_are_returned_with_nil reject unreachable []))))))
             None _ eq_refl).
  - destruct (proj1 (proj2 (proj2 (proj2 (proj2
               (failures_are_returned_with_nil accept unreachable [])))))
               _ eq_refl) as (_ & _ & HP & _).
    exact (HP "bitcoin" None).
Defined.

(** ** C2: decoding ticker objects *)

Lemma find_app_last {A : Type} (f : A -> bool) (l : list A) (a : A) :
  find f (l ++ [a]) =
  match find f l with
  | Some x => Some x
  | None => if f a then Some a else None
  end.
Proof.
  induction l as [|b l IH]; cbn [app find]; [reflexivity|].
  destruct (f b); [reflexivity | exact IH].
Qed.

Lemma last_member_cons (tag key : string) (v : json.Value)
      (rest : list (string * json.Value)) :
  last_member tag ((key, v) :: rest) =
  match last_member tag rest with
  | Some x => Some x
  | None => if names tag key then Some v else None
  end.
Proof.
  unfold last_member. cbn [rev]. rewrite find_app_last. cbn [fst].
  destruct (find _ (rev rest)); cbn [option_map]; [reflexivity|].
  destruct (names tag key); reflexivity.
Qed.

Lemma findField_In {T : Type} (fields : list (json.Field T)) (key : string)
      (f : json.Field T) :
  json.findField fields key = Some f -> In f fields.
Proof.
  unfold json.findField.
  destruct (find _ fields) as [g|] eqn:E.
  - intros [= <-]. exact (proj1 (find_some _ _ E)).
  - intros H. exact (proj1 (find_some _ _ H)).
Qed.

Lemma int_literal_store {T : Type} (s : string) (set : Z -> T) (t : T)
      (d : json.decodeState) :
  int_literal s = true ->
  exists n, strconv.ParseInt s = Some n
            /\ json.literalStoreQuotedInt s set t d = (set n, d, None).
Proof.
  unfold int_literal, json.literalStoreQuotedInt.
  destruct s as [|c s]; [discriminate|].
  intros H. apply andb_true_iff in H as [Hc Hp].
  destruct (strconv.ParseInt (String c s)) as [n|]; [|discriminate].
  exists n. split; [reflexivity|].
  assert (Hn : forall x, strconv.digit_or_minus x = false -> Ascii.eqb c x = false).
  { intros x Hx. apply Ascii.eqb_neq. intros ->. congruence. }
  rewrite !Hn by reflexivity. cbn [orb]. rewrite Hc. reflexivity.
Qed.

Lemma Ticker_mk_eq a1 a2 a3 a4 a5 a6 a7 a8 a9 a10 a11 a12 a13 a14
      b1 b2 b3 b4 b5 b6 b7 b8 b9 b10 b11 b12 b13 b14 :
  a1 = b1 -> a2 = b2 -> a3 = b3 -> a4 = b4 -> a5 = b5 -> a6 = b6 -> a7 = b7 ->
  a8 = b8 -> a9 = b9 -> a10 = b10 -> a11 = b11 -> a12 = b12 -> a13 = b13 ->
  a14 = b14 ->
  Ticker.Build_t a1 a2 a3 a4 a5 a6 a7 a8 a9 a10 a11 a12 a13 a14
  = Ticker.Build_t b1 b2 b3 b4 b5 b6 b7 b8 b9 b10 b11 b12 b13 b14.
Proof. intros; subst; reflexivity. Qed.

Lemma names_of_found (key tag : string) (f : json.Field Ticker.t) :
  json.findField Ticker.fields key = Some f ->
  names tag key = String.eqb (json.name f) tag.
Proof. unfold names. intros ->. reflexivity. Qed.

Lemma names_of_unknown (key tag : string) :
  json.findField Ticker.fields key = None -> names tag key = false.
Proof. unfold names. intros ->. reflexivity. Qed.

(** In a valid object the member that names a field holds a string. *)
Lemma last_member_valid (tag : string) (members : list (string * json.Value))
      (v : json.Value) :
  forallb valid_member members = true ->
  last_member tag members = Some v ->
  exists s, v = json.JString s
            /\ (tag = "rank" -> int_literal s = true).
Proof.
  intros Hall. unfold last_member.
  destruct (find _ (rev members)) as [[k v']|] eqn:E; [|discriminate].
  cbn [option_map snd]. intros [= ->].
  apply find_some in E as [Hin Hn]. cbn [fst] in Hn.
  apply in_rev in Hin.
  pose proof (proj1 (forallb_forall _ _) Hall _ Hin) as Hv.
  unfold valid_member in Hv. unfold names in Hn. cbn [fst snd] in Hv.
  destruct (json.findField Ticker.fields k) as [f|] eqn:Ef; [|discriminate].
  apply findField_In in Ef. unfold Ticker.fields in Ef.
  repeat (destruct Ef as [<- | Ef]; [|]); [..| destruct Ef];
    destruct v; try discriminate Hv;
    (exists s; split; [reflexivity|]);
    cbn [json.name] in Hn; apply String.eqb_eq in Hn; subst tag;
    first [ discriminate | intros _; exact Hv ].
Qed.

Lemma int_literal_parses (s : string) :
  int_literal s = true -> exists n, strconv.ParseInt s = Some n.
Proof.
  unfold int_literal. destruct s as [|c s]; [discriminate|].
  intros H. apply andb_true_iff in H as [_ H].
  destruct (strconv.ParseInt _) as [n|]; [eauto | discriminate].
Qed.

Ltac by_last_member Hlast :=
  match goal with
  | |- context [last_member ?tag ?ms] =>
      let E := fresh "E" in
      let Hint := fresh "Hint" in
      destruct (last_member tag ms) as [?|] eqn:E;
      [ destruct (Hlast _ _ E) as (? & -> & Hint);
        first [ reflexivity
              | destruct (int_literal_parses _ (Hint eq_refl)) as (? & ->);
                reflexivity ]
      | first [ reflexivity
              | match goal with
                | H : strconv.ParseInt _ = Some _ |- _ => rewrite H; reflexivity
                end ] ]
  end.

Ltac project_fields :=
  cbn [Ticker.ID Ticker.Name Ticker.Symbol Ticker.Rank Ticker.PriceUSD
       Ticker.PriceBTC Ticker.VolumeUSD24hr Ticker.MarketCapUSD
       Ticker.SupplyAvailable Ticker.SupplyTotal Ticker.PercentChange1h
       Ticker.PercentChange24h Ticker.PercentChange7d Ticker.LastUpdated
       Ticker.set_ID Ticker.set_Name Ticker.set_Symbol Ticker.set_Rank
       Ticker.set_PriceUSD Ticker.set_PriceBTC Ticker.set_VolumeUSD24hr
       Ticker.set_MarketCapUSD Ticker.set_SupplyAvailable Ticker.set_SupplyTotal
       Ticker.set_PercentChange1h Ticker.set_PercentChange24h
       Ticker.set_PercentChange7d Ticker.set_LastUpdated].

(** One valid member, stored and then laid over, is the member laid over
    together with the rest. *)
Lemma store_valid_member (key : string) (v : json.Value)
      (rest : list (string * json.Value)) (t : Ticker.t) (d : json.decodeState)
      (f : json.Field Ticker.t) :
  json.findField Ticker.fields key = Some f ->
  valid_member (key, v) = true ->
  forallb valid_member rest = true ->
  exists t', json.storeField f v t d = (t', d, None)
             /\ Ticker_over rest t' = Ticker_over ((key, v) :: rest) t.
Proof.
  intros Hf Hv Hrest. unfold valid_member in Hv. cbn [fst snd] in Hv. rewrite Hf in Hv.
  pose proof (findField_In _ _ _ Hf) as Hin.
  pose proof (fun tag v => last_member_valid tag rest v Hrest) as Hlast.
  unfold Ticker_over, member_text_or, member_int_or.
  rewrite !last_member_cons, !(names_of_found _ _ _ Hf). clear Hf.
  unfold Ticker.fields in Hin.
  repeat (destruct Hin as [<- | Hin]; [|]); [..| destruct Hin];
    destruct v; try discriminate Hv;
    cbn [json.storeField json.name String.eqb Ascii.eqb Bool.eqb];
    try (eexists; split; [reflexivity|]; apply Ticker_mk_eq; project_fields;
         by_last_member Hlast).
  destruct (int_literal_store s (Ticker.set_Rank t) t d Hv) as (n & Hn & ->).
  eexists; split; [reflexivity|]. apply Ticker_mk_eq; project_fields;
    try rewrite Hn; by_last_member Hlast.
Qed.

Lemma skip_unknown_member (key : string) (v : json.Value)
      (rest : list (string * json.Value)) (t : Ticker.t) :
  json.findField Ticker.fields key = None ->
  Ticker_over ((key, v) :: rest) t = Ticker_over rest t.
Proof.
  intros Hf. unfold Ticker_over, member_text_or, member_int_or.
  rewrite !last_member_cons, !(names_of_unknown _ _ Hf).
  apply Ticker_mk_eq;
    match goal with
    | |- context [last_member ?tag ?ms] => destruct (last_member tag ms); reflexivity
    end.
Qed.

Lemma object_valid (members : list (string * json.Value)) :
  forallb valid_member members = true ->
  forall t d,
    json.object Ticker.fields members t d = (Ticker_over members t, d, None).
Proof.
  induction members as [|[key v] rest IH]; intros Hall t d.
  - cbn [json.object]. destruct t. reflexivity.
  - cbn [forallb] in Hall. apply andb_true_iff in Hall as [Hv Hrest].
    cbn [json.object].
    destruct (json.findField Ticker.fields key) as [f|] eqn:Hf.
    + destruct (store_valid_member key v rest t d f Hf Hv Hrest) as (t' & -> & <-).
      apply IH. exact Hrest.
    + rewrite skip_unknown_member by exact Hf. apply IH. exact Hrest.
Qed.

Lemma array_valid (elems : list json.Value) :
  forallb valid_ticker elems = true ->
  forall d,
    json.array Ticker.fields Ticker.zero elems [] d
    = (map Ticker_of_json elems, d, None).
Proof.
  induction elems as [|v elems IH]; intros Hall d; [reflexivity|].
  cbn [forallb] in Hall. apply andb_true_iff in Hall as [Hv Hrest].
  cbn [json.array hd tl map].
  destruct v; try discriminate Hv. cbn [valid_ticker] in Hv.
  cbn [json.valuePtr]. rewrite (object_valid _ Hv), (IH Hrest). reflexivity.
Qed.

Lemma Decode_valid (elems : list json.Value) :
  forallb valid_ticker elems = true ->
  json.Decode Ticker.fields Ticker.zero (inl (json.JArray elems)) (Some [])
  = (Some (map Ticker_of_json elems), None).
Proof.
  intros Hall. unfold json.Decode, json.unmarshal, json.valueSlice.
  rewrite (array_valid _ Hall). reflexivity.
Qed.

(** C2. For every valid ticker-array body, the records that [Tickers] and
    [Ticker] return are the ones the objects of the body denote, in the
    order of the body: every text field holds, as it stands, the string of
    the member that names the field, and [Rank] is the integer parse of the
    string of the member that names it. *)
Theorem Tickers_fields_verbatim (url_Parse : string -> error) (cli : WebClient.t)
        (c : http.Client) (sent : list http.Request) (res : http.Response)
        (elems : list json.Value) :
  WebClient.httpClient cli = Some c ->
  http.json (http.Body res) = inl (json.JArray elems) ->
  forallb valid_ticker elems = true ->
  (forall opts,
      url_Parse (WebClient.Tickers_u cli opts) = None ->
      http.RoundTrip c sent (GET (WebClient.Tickers_u cli opts)) = inl res ->
      fst (WebClient.Tickers url_Parse cli opts sent)
      = Return (Some (map Ticker_of_json elems), None))
  /\ (forall id v,
        url_Parse (fmt.Sprintf "%s/ticker/%s" [WebClient.apiAddr cli; id]) = None ->
        http.RoundTrip c sent
          (GET (fmt.Sprintf "%s/ticker/%s" [WebClient.apiAddr cli; id])) = inl res ->
        elems = [v] ->
        fst (WebClient.Ticker url_Parse cli id sent) = Return (Ticker_of_json v, None))
  /\ (forall members f s,
        In (json.JObject members) elems ->
        In f Ticker.fields ->
        last_member (json.name f) members = Some (json.JString s) ->
        match f with
        | json.StringField _ get _ => get (Ticker_of_members members) = s
        | json.IntStringField _ get _ =>
            strconv.ParseInt s = Some (get (Ticker_of_members members))
        end).
Proof.
  intros Hc Hbody Hvalid. split; [|split].
  - intros opts Hu Hr. rewrite Tickers_run. cbv zeta.
    rewrite Hu, Hc, Hr, Hbody, (Decode_valid _ Hvalid). reflexivity.
  - intros id v Hu Hr ->. rewrite Ticker_run. cbv zeta.
    rewrite Hu, Hc, Hr, Hbody, (Decode_valid _ Hvalid). reflexivity.
  - intros members f s Hin Hf Hlast.
    pose proof (proj1 (forallb_forall _ _) Hvalid _ Hin) as Hms.
    cbn [valid_ticker] in Hms.
    destruct (last_member_valid _ _ _ Hms Hlast) as (s' & [= <-] & Hint).
    unfold Ticker.fields in Hf.
    repeat (destruct Hf as [<- | Hf]; [|]); [..| destruct Hf];
      cbn [json.name] in Hlast, Hint;
      unfold Ticker_of_members, Ticker_over; project_fields;
      unfold member_text_or, member_int_or; rewrite Hlast; try reflexivity.
    destruct (int_literal_parses _ (Hint eq_refl)) as (n & ->). reflexivity.
Qed.

Lemma Tickers_fields_verbatim_witness :
  fst (WebClient.Tickers accept (serving (json_body TestTickers_body)) None [])
  = Return
      (Some
         [ Some {| Ticker.ID := "bitcoin"; Ticker.Name := "Bitcoin";
                   Ticker.Symbol := "BTC"; Ticker.Rank := 1;
                   Ticker.PriceUSD := "573.137"; Ticker.PriceBTC := "1.0";
                   Ticker.VolumeUSD24hr := "72855700.0";
                   Ticker.MarketCapUSD := "9080883500.0";
                   Ticker.SupplyAvailable := "15844176.0";
                   Ticker.SupplyTotal := "15844176.0";
                   Ticker.PercentChange1h := "0.04";
                   Ticker.PercentChange24h := "-0.3";
                   Ticker.PercentChange7d := "-0.57";
                   Ticker.LastUpdated := "1472762067" |};
           Some {| Ticker.ID := "ethereum"; Ticker.Name := "Ethereum";
                   Ticker.Symbol := "ETH"; Ticker.Rank := 2;
                   Ticker.PriceUSD := "12.1844"; Ticker.PriceBTC := "0.021262";
                   Ticker.VolumeUSD24hr := "24085900.0";
                   Ticker.MarketCapUSD := "1018098455.0";
                   Ticker.SupplyAvailable := "83557537.0";
                   Ticker.SupplyTotal := "83557537.0";
                   Ticker.PercentChange1h := "-0.58";
                   Ticker.PercentChange24h := "6.34";
                   Ticker.PercentChange7d := "8.59";
                   Ticker.LastUpdated := "1472762062" |} ], None).
Proof.
  exact (proj1 (Tickers_fields_verbatim accept (serving (json_body TestTickers_body))
                  _ [] {| http.Body := json_body TestTickers_body |} _
                  eq_refl eq_refl eq_refl)
               None eq_refl eq_refl).
Defined.

(** ** C6: encoding and decoding back *)

(** *** What the decoder stores in [Rank] fits an [int] *)

Lemma literalStoreQuotedInt_fits (s : string) (t t' : Ticker.t)
      (d d' : json.decodeState) (e : error) :
  json.literalStoreQuotedInt s (Ticker.set_Rank t) t d = (t', d', e) ->
  Rank_fits (Some t) -> Rank_fits (Some t').
Proof.
  unfold json.literalStoreQuotedInt. intros H Ht.
  destruct s as [|c s]; [injection H as <- _ _; exact Ht|].
  repeat match type of H with
         | (if ?b then _ else _) = _ => destruct b
         end;
    try (injection H as <- _ _; exact Ht).
  destruct (strconv.ParseInt (String c s)) as [n|] eqn:E;
    injection H as <- _ _; [|exact Ht].
  cbn [Rank_fits Ticker.set_Rank Ticker.Rank]. exact (ParseInt_range _ _ E).
Qed.

Lemma storeField_fits (f : json.Field Ticker.t) (v : json.Value)
      (t t' : Ticker.t) (d d' : json.decodeState) (e : error) :
  In f Ticker.fields ->
  json.storeField f v t d = (t', d', e) ->
  Rank_fits (Some t) -> Rank_fits (Some t').
Proof.
  intros Hf H Ht. unfold Ticker.fields in Hf.
  repeat (destruct Hf as [<- | Hf]; [|]); [..| destruct Hf];
    cbn [json.storeField] in H;
    destruct v;
    try (injection H as <- _ _; exact Ht).
  exact (literalStoreQuotedInt_fits _ _ _ _ _ _ H Ht).
Qed.

Lemma object_fits (members : list (string * json.Value)) :
  forall t t' d d' e,
    json.object Ticker.fields members t d = (t', d', e) ->
    Rank_fits (Some t) -> Rank_fits (Some t').
Proof.
  induction members as [|[key v] rest IH]; intros t t' d d' e; cbn [json.object].
  - intros [= <- _ _] Ht. exact Ht.
  - destruct (json.findField Ticker.fields key) as [f|] eqn:Hf; [|apply IH].
    destruct (json.storeField f v t d) as [[t1 d1] [err|]] eqn:Hs.
    + intros [= <- _ _]. exact (storeField_fits _ _ _ _ _ _ _ (findField_In _ _ _ Hf) Hs).
    + intros H Ht. eapply IH; [exact H|].
      exact (storeField_fits _ _ _ _ _ _ _ (findField_In _ _ _ Hf) Hs Ht).
Qed.

Lemma zero_fits : Rank_fits (Some Ticker.zero).
Proof. cbn. unfold strconv.minInt64, strconv.maxInt64. lia. Qed.

Lemma valuePtr_fits (v : json.Value) (old p : ptr Ticker.t)
      (d d' : json.decodeState) (e : error) :
  json.valuePtr Ticker.fields Ticker.zero v old d = (p, d', e) ->
  Rank_fits old -> Rank_fits p.
Proof.
  intros H Hold.
  assert (Ht : Rank_fits (Some match old with Some t => t | None => Ticker.zero end)).
  { destruct old; [exact Hold | exact zero_fits]. }
  unfold json.valuePtr in H.
  destruct v; try (injection H as <- _ _; first [exact Ht | exact I]).
  destruct (json.object _ _ _ _) as [[t' d1] e1] eqn:E.
  injection H as <- _ _. exact (object_fits _ _ _ _ _ _ E Ht).
Qed.

Lemma array_fits (elems : list json.Value) :
  forall old ps d d' e,
    json.array Ticker.fields Ticker.zero elems old d = (ps, d', e) ->
    Forall Rank_fits old -> Forall Rank_fits ps.
Proof.
  induction elems as [|v elems IH]; intros old ps d d' e; cbn [json.array].
  - intros [= <- _ _] _. constructor.
  - intros H Hold.
    assert (Hhd : Rank_fits (hd None old)) by (destruct Hold; [exact I | assumption]).
    assert (Htl : Forall Rank_fits (tl old)) by (destruct Hold; [constructor | assumption]).
    destruct (json.valuePtr _ _ v _ d) as [[p d1] [err|]] eqn:Ev.
    + injection H as <- _ _. constructor; [|exact Htl].
      exact (valuePtr_fits _ _ _ _ _ _ Ev Hhd).
    + destruct (json.array _ _ elems _ d1) as [[ps' d2] e2] eqn:Ea.
      injection H as <- _ _. constructor.
      * exact (valuePtr_fits _ _ _ _ _ _ Ev Hhd).
      * exact (IH _ _ _ _ _ Ea Htl).
Qed.

Lemma Decode_fits (next : json.Value + Error) (l : list (ptr Ticker.t)) (e : error) :
  json.Decode Ticker.fields Ticker.zero next (Some []) = (Some l, e) ->
  Forall Rank_fits l.
Proof.
  unfold json.Decode, json.unmarshal, json.valueSlice.
  destruct next as [v|err]; [|intros [= <- _]; constructor].
  destruct v; cbn [json.saveError json.savedError];
    try (intros [= <- _]; constructor); try discriminate.
  destruct (json.array _ _ _ _ _) as [[ps d] err] eqn:E.
  intros H. assert (ps = l) as <- by (destruct err; congruence).
  exact (array_fits _ _ _ _ _ _ E (Forall_nil _)).
Qed.

Lemma Tickers_fits (url_Parse : string -> error) (cli : WebClient.t)
      (opts : ptr TickersOptions.t) (sent : list http.Request)
      (l : list (ptr Ticker.t)) (e : error) :
  fst (WebClient.Tickers url_Parse cli opts sent) = Return (Some l, e) ->
  Forall Rank_fits l.
Proof.
  rewrite Tickers_run. cbv zeta.
  destruct (url_Parse _); [discriminate|].
  destruct (WebClient.httpClient cli) as [c|]; [|discriminate].
  destruct (http.RoundTrip c sent _) as [res|err]; [|discriminate].
  destruct (json.Decode _ _ _ _) as [tickers [err|]] eqn:E; [discriminate|].
  intros [= -> <-]. exact (Decode_fits _ _ _ E).
Qed.

Lemma Ticker_fits (url_Parse : string -> error) (cli : WebClient.t)
      (id : string) (sent : list http.Request) (p : ptr Ticker.t) (e : error) :
  fst (WebClient.Ticker url_Parse cli id sent) = Return (p, e) ->
  Rank_fits p.
Proof.
  rewrite Ticker_run. cbv zeta.
  destruct (url_Parse _); [intros [= <- _]; exact I|].
  destruct (WebClient.httpClient cli) as [c|]; [|discriminate].
  destruct (http.RoundTrip c sent _) as [res|err]; [|intros [= <- _]; exact I].
  destruct (json.Decode _ _ _ _) as [tickers [err|]] eqn:E; [intros [= <- _]; exact I|].
  destruct tickers as [[|t [|t' l]]|]; try (intros [= <- _]; exact I).
  intros [= <- _]. pose proof (Decode_fits _ _ _ E) as H.
  inversion H; assumption.
Qed.

(** *** Decoding what was encoded *)

Lemma literalStoreQuotedInt_Itoa {T : Type} (n : Z) (set : Z -> T) (t : T)
      (d : json.decodeState) :
  (strconv.minInt64 <= n <= strconv.maxInt64)%Z ->
  json.literalStoreQuotedInt (strconv.Itoa n) set t d = (set n, d, None).
Proof.
  intros Hn.
  assert (Hlit : int_literal (strconv.Itoa n) = true).
  { unfold int_literal. destruct (Itoa_head n) as (c & r & E & Hc).
    rewrite E, Hc, <- E, (ParseInt_Itoa n Hn). reflexivity. }
  destruct (int_literal_store _ set t d Hlit) as (m & Hm & ->).
  rewrite (ParseInt_Itoa n Hn) in Hm. injection Hm as <-. reflexivity.
Qed.

Lemma Ticker_object_marshal (t t0 : Ticker.t) (d : json.decodeState) :
  texts_valid Ticker.fields (Some t) = true ->
  Rank_fits (Some t) ->
  json.object Ticker.fields (map (json.marshalField t) Ticker.fields) t0 d
  = (t, d, None).
Proof.
  intros Hv Hr. cbn [texts_valid Ticker.fields forallb] in Hv.
  repeat (apply andb_true_iff in Hv as [?H Hv]).
  cbn [Ticker.fields map json.marshalField].
  repeat match goal with
         | H : utf8.ValidString _ = true |- _ => rewrite (ToValid_valid _ H); clear H
         end.
  repeat (cbn [json.object];
          match goal with
          | |- context [json.findField Ticker.fields ?k] =>
              let f := eval vm_compute in (json.findField Ticker.fields k) in
              change (json.findField Ticker.fields k) with f
          end;
          cbn [json.storeField];
          rewrite ?literalStoreQuotedInt_Itoa by exact Hr).
  cbn [json.object]. destruct t. reflexivity.
Qed.

Lemma Price_object_marshal (t t0 : Price.t) (d : json.decodeState) :
  texts_valid Price.fields (Some t) = true ->
  json.object Price.fields (map (json.marshalField t) Price.fields) t0 d
  = (t, d, None).
Proof.
  intros Hv. cbn [texts_valid Price.fields forallb] in Hv.
  repeat (apply andb_true_iff in Hv as [?H Hv]).
  cbn [Price.fields map json.marshalField].
  repeat match goal with
         | H : utf8.ValidString _ = true |- _ => rewrite (ToValid_valid _ H); clear H
         end.
  repeat (cbn [json.object];
          match goal with
          | |- context [json.findField Price.fields ?k] =>
              let f := eval vm_compute in (json.findField Price.fields k) in
              change (json.findField Price.fields k) with f
          end;
          cbn [json.storeField]).
  cbn [json.object]. destruct t. reflexivity.
Qed.

Lemma Market_object_marshal (t : Market.t) (d : json.decodeState) :
  texts_valid Market.fields (Some t) = true ->
  json.object Market.fields (map (json.marshalField t) Market.fields) Market.zero d
  = (match Market_encoded (Some t) with Some m => m | None => t end, d, None).
Proof.
  intros Hv. cbn [texts_valid Market.fields forallb] in Hv.
  repeat (apply andb_true_iff in Hv as [?H Hv]).
  cbn [Market.fields map json.marshalField].
  repeat match goal with
         | H : utf8.ValidString _ = true |- _ => rewrite (ToValid_valid _ H); clear H
         end.
  repeat (cbn [json.object];
          match goal with
          | |- context [json.findField Market.fields ?k] =>
              let f := eval vm_compute in (json.findField Market.fields k) in
              change (json.findField Market.fields k) with f
          end;
          cbn [json.storeField]).
  cbn [json.object]. destruct t. reflexivity.
Qed.

(** Decoding the encoding of a sequence, given what decoding the encoding
    of one record gives. *)
Section Roundtrip.
Context {T : Type}.
Variable fields : list (json.Field T).
Variable zero : T.
Variable ok : ptr T -> Prop.
Variable back : T -> T.
Hypothesis object_marshal :
  forall t d, ok (Some t) ->
    json.object fields (map (json.marshalField t) fields) zero d
    = (back t, d, None).

Lemma valuePtr_marshal (p : ptr T) (d : json.decodeState) :
  ok p ->
  json.valuePtr fields zero (json.marshalPtr fields p) None d
  = (option_map back p, d, None).
Proof.
  intros Hp. destruct p as [t|]; [|reflexivity].
  cbn [json.marshalPtr json.marshalStruct json.valuePtr option_map].
  rewrite (object_marshal t d Hp). reflexivity.
Qed.

Lemma array_marshal (l : list (ptr T)) (d : json.decodeState) :
  Forall ok l ->
  json.array fields zero (map (json.marshalPtr fields) l) [] d
  = (map (option_map back) l, d, None).
Proof.
  induction 1 as [|p l Hp Hl IH]; [reflexivity|].
  cbn [map json.array hd tl].
  rewrite (valuePtr_marshal p d Hp), IH. reflexivity.
Qed.

Lemma roundtrip_marshal (s : slice (ptr T)) :
  match s with None => True | Some l => Forall ok l end ->
  roundtrip fields zero s = (option_map (map (option_map back)) s, None).
Proof.
  intros Hs. destruct s as [l|]; [|reflexivity].
  unfold roundtrip, json.Decode, json.unmarshal, json.valueSlice.
  cbn [json.Marshal]. rewrite (array_marshal l _ Hs). reflexivity.
Qed.

Lemma roundtrip_ptr_marshal (p : ptr T) :
  ok p -> roundtrip_ptr fields zero p = (option_map back p, None).
Proof.
  intros Hp. unfold roundtrip_ptr, json.unmarshalPtr.
  rewrite (valuePtr_marshal p _ Hp). reflexivity.
Qed.
End Roundtrip.

Lemma map_option_id {A : Type} (l : list (option A)) :
  map (option_map (fun a => a)) l = l.
Proof.
  induction l as [|[a|] l IH]; cbn [map option_map]; rewrite ?IH; reflexivity.
Qed.

Lemma Forall_texts_valid {T : Type} (fields : list (json.Field T))
      (l : list (ptr T)) :
  forallb (texts_valid fields) l = true ->
  Forall (fun p => texts_valid fields p = true) l.
Proof. intros H. apply Forall_forall. exact (proj1 (forallb_forall _ _) H). Qed.

Lemma Forall_and {A : Type} (P Q : A -> Prop) (l : list A) :
  Forall P l -> Forall Q l -> Forall (fun a => P a /\ Q a) l.
Proof.
  induction 1 as [|a l Ha Hl IH]; intros HQ; [constructor|].
  inversion HQ; subst. constructor; [split; assumption | apply IH; assumption].
Qed.

Lemma Market_back (p : ptr Market.t) :
  option_map (fun t => match Market_encoded (Some t) with Some m => m | None => t end) p
  = Market_encoded p.
Proof. destruct p; reflexivity. Qed.

(** A text that is not well-formed UTF-8 does not come back as it was: the
    encoder writes U+FFFD for the offending byte. *)
Example ill_formed_text_is_replaced :
  fst (WebClient.Prices accept (serving (html_body latin1_page)) "bitcoin" None [])
  = Return (Some [Some {| Price.Date := "2020-01-01";
                         Price.OpenUSD := strings.bytes [50; 255];
                         Price.HighUSD := "1"; Price.LowUSD := "1";
                         Price.CloseUSD := "1"; Price.VolumeUSD24hr := "1";
                         Price.MarketCapUSD := "1" |}], None)
  /\ roundtrip Price.fields Price.zero
       (Some [Some {| Price.Date := "2020-01-01";
                      Price.OpenUSD := strings.bytes [50; 255];
                      Price.HighUSD := "1"; Price.LowUSD := "1";
                      Price.CloseUSD := "1"; Price.VolumeUSD24hr := "1";
                      Price.MarketCapUSD := "1" |}])
     = (Some [Some {| Price.Date := "2020-01-01";
                      Price.OpenUSD := strings.bytes [50; 239; 191; 189];
                      Price.HighUSD := "1"; Price.LowUSD := "1";
                      Price.CloseUSD := "1"; Price.VolumeUSD24hr := "1";
                      Price.MarketCapUSD := "1" |}], None).
Proof. split; reflexivity. Qed.

(** C6, as the code has it. For each of the four operations the proviso
    is that the text fields that are encoded are well-formed UTF-8. Under
    it, encoding a returned sequence to JSON and decoding it back gives
    the same sequence for the [Ticker] records of [Tickers], the record of
    [Ticker] and the [Price] records of [Prices]. For the [Market] records
    of [Markets], under the same proviso on [Source], [Pair] and
    [VolumePercentage], it gives the same sequence but for the fields
    [VolumeUSD24hr] and [PriceUSD], which are not encoded and come back
    empty. *)
Theorem roundtrip_of_results :
  (forall url_Parse cli opts sent s,
      fst (WebClient.Tickers url_Parse cli opts sent) = Return (s, None) ->
      all_texts_valid Ticker.fields s = true ->
      roundtrip Ticker.fields Ticker.zero s = (s, None))
  /\ (forall url_Parse cli id sent p,
        fst (WebClient.Ticker url_Parse cli id sent) = Return (p, None) ->
        texts_valid Ticker.fields p = true ->
        roundtrip_ptr Ticker.fields Ticker.zero p = (p, None))
  /\ (forall url_Parse cli id opts sent s,
        fst (WebClient.Prices url_Parse cli id opts sent) = Return (s, None) ->
        all_texts_valid Price.fields s = true ->
        roundtrip Price.fields Price.zero s = (s, None))
  /\ (forall url_Parse cli id sent s,
        fst (WebClient.Markets url_Parse cli id sent) = Return (s, None) ->
        all_texts_valid Market.fields s = true ->
        roundtrip Market.fields Market.zero s
        = (option_map (map Market_encoded) s, None)).
Proof.
  split; [|split; [|split]].
  - intros url_Parse cli opts sent s Hrun Hv.
    rewrite (roundtrip_marshal Ticker.fields Ticker.zero
               (fun p => texts_valid Ticker.fields p = true /\ Rank_fits p)
               (fun t => t)).
    + destruct s as [l|]; [|reflexivity]. cbn [option_map].
      rewrite map_option_id. reflexivity.
    + intros t d [Ht Hr]. exact (Ticker_object_marshal t _ d Ht Hr).
    + destruct s as [l|]; [|exact I].
      apply Forall_and; [exact (Forall_texts_valid _ _ Hv)|].
      exact (Tickers_fits _ _ _ _ _ _ Hrun).
  - intros url_Parse cli id sent p Hrun Hv.
    rewrite (roundtrip_ptr_marshal Ticker.fields Ticker.zero
               (fun p => texts_valid Ticker.fields p = true /\ Rank_fits p)
               (fun t => t)).
    + destruct p; reflexivity.
    + intros t d [Ht Hr]. exact (Ticker_object_marshal t _ d Ht Hr).
    + split; [exact Hv | exact (Ticker_fits _ _ _ _ _ _ Hrun)].
  - intros url_Parse cli id opts sent s _ Hv.
    rewrite (roundtrip_marshal Price.fields Price.zero
               (fun p => texts_valid Price.fields p = true) (fun t => t)).
    + destruct s as [l|]; [|reflexivity]. cbn [option_map].
      rewrite map_option_id. reflexivity.
    + intros t d Ht. exact (Price_object_marshal t _ d Ht).
    + destruct s as [l|]; [|exact I]. exact (Forall_texts_valid _ _ Hv).
  - intros url_Parse cli id sent s _ Hv.
    rewrite (roundtrip_marshal Market.fields Market.zero
               (fun p => texts_valid Market.fields p = true)
               (fun t => match Market_encoded (Some t) with Some m => m | None => t end)).
    + destruct s as [l|]; [|reflexivity]. cbn [option_map].
      rewrite (map_ext _ _ Market_back). reflexivity.
    + intros t d Ht. exact (Market_object_marshal t d Ht).
    + destruct s as [l|]; [|exact I]. exact (Forall_texts_valid _ _ Hv).
Qed.

Lemma roundtrip_of_results_witness :
  roundtrip Ticker.fields Ticker.zero
    (Some (map Ticker_of_json
             (match TestTickers_body with json.JArray l => l | _ => [] end)))
  = (Some (map Ticker_of_json
             (match TestTickers_body with json.JArray l => l | _ => [] end)), None)
  /\ roundtrip Price.fields Price.zero
       (Some [Some {| Price.Date := "2020-01-01";
                      Price.OpenUSD := "1000";
                      Price.HighUSD := "1100";
                      Price.LowUSD := "900";
                      Price.CloseUSD := "1050";
                      Price.VolumeUSD24hr := "500000";
                      Price.MarketCapUSD := "1000000" |}])
     = (Some [Some {| Price.Date := "2020-01-01";
                      Price.OpenUSD := "1000";
                      Price.HighUSD := "1100";
                      Price.LowUSD := "900";
                      Price.CloseUSD := "1050";
                      Price.VolumeUSD24hr := "500000";
                      Price.MarketCapUSD := "1000000" |}], None)
  /\ roundtrip Market.fields Market.zero
       (Some [Some {| Market.Source := "Binance";
                      Market.Pair := "BTC/USDT";
                      Market.VolumeUSD24hr := "$1,000";
                      Market.PriceUSD := "$9,000.00";
                      Market.VolumePercentage := "12.5%" |}])
     = (Some [Some {| Market.Source := "Binance";
                      Market.Pair := "BTC/USDT";
                      Market.VolumeUSD24hr := "";
                      Market.PriceUSD := "";
                      Market.VolumePercentage := "12.5%" |}], None).
Proof.
  destruct roundtrip_of_results as (HT & _ & HP & HM).
  split; [|split].
  - exact (HT accept (serving (json_body TestTickers_body)) None [] _ eq_refl eq_refl).
  - exact (HP accept (serving (html_body historical_page)) "bitcoin" None [] _
              eq_refl eq_refl).
  - exact (HM accept (serving (html_body markets_page)) "bitcoin" [] _
              eq_refl eq_refl).
Defined.

(** C6 as it is stated fails: the [Market] records that [Markets] returns
    for a page do not come back from their JSON encoding as they were;
    [VolumeUSD24hr] and [PriceUSD] are lost. *)
Lemma Market_roundtrip_loses_fields :
  fst (WebClient.Markets accept (serving (html_body markets_page)) "bitcoin" [])
  = Return (Some [Some {| Market.Source := "Binance";
                         Market.Pair := "BTC/USDT";
                         Market.VolumeUSD24hr := "$1,000";
                         Market.PriceUSD := "$9,000.00";
                         Market.VolumePercentage := "12.5%" |}], None)
  /\ roundtrip Market.fields Market.zero
       (Some [Some {| Market.Source := "Binance";
                      Market.Pair := "BTC/USDT";
                      Market.VolumeUSD24hr := "$1,000";
                      Market.PriceUSD := "$9,000.00";
                      Market.VolumePercentage := "12.5%" |}])
     = (Some [Some {| Market.Source := "Binance";
                      Market.Pair := "BTC/USDT";
                      Market.VolumeUSD24hr := "";
                      Market.PriceUSD := "";
                      Market.VolumePercentage := "12.5%" |}], None)
  /\ roundtrip Market.fields Market.zero
       (Some [Some {| Market.Source := "Binance";
                      Market.Pair := "BTC/USDT";
                      Market.VolumeUSD24hr := "$1,000";
                      Market.PriceUSD := "$9,000.00";
                      Market.VolumePercentage := "12.5%" |}])
     <> (Some [Some {| Market.Source := "Binance";
                       Market.Pair := "BTC/USDT";
                       Market.VolumeUSD24hr := "$1,000";
                       Market.PriceUSD := "$9,000.00";
                       Market.VolumePercentage := "12.5%" |}], None).
Proof.
  split; [reflexivity|]. split; [reflexivity|]. discriminate.
Qed.

(* ===================================================================== *)
(** * Part III: further properties of the code *)
(* ===================================================================== *)

(** ** Building a client *)

Lemma NewWebClient_fold (DefaultClient : http.Client) (os : list Opt) :
  forall cli,
    fold_left (fun cli opt => opt cli) (map option_of os) cli
    = {| WebClient.apiAddr :=
           fold_left (fun a o => match o with OptAPIAddress b => b | _ => a end)
             os (WebClient.apiAddr cli);
         WebClient.websiteAddr := WebClient.websiteAddr cli;
         WebClient.httpClient :=
           fold_left (fun c o => match o with OptHTTPClient c' => c' | _ => c end)
             os (WebClient.httpClient cli) |}.
Proof.
  induction os as [|o os IH]; intros cli; cbn [map fold_left].
  - destruct cli. reflexivity.
  - rewrite IH. destruct o; reflexivity.
Qed.

Lemma NewWebClient_eq (DefaultClient : http.Client) (os : list Opt) :
  NewWebClient DefaultClient (map option_of os)
  = {| WebClient.apiAddr := last_address os;
       WebClient.websiteAddr := websiteAddr;
       WebClient.httpClient := last_client DefaultClient os |}.
Proof. unfold NewWebClient. rewrite (NewWebClient_fold DefaultClient). reflexivity. Qed.

(** X1. A client built by [NewWebClient] from any options of the package
    has the API address of the last [WithAPIAddress], the default one when
    there is none, and the HTTP client of the last [WithHTTPClient], the
    default one when there is none; the two kinds of option do not touch
    each other's field, and no option changes the website address. *)
Theorem NewWebClient_last_option_wins (DefaultClient : http.Client) (os : list Opt) :
  NewWebClient DefaultClient (map option_of os)
  = {| WebClient.apiAddr := last_address os;
       WebClient.websiteAddr := websiteAddr;
       WebClient.httpClient := last_client DefaultClient os |}
  /\ NewWebClient DefaultClient []
     = {| WebClient.apiAddr := apiAddr;
          WebClient.websiteAddr := websiteAddr;
          WebClient.httpClient := Some DefaultClient |}
  /\ (forall a, last_address (os ++ [OptAPIAddress a]) = a)
  /\ (forall c, last_client DefaultClient (os ++ [OptHTTPClient c]) = c)
  /\ (forall c, last_address (os ++ [OptHTTPClient c]) = last_address os)
  /\ (forall a, last_client DefaultClient (os ++ [OptAPIAddress a])
                = last_client DefaultClient os).
Proof.
  split; [apply NewWebClient_eq|]. split; [reflexivity|].
  unfold last_address, last_client.
  repeat split; intros; rewrite fold_left_app; reflexivity.
Qed.

(** ** Panics and requests *)

Lemma Ticker_run_total (url_Parse : string -> error) (cli : WebClient.t)
      (id : string) (sent : list http.Request) :
  let u := fmt.Sprintf "%s/ticker/%s" [WebClient.apiAddr cli; id] in
  match url_Parse u, WebClient.httpClient cli with
  | None, None => WebClient.Ticker url_Parse cli id sent = (Panic nil_dereference, sent)
  | None, Some _ =>
      exists r, WebClient.Ticker url_Parse cli id sent = (Return r, sent ++ [GET u])
  | Some _, _ => exists r, WebClient.Ticker url_Parse cli id sent = (Return r, sent)
  end.
Proof.
  intros u. rewrite Ticker_run. cbv zeta. fold u.
  destruct (url_Parse u); [eexists; reflexivity|].
  destruct (WebClient.httpClient cli) as [c|]; [|reflexivity].
  destruct (http.RoundTrip c sent _) as [res|err]; [|eexists; reflexivity].
  destruct (json.Decode _ _ _ _) as [tickers [err|]]; [eexists; reflexivity|].
  destruct tickers as [[|t [|t' l]]|]; eexists; reflexivity.
Qed.

Lemma Tickers_run_total (url_Parse : string -> error) (cli : WebClient.t)
      (opts : ptr TickersOptions.t) (sent : list http.Request) :
  let u := WebClient.Tickers_u cli opts in
  match url_Parse u, WebClient.httpClient cli with
  | None, None => WebClient.Tickers url_Parse cli opts sent = (Panic nil_dereference, sent)
  | None, Some _ =>
      exists r, WebClient.Tickers url_Parse cli opts sent = (Return r, sent ++ [GET u])
  | Some _, _ => exists r, WebClient.Tickers url_Parse cli opts sent = (Return r, sent)
  end.
Proof.
  intros u. rewrite Tickers_run. cbv zeta. fold u.
  destruct (url_Parse u); [eexists; reflexivity|].
  destruct (WebClient.httpClient cli) as [c|]; [|reflexivity].
  destruct (http.RoundTrip c sent _) as [res|err]; [|eexists; reflexivity].
  destruct (json.Decode _ _ _ _) as [tickers [err|]]; eexists; reflexivity.
Qed.

Lemma Prices_run_total (url_Parse : string -> error) (cli : WebClient.t)
      (id : string) (opts : ptr PricesOptions.t) (sent : list http.Request) :
  let u := WebClient.Prices_u cli id opts in
  match url_Parse u, WebClient.httpClient cli with
  | None, None =>
      WebClient.Prices url_Parse cli id opts sent = (Panic nil_dereference, sent)
  | None, Some _ =>
      exists r, WebClient.Prices url_Parse cli id opts sent = (Return r, sent ++ [GET u])
  | Some _, _ => exists r, WebClient.Prices url_Parse cli id opts sent = (Return r, sent)
  end.
Proof.
  intros u. rewrite Prices_run. cbv zeta. fold u.
  destruct (url_Parse u); [eexists; reflexivity|].
  destruct (WebClient.httpClient cli) as [c|]; [|reflexivity].
  destruct (http.RoundTrip c sent _) as [res|err]; [|eexists; reflexivity].
  destruct (pricesQ.Decode _); eexists; reflexivity.
Qed.

Lemma Markets_run_total (url_Parse : string -> error) (cli : WebClient.t)
      (id : string) (sent : list http.Request) :
  let u := fmt.Sprintf "%s/%s#markets" [WebClient.websiteAddr cli; id] in
  match url_Parse u, WebClient.httpClient cli with
  | None, None => WebClient.Markets url_Parse cli id sent = (Panic nil_dereference, sent)
  | None, Some _ =>
      exists r, WebClient.Markets url_Parse cli id sent = (Return r, sent ++ [GET u])
  | Some _, _ => exists r, WebClient.Markets url_Parse cli id sent = (Return r, sent)
  end.
Proof.
  intros u. rewrite Markets_run. cbv zeta. fold u.
  destruct (url_Parse u); [eexists; reflexivity|].
  destruct (WebClient.httpClient cli) as [c|]; [|reflexivity].
  destruct (http.RoundTrip c sent _) as [res|err]; [|eexists; reflexivity].
  destruct (marketsQ.Decode _); eexists; reflexivity.
Qed.

Ltac by_run_total H :=
  let u := fresh "u" in
  pose proof H as u; cbv zeta in u;
  repeat match type of u with
         | match ?x with _ => _ end => destruct x eqn:?
         end;
  repeat match goal with
         | H : exists _, _ |- _ => destruct H as (? & H)
         end.

(** X2. The one way a call panics is a nil HTTP client: each of the four
    operations panics exactly when the client is nil and the URL parses,
    with the message of a nil pointer dereference. In particular the index
    [tickers[0]] of [Ticker] is never out of range. *)
Theorem panics_only_on_nil_client (url_Parse : string -> error)
        (cli : WebClient.t) (sent : list http.Request) :
  (forall opts msg,
      fst (WebClient.Tickers url_Parse cli opts sent) = Panic msg <->
      WebClient.httpClient cli = None
      /\ url_Parse (WebClient.Tickers_u cli opts) = None
      /\ msg = nil_dereference)
  /\ (forall id msg,
        fst (WebClient.Ticker url_Parse cli id sent) = Panic msg <->
        WebClient.httpClient cli = None
        /\ url_Parse (fmt.Sprintf "%s/ticker/%s" [WebClient.apiAddr cli; id]) = None
        /\ msg = nil_dereference)
  /\ (forall id opts msg,
        fst (WebClient.Prices url_Parse cli id opts sent) = Panic msg <->
        WebClient.httpClient cli = None
        /\ url_Parse (WebClient.Prices_u cli id opts) = None
        /\ msg = nil_dereference)
  /\ (forall id msg,
        fst (WebClient.Markets url_Parse cli id sent) = Panic msg <->
        WebClient.httpClient cli = None
        /\ url_Parse (fmt.Sprintf "%s/%s#markets" [WebClient.websiteAddr cli; id]) = None
        /\ msg = nil_dereference).
Proof.
  split; [|split; [|split]].
  - intros opts msg. by_run_total (Tickers_run_total url_Parse cli opts sent);
      rewrite u; cbn [fst]; split;
      try (intros [=]; subst; repeat split; congruence);
      try (intros (H1 & H2 & H3); congruence).
  - intros id msg. by_run_total (Ticker_run_total url_Parse cli id sent);
      rewrite u; cbn [fst]; split;
      try (intros [=]; subst; repeat split; congruence);
      try (intros (H1 & H2 & H3); congruence).
  - intros id opts msg. by_run_total (Prices_run_total url_Parse cli id opts sent);
      rewrite u; cbn [fst]; split;
      try (intros [=]; subst; repeat split; congruence);
      try (intros (H1 & H2 & H3); congruence).
  - intros id msg. by_run_total (Markets_run_total url_Parse cli id sent);
      rewrite u; cbn [fst]; split;
      try (intros [=]; subst; repeat split; congruence);
      try (intros (H1 & H2 & H3); congruence).
Qed.

Lemma panics_only_on_nil_client_witness :
  fst (WebClient.Ticker accept (WithHTTPClient None (serving (json_body (json.JArray []))))
         "bitcoin" [])
  = Panic nil_dereference
  /\ fst (WebClient.Ticker reject (WithHTTPClient None (serving (json_body (json.JArray []))))
            "bitcoin" [])
     <> Panic nil_dereference.
Proof.
  destruct (panics_only_on_nil_client accept
              (WithHTTPClient None (serving (json_body (json.JArray [])))) [])
    as (_ & HT & _).
  destruct (panics_only_on_nil_client reject
              (WithHTTPClient None (serving (json_body (json.JArray [])))) [])
    as (_ & HT' & _).
  split.
  - exact (proj2 (HT "bitcoin" nil_dereference) (conj eq_refl (conj eq_refl eq_refl))).
  - intros H. destruct (proj1 (HT' "bitcoin" nil_dereference) H) as (_ & Hu & _).
    discriminate Hu.
Defined.

(** X3. Each operation sends exactly one request, a [GET] of its URL, when
    the URL parses and the client is not nil, and none otherwise; whatever
    the reply is, handling it sends nothing more, and the requests sent
    before are kept as they were. Two calls in a row send their requests
    in the order of the calls. *)
Theorem one_GET_per_call (url_Parse : string -> error) (cli : WebClient.t)
        (sent : list http.Request) :
  (forall opts,
      snd (WebClient.Tickers url_Parse cli opts sent)
      = sent ++ sends url_Parse cli (WebClient.Tickers_u cli opts))
  /\ (forall id,
        snd (WebClient.Ticker url_Parse cli id sent)
        = sent ++ sends url_Parse cli
                    (fmt.Sprintf "%s/ticker/%s" [WebClient.apiAddr cli; id]))
  /\ (forall id opts,
        snd (WebClient.Prices url_Parse cli id opts sent)
        = sent ++ sends url_Parse cli (WebClient.Prices_u cli id opts))
  /\ (forall id,
        snd (WebClient.Markets url_Parse cli id sent)
        = sent ++ sends url_Parse cli
                    (fmt.Sprintf "%s/%s#markets" [WebClient.websiteAddr cli; id]))
  /\ (forall opts id,
        snd (bind (WebClient.Tickers url_Parse cli opts)
                  (fun _ => WebClient.Markets url_Parse cli id) sent)
        = sent ++ sends url_Parse cli (WebClient.Tickers_u cli opts)
               ++ sends url_Parse cli
                    (fmt.Sprintf "%s/%s#markets" [WebClient.websiteAddr cli; id])).
Proof.
  assert (HT : forall opts s,
             snd (WebClient.Tickers url_Parse cli opts s)
             = s ++ sends url_Parse cli (WebClient.Tickers_u cli opts)).
  { intros opts s. unfold sends.
    by_run_total (Tickers_run_total url_Parse cli opts s);
      rewrite u; cbn [snd]; rewrite ?List.app_nil_r; reflexivity. }
  assert (HM : forall id s,
             snd (WebClient.Markets url_Parse cli id s)
             = s ++ sends url_Parse cli
                      (fmt.Sprintf "%s/%s#markets" [WebClient.websiteAddr cli; id])).
  { intros id s. unfold sends.
    by_run_total (Markets_run_total url_Parse cli id s);
      rewrite u; cbn [snd]; rewrite ?List.app_nil_r; reflexivity. }
  split; [intros opts; apply HT|]. split; [|split; [|split; [intros id; apply HM|]]].
  - intros id. unfold sends.
    by_run_total (Ticker_run_total url_Parse cli id sent);
      rewrite u; cbn [snd]; rewrite ?List.app_nil_r; reflexivity.
  - intros id opts. unfold sends.
    by_run_total (Prices_run_total url_Parse cli id opts sent);
      rewrite u; cbn [snd]; rewrite ?List.app_nil_r; reflexivity.
  - intros opts id. unfold bind.
    pose proof (HT opts sent) as H1.
    destruct (WebClient.Tickers url_Parse cli opts sent) as [[r|msg] s1] eqn:E;
      cbn [snd] in H1 |- *; subst s1.
    + rewrite HM, <- List.app_assoc. reflexivity.
    + assert (Hp : fst (WebClient.Tickers url_Parse cli opts sent) = Panic msg)
        by (rewrite E; reflexivity).
      by_run_total (Tickers_run_total url_Parse cli opts sent);
        rewrite u in Hp; try discriminate Hp.
      unfold sends.
      repeat match goal with H : _ = _ |- _ => rewrite H end.
      destruct (url_Parse (fmt.Sprintf _ _)); rewrite ?List.app_nil_r; reflexivity.
Qed.

(** ** [Ticker] and [Tickers] on the same body *)

(** X4. [Ticker] is [Tickers] followed by the cardinality check: when the
    server answers both requests with the same response, [Ticker] returns
    the error of [Tickers] when that fails, the one record when [Tickers]
    returns exactly one, and the cardinality error in every other case. *)
Theorem Ticker_is_Tickers_then_check (url_Parse : string -> error)
        (cli : WebClient.t) (c : http.Client) (id : string)
        (opts : ptr TickersOptions.t) (sent : list http.Request)
        (res : http.Response) :
  WebClient.httpClient cli = Some c ->
  url_Parse (WebClient.Tickers_u cli opts) = None ->
  url_Parse (fmt.Sprintf "%s/ticker/%s" [WebClient.apiAddr cli; id]) = None ->
  http.RoundTrip c sent (GET (WebClient.Tickers_u cli opts)) = inl res ->
  http.RoundTrip c sent (GET (fmt.Sprintf "%s/ticker/%s" [WebClient.apiAddr cli; id]))
  = inl res ->
  fst (WebClient.Ticker url_Parse cli id sent) =
  match fst (WebClient.Tickers url_Parse cli opts sent) with
  | Return (_, Some err) => Return (None, Some err)
  | Return (Some [t], None) => Return (t, None)
  | Return (_, None) =>
      Return (None, Some (errors_New "unexpected error retreiving ticker"))
  | Panic msg => Panic msg
  end.
Proof.
  intros Hc Hu1 Hu2 Hr1 Hr2. rewrite Ticker_run, Tickers_run. cbv zeta.
  rewrite Hc, Hu1, Hu2, Hr1, Hr2.
  destruct (json.Decode _ _ _ _) as [tickers [err|]]; [reflexivity|].
  destruct tickers as [[|t [|t' l]]|]; reflexivity.
Qed.

Lemma Ticker_is_Tickers_then_check_witness :
  fst (WebClient.Ticker accept (serving (json_body TestTickers_body)) "bitcoin" [])
  = Return (None, Some (errors_New "unexpected error retreiving ticker")).
Proof.
  exact (Ticker_is_Tickers_then_check accept (serving (json_body TestTickers_body))
           _ "bitcoin" None [] _ eq_refl eq_refl eq_refl eq_refl eq_refl).
Defined.

(** ** The URLs *)

Lemma append_cancel_l (a x y : string) : (a ++ x)%string = (a ++ y)%string -> x = y.
Proof.
  induction a as [|c a IH]; cbn [String.append]; intros H; [exact H|].
  injection H as H. exact (IH H).
Qed.

Lemma upperhex_safe (c : ascii) :
  url.isAlnum (url.upperhex (Nat.div (nat_of_ascii c) 16)) = true
  /\ url.isAlnum (url.upperhex (Nat.modulo (nat_of_ascii c) 16)) = true.
Proof.
  destruct c as [[] [] [] [] [] [] [] []]; split; vm_compute; reflexivity.
Qed.

Lemma QueryEscape_safe (s : string) (c : ascii) :
  strings.contains c (url.QueryEscape s) = true -> query_safe c = true.
Proof.
  induction s as [|a s IH]; cbn [url.QueryEscape strings.contains]; [discriminate|].
  destruct (Ascii.eqb a " ") eqn:Hsp.
  - cbn [strings.contains]. intros H. apply orb_true_iff in H as [H|H]; [|exact (IH H)].
    apply Ascii.eqb_eq in H. subst c. reflexivity.
  - destruct (url.shouldEscape a) eqn:He; cbn [strings.contains]; intros H.
    + destruct (upperhex_safe a) as [H1 H2].
      repeat (apply orb_true_iff in H as [H|H];
              [apply Ascii.eqb_eq in H; subst c|]);
        [reflexivity | | | exact (IH H)];
        unfold query_safe; rewrite ?H1, ?H2; reflexivity.
    + apply orb_true_iff in H as [H|H]; [|exact (IH H)].
      apply Ascii.eqb_eq in H. subst c.
      unfold url.shouldEscape in He. apply negb_false_iff in He.
      unfold query_safe. apply orb_true_iff in He as [He|He]; rewrite ?He; [reflexivity|].
      apply orb_true_iff. right.
      cbn [strings.contains] in He |- *.
      repeat (apply orb_true_iff in He as [He|He]; [rewrite He; rewrite ?orb_true_r; reflexivity|]).
      discriminate He.
Qed.

Lemma QueryEscape_unreserved (s : string) :
  (forall c, strings.contains c s = true -> unreserved c = true) ->
  url.QueryEscape s = s.
Proof.
  induction s as [|a s IH]; intros H; cbn [url.QueryEscape]; [reflexivity|].
  assert (Ha : unreserved a = true).
  { apply H. cbn [strings.contains]. rewrite Ascii.eqb_refl. reflexivity. }
  assert (Hsp : Ascii.eqb a " " = false).
  { apply Ascii.eqb_neq. intros ->. discriminate Ha. }
  unfold unreserved in Ha. unfold url.shouldEscape. rewrite Hsp, Ha. cbn [negb].
  rewrite IH; [reflexivity|].
  intros c Hc. apply H. cbn [strings.contains]. rewrite Hc. apply orb_true_r.
Qed.

Lemma Sprintf_query (u q : string) : fmt.Sprintf "%s?%s" [u; q] = (u ++ "?" ++ q)%string.
Proof. cbn [fmt.Sprintf]. rewrite append_nil_r. reflexivity. Qed.

Lemma Prices_u_eq (cli : WebClient.t) (id : string) (opts : ptr PricesOptions.t) :
  WebClient.Prices_u cli id opts =
  (WebClient.websiteAddr cli ++ "/" ++ id ++ "/historical-data" ++
   match opts with
   | None => ""
   | Some o =>
       "?end=" ++ url.QueryEscape (PricesOptions.End_ o)
       ++ "&start=" ++ url.QueryEscape (PricesOptions.Start o)
   end)%string.
Proof.
  unfold WebClient.Prices_u.
  change (fmt.Sprintf "%s/%s/historical-data" [WebClient.websiteAddr cli; id])
    with (WebClient.websiteAddr cli ++ "/" ++ id ++ "/historical-data")%string.
  destruct opts as [o|].
  - rewrite Sprintf_query. unfold url.Encode.
    cbn -[url.QueryEscape String.append].
    change (url.QueryEscape "end") with "end".
    change (url.QueryEscape "start") with "start".
    rewrite ?append_nil_r, !append_assoc. reflexivity.
  - rewrite ?append_nil_r. reflexivity.
Qed.

(** X5. The URL of [Prices] is the website address, the id as it is
    given, and [/historical-data]; with options it is followed by a query
    that always carries both [end] and [start], in that order, each value
    escaped. An escaped value is made of letters, digits and [-_.~%+]
    only, so a date can add no parameter and no fragment of its own; a
    value made of unreserved bytes, such as a date in digits, is sent as it
    is. *)
Theorem Prices_query_is_escaped (cli : WebClient.t) (id : string)
        (opts : ptr PricesOptions.t) :
  WebClient.Prices_u cli id opts =
    (WebClient.websiteAddr cli ++ "/" ++ id ++ "/historical-data" ++
     match opts with
     | None => ""
     | Some o =>
         "?end=" ++ url.QueryEscape (PricesOptions.End_ o)
         ++ "&start=" ++ url.QueryEscape (PricesOptions.Start o)
     end)%string
  /\ (forall s c, strings.contains c (url.QueryEscape s) = true -> query_safe c = true)
  /\ (forall s, (forall c, strings.contains c s = true -> unreserved c = true) ->
                url.QueryEscape s = s).
Proof.
  split; [apply Prices_u_eq|]. split; [apply QueryEscape_safe | apply QueryEscape_unreserved].
Qed.

Lemma Prices_query_is_escaped_witness :
  WebClient.Prices_u (serving (html_body historical_page)) "bitcoin"
    (Some {| PricesOptions.Start := "20200101"; PricesOptions.End_ := "2020&x=1 #y" |})
  = "https://coinmarketcap.com/currencies/bitcoin/historical-data?end=2020%26x%3D1+%23y&start=20200101"
  /\ query_safe "%" = true
  /\ url.QueryEscape "20200101" = "20200101".
Proof.
  destruct (Prices_query_is_escaped (serving (html_body historical_page)) "bitcoin"
              (Some {| PricesOptions.Start := "20200101";
                       PricesOptions.End_ := "2020&x=1 #y" |}))
    as (Hu & Hsafe & Hplain).
  split; [exact Hu|]. split.
  - exact (Hsafe "&" "%"%char eq_refl).
  - apply Hplain. intros c Hc.
    cbn [strings.contains] in Hc.
    repeat (apply orb_true_iff in Hc as [Hc|Hc];
            [apply Ascii.eqb_eq in Hc; subst c; reflexivity|]).
    discriminate Hc.
Defined.

(** X6. Whatever options a client is built with, [Prices] and [Markets]
    send their request to the public website: [WithAPIAddress] redirects
    [Tickers] and [Ticker] only, to the address of its last use. *)
Theorem only_the_API_address_is_overridable (DefaultClient : http.Client)
        (os : list Opt) (url_Parse : string -> error) (sent : list http.Request) :
  let cli := NewWebClient DefaultClient (map option_of os) in
  (forall id opts,
      snd (WebClient.Prices url_Parse cli id opts sent)
      = sent ++ sends url_Parse cli
                  ("https://coinmarketcap.com/currencies/" ++ id ++ "/historical-data" ++
                   match opts with
                   | None => ""
                   | Some o =>
                       "?end=" ++ url.QueryEscape (PricesOptions.End_ o)
                       ++ "&start=" ++ url.QueryEscape (PricesOptions.Start o)
                   end))
  /\ (forall id,
        snd (WebClient.Markets url_Parse cli id sent)
        = sent ++ sends url_Parse cli
                    ("https://coinmarketcap.com/currencies/" ++ id ++ "#markets"))
  /\ (forall opts,
        snd (WebClient.Tickers url_Parse cli opts sent)
        = sent ++ sends url_Parse cli
                    (last_address os ++ "/ticker" ++
                     match opts with
                     | None => ""
                     | Some o =>
                         "?limit=" ++ strconv.Itoa (TickersOptions.Limit o)
                         ++ "&start=" ++ strconv.Itoa (TickersOptions.Start o)
                     end))
  /\ (forall id,
        snd (WebClient.Ticker url_Parse cli id sent)
        = sent ++ sends url_Parse cli (last_address os ++ "/ticker/" ++ id)).
Proof.
  intros cli.
  assert (Hw : WebClient.websiteAddr cli = websiteAddr)
    by (unfold cli; rewrite NewWebClient_eq; reflexivity).
  assert (Ha : WebClient.apiAddr cli = last_address os)
    by (unfold cli; rewrite NewWebClient_eq; reflexivity).
  split; [|split; [|split]].
  - intros id opts. unfold sends.
    by_run_total (Prices_run_total url_Parse cli id opts sent);
      rewrite u; cbn [snd];
      rewrite Prices_u_eq, Hw in *; unfold websiteAddr in *;
      cbn [String.append] in *;
      repeat match goal with H : url_Parse _ = _ |- _ => rewrite H end;
      rewrite ?List.app_nil_r; reflexivity.
  - intros id. unfold sends.
    by_run_total (Markets_run_total url_Parse cli id sent);
      rewrite u; cbn [snd];
      rewrite Hw in *; unfold websiteAddr in *;
      cbn [fmt.Sprintf String.append] in *;
      rewrite ?append_nil_r in *;
      repeat match goal with H : url_Parse _ = _ |- _ => rewrite H end;
      rewrite ?List.app_nil_r; reflexivity.
  - intros opts. unfold sends.
    by_run_total (Tickers_run_total url_Parse cli opts sent);
      rewrite u; cbn [snd];
      rewrite Tickers_u_eq, Ha in *;
      repeat match goal with H : url_Parse _ = _ |- _ => rewrite H end;
      rewrite ?List.app_nil_r; reflexivity.
  - intros id. unfold sends.
    by_run_total (Ticker_run_total url_Parse cli id sent);
      rewrite u; cbn [snd];
      rewrite Ha in *; cbn [fmt.Sprintf String.append] in *;
      rewrite ?append_nil_r in *;
      repeat match goal with H : url_Parse _ = _ |- _ => rewrite H end;
      rewrite ?List.app_nil_r; reflexivity.
Qed.

Lemma split_at_byte (sep : ascii) (a b x y : string) :
  strings.contains sep a = false ->
  strings.contains sep b = false ->
  (a ++ String sep x)%string = (b ++ String sep y)%string ->
  a = b /\ x = y.
Proof.
  revert b. induction a as [|c a IH]; intros [|d b]; cbn [String.append strings.contains].
  - intros _ _ [= ->]. split; reflexivity.
  - intros _ Hb [= <- _]. rewrite Ascii.eqb_refl in Hb. discriminate Hb.
  - intros Ha _ [= -> _]. rewrite Ascii.eqb_refl in Ha. discriminate Ha.
  - intros Ha Hb [= -> H].
    apply orb_false_iff in Ha as [_ Ha]. apply orb_false_iff in Hb as [_ Hb].
    destruct (IH b Ha Hb H) as [-> ->]. split; reflexivity.
Qed.

Lemma Itoa_without (sep : ascii) (n : Z) :
  strconv.digit_or_minus sep = false -> strings.contains sep (strconv.Itoa n) = false.
Proof.
  intros Hsep. destruct (strings.contains sep (strconv.Itoa n)) eqn:E; [|reflexivity].
  apply Itoa_chars in E. congruence.
Qed.

Lemma Itoa_inj (a b : Z) : strconv.Itoa a = strconv.Itoa b -> a = b.
Proof.
  unfold strconv.Itoa. intros H. apply DecimalZ.to_int_inj.
  assert (Hn : forall n, Z.to_int n <> Decimal.Pos Decimal.Nil
                         /\ Z.to_int n <> Decimal.Neg Decimal.Nil).
  { intros [|p|p]; cbn [Z.to_int]; split; try discriminate;
      intros [= E]; exact (DecimalPos.Unsigned.to_uint_nonnil p E). }
  destruct (Hn a) as [Ha1 Ha2]. destruct (Hn b) as [Hb1 Hb2].
  pose proof (NilZero.isi _ Ha1 Ha2) as Ea. pose proof (NilZero.isi _ Hb1 Hb2) as Eb.
  rewrite H in Ea. congruence.
Qed.

(** X7. The URL of [Tickers] tells the options apart: two calls on the
    same client build the same URL only when both have no options, or both
    have options with the same [Start] and the same [Limit]. *)
Theorem Tickers_u_tells_options_apart (cli : WebClient.t)
        (opts opts' : ptr TickersOptions.t) :
  WebClient.Tickers_u cli opts = WebClient.Tickers_u cli opts' -> opts = opts'.
Proof.
  rewrite !Tickers_u_eq. intros H.
  apply append_cancel_l in H. apply append_cancel_l in H.
  destruct opts as [[s l]|], opts' as [[s' l']|]; try discriminate H; [|reflexivity].
  cbn [TickersOptions.Limit TickersOptions.Start] in H.
  apply (append_cancel_l "?limit=") in H.
  change ("&start=" ++ strconv.Itoa s)%string
    with (String "&" ("start=" ++ strconv.Itoa s))%string in H.
  change ("&start=" ++ strconv.Itoa s')%string
    with (String "&" ("start=" ++ strconv.Itoa s'))%string in H.
  apply split_at_byte in H as [Hl Hs]; try (apply Itoa_without; reflexivity).
  apply (append_cancel_l "start=") in Hs.
  apply Itoa_inj in Hl, Hs. subst. reflexivity.
Qed.

Lemma Tickers_u_tells_options_apart_witness :
  Some {| TickersOptions.Start := 1; TickersOptions.Limit := 10 |}
  = Some {| TickersOptions.Start := 1; TickersOptions.Limit := 10 |}.
Proof.
  exact (Tickers_u_tells_options_apart (serving (json_body TestTickers_body)) _ _ eq_refl).
Defined.

(** ** Cleaning a cell *)

Lemma clean_app (a b : string) : clean (a ++ b) = (clean a ++ clean b)%string.
Proof.
  unfold clean. induction a as [|c a IH]; cbn [String.append strings.ReplaceByte];
    [reflexivity|].
  destruct (Ascii.eqb c ","); cbn [String.append]; rewrite IH; reflexivity.
Qed.

Lemma clean_length (s : string) : String.length (clean s) <= String.length s.
Proof.
  unfold clean. induction s as [|c s IH]; cbn [strings.ReplaceByte String.length];
    [lia|].
  destruct (Ascii.eqb c ","); cbn [String.append String.length]; lia.
Qed.

(** X8. [clean] takes a text apart at no point: cleaning a concatenation
    is concatenating the cleaned parts; cleaning twice is cleaning once; a
    cleaned text is never longer; and a text is left as it is exactly when
    it holds no comma. *)
Theorem clean_is_a_filter :
  (forall a b, clean (a ++ b) = (clean a ++ clean b)%string)
  /\ (forall s, clean (clean s) = clean s)
  /\ (forall s, String.length (clean s) <= String.length s)
  /\ (forall s, clean s = s <-> strings.contains "," s = false).
Proof.
  split; [exact clean_app|]. split; [|split; [exact clean_length|]].
  - intros s. apply clean_fixed, clean_no_comma.
  - intros s. split; [|apply clean_fixed].
    intros H. rewrite <- H. apply clean_no_comma.
Qed.

Lemma clean_is_a_filter_witness :
  clean "Jan 01 2020" = "Jan 01 2020" /\ strings.contains "," "1,000" = true.
Proof.
  destruct clean_is_a_filter as (_ & _ & _ & H).
  split.
  - exact (proj2 (H "Jan 01 2020") eq_refl).
  - destruct (strings.contains "," "1,000") eqn:E; [reflexivity|].
    pose proof (proj2 (H "1,000") E) as Hc. discriminate Hc.
Defined.

(** ** Which bodies [Tickers] decodes *)

Lemma saveError_saved (d : json.decodeState) (err : Error) :
  json.savedError (json.saveError d err) <> None.
Proof.
  unfold json.saveError. destruct (json.savedError d) eqn:E; [congruence|].
  cbn. discriminate.
Qed.

Lemma not_null_literal (c : ascii) (r : string) :
  Ascii.eqb c "n" = false -> String.eqb (String c r) "null" = false.
Proof. intros H. cbn [String.eqb]. rewrite H. reflexivity. Qed.

Lemma not_int_literal (c : ascii) (r : string) :
  strconv.digit_or_minus c = false -> int_literal (String c r) = false.
Proof. intros H. cbn [int_literal]. rewrite H. reflexivity. Qed.

(** The outcome of storing the text of a quoted integer. *)
Lemma literalStoreQuotedInt_outcome {T : Type} (s : string) (set : Z -> T) (t t' : T)
      (d d' : json.decodeState) (e : error) :
  json.literalStoreQuotedInt s set t d = (t', d', e) ->
  if int_literal s || String.eqb s "null"
  then d' = d /\ e = None
  else e <> None \/ json.savedError d' <> None.
Proof.
  unfold json.literalStoreQuotedInt.
  destruct s as [|c r].
  - intros [= _ <- _]. cbn. right. apply saveError_saved.
  - destruct (Ascii.eqb c "n") eqn:Hn.
    + apply Ascii.eqb_eq in Hn. subst c.
      rewrite (not_int_literal "n" r eq_refl). cbn [orb].
      destruct (String.eqb (String "n" r) "null").
      * intros [= _ <- <-]. split; reflexivity.
      * intros [= _ <- _]. right. apply saveError_saved.
    + rewrite (not_null_literal c r Hn), orb_false_r.
      destruct (Ascii.eqb c "t" || Ascii.eqb c "f") eqn:Htf.
      * assert (Hd : strconv.digit_or_minus c = false).
        { apply orb_true_iff in Htf as [H|H]; apply Ascii.eqb_eq in H; subst c; reflexivity. }
        rewrite (not_int_literal c r Hd).
        intros [= _ <- _]. right. apply saveError_saved.
      * destruct (Ascii.eqb c json.quote) eqn:Hq.
        { apply Ascii.eqb_eq in Hq. subst c.
          rewrite (not_int_literal json.quote r eq_refl).
          destruct (json.unquote_ok _).
          - intros [= _ <- _]. right. apply saveError_saved.
          - intros [= _ _ <-]. left. discriminate. }
        destruct (strconv.digit_or_minus c) eqn:Hd.
        { cbn [int_literal]. rewrite Hd. cbn [andb].
          destruct (strconv.ParseInt (String c r)).
          - intros [= _ <- <-]. split; reflexivity.
          - intros [= _ <- _]. right. apply saveError_saved. }
        rewrite (not_int_literal c r Hd).
        intros [= _ _ <-]. left. discriminate.
Qed.

Lemma storeField_outcome (key : string) (f : json.Field Ticker.t) (v : json.Value)
      (t t' : Ticker.t) (d d' : json.decodeState) (e : error) :
  json.findField Ticker.fields key = Some f ->
  json.storeField f v t d = (t', d', e) ->
  if accepts_member (key, v)
  then d' = d /\ e = None
  else e <> None \/ json.savedError d' <> None.
Proof.
  intros Hf. unfold accepts_member. cbn [fst snd]. rewrite Hf.
  destruct f as [n g st | n g st]; destruct v; cbn [json.storeField];
    try (intros [= _ <- <-]; split; reflexivity);
    try (intros [= _ <- _]; right; apply saveError_saved).
  apply literalStoreQuotedInt_outcome.
Qed.

Lemma object_outcome (members : list (string * json.Value)) :
  forall t t' d d' e,
    json.object Ticker.fields members t d = (t', d', e) ->
    (e = None /\ json.savedError d' = None
     <-> json.savedError d = None /\ forallb accepts_member members = true).
Proof.
  induction members as [|[key v] rest IH]; intros t t' d d' e; cbn [json.object forallb].
  - intros [= _ <- <-]. tauto.
  - destruct (json.findField Ticker.fields key) as [f|] eqn:Hf.
    + destruct (json.storeField f v t d) as [[t1 d1] e1] eqn:Hs.
      pose proof (storeField_outcome _ _ _ _ _ _ _ _ Hf Hs) as Ho.
      destruct (accepts_member (key, v)); cbn [andb].
      * destruct Ho as [-> ->]. apply IH.
      * destruct e1 as [err|].
        { intros [= _ _ <-]. split; [intros [[=] _] | intros [_ [=]]]. }
        intros H. apply IH in H. destruct Ho as [Ho|Ho]; [congruence|].
        split; [intros H'; apply H in H'; tauto | intros [_ [=]]].
    + assert (Ha : accepts_member (key, v) = true)
        by (unfold accepts_member; cbn [fst]; rewrite Hf; reflexivity).
      rewrite Ha. cbn [andb]. apply IH.
Qed.

Lemma valuePtr_outcome (v : json.Value) (old p : ptr Ticker.t)
      (d d' : json.decodeState) (e : error) :
  json.valuePtr Ticker.fields Ticker.zero v old d = (p, d', e) ->
  (e = None /\ json.savedError d' = None
   <-> json.savedError d = None /\ accepts_element v = true).
Proof.
  unfold json.valuePtr.
  destruct v; cbn [accepts_element];
    try (intros [= _ <- <-];
         split; [intros [_ H]; exfalso; exact (saveError_saved _ _ H)
                | intros [_ [=]]]).
  - intros [= _ <- <-]. tauto.
  - destruct (json.object _ _ _ _) as [[t' d1] e1] eqn:E.
    intros [= _ <- <-]. exact (object_outcome _ _ _ _ _ _ E).
Qed.

Lemma array_outcome (elems : list json.Value) :
  forall old ps d d' e,
    json.array Ticker.fields Ticker.zero elems old d = (ps, d', e) ->
    (e = None /\ json.savedError d' = None
     <-> json.savedError d = None /\ forallb accepts_element elems = true).
Proof.
  induction elems as [|v elems IH]; intros old ps d d' e; cbn [json.array forallb].
  - intros [= _ <- <-]. tauto.
  - destruct (json.valuePtr _ _ v _ d) as [[p d1] e1] eqn:Ev.
    pose proof (valuePtr_outcome _ _ _ _ _ _ Ev) as Hv.
    destruct e1 as [err|].
    + intros [= _ _ <-]. split; [intros [[=] _]|].
      intros [Hd Ha]. apply andb_true_iff in Ha as [Ha _].
      destruct (proj2 Hv (conj Hd Ha)) as [[=] _].
    + destruct (json.array _ _ elems _ d1) as [[ps' d2] e2] eqn:Ea.
      intros [= _ <- <-]. rewrite (IH _ _ _ _ _ Ea), andb_true_iff. tauto.
Qed.

Lemma Decode_outcome (v : json.Value) (dst : slice (ptr Ticker.t)) :
  snd (json.Decode Ticker.fields Ticker.zero (inl v) dst) = None
  <-> accepts v = true.
Proof.
  unfold json.Decode, json.unmarshal, json.valueSlice.
  destruct v; cbn [accepts snd json.saveError json.savedError];
    try (split; discriminate); [tauto|].
  destruct (json.array _ _ _ _ _) as [[ps d] e] eqn:E.
  pose proof (array_outcome _ _ _ _ _ _ E) as H. cbn [json.savedError] in H.
  destruct e as [err|]; cbn [snd].
  - split; [discriminate|]. intros Ha. destruct (proj2 H (conj eq_refl Ha)) as [[=] _].
  - split.
    + intros Hd. exact (proj2 (proj1 H (conj eq_refl Hd))).
    + intros Ha. exact (proj2 (proj2 H (conj eq_refl Ha))).
Qed.

(** X9. [Tickers] returns without an error exactly for the bodies it
    accepts: [null], or an array of [null]s and objects whose members that
    name a text field hold a string or [null], and whose members that name
    [Rank] hold [null], ["null"] or a decimal integer literal fitting an
    [int]. Any other body, for one a rank that is a JSON number or a
    string that is no integer, makes the whole call fail. *)
Theorem Tickers_accepts_exactly (url_Parse : string -> error) (cli : WebClient.t)
        (c : http.Client) (opts : ptr TickersOptions.t) (sent : list http.Request)
        (res : http.Response) :
  WebClient.httpClient cli = Some c ->
  url_Parse (WebClient.Tickers_u cli opts) = None ->
  http.RoundTrip c sent (GET (WebClient.Tickers_u cli opts)) = inl res ->
  ((exists r, fst (WebClient.Tickers url_Parse cli opts sent) = Return (r, None))
   <-> exists v, http.json (http.Body res) = inl v /\ accepts v = true).
Proof.
  intros Hc Hu Hr. rewrite Tickers_run. cbv zeta. rewrite Hu, Hc, Hr.
  destruct (http.json (http.Body res)) as [v|err] eqn:Hj.
  - pose proof (Decode_outcome v (Some [])) as H.
    destruct (json.Decode _ _ _ _) as [tickers [err|]]; cbn [snd fst] in H |- *.
    + split; [intros (r & [=])|].
      intros (v' & [= <-] & Ha). apply H in Ha. discriminate Ha.
    + split; [|eauto]. intros _. exists v. split; [reflexivity | apply H; reflexivity].
  - cbn [json.Decode fst]. split; [intros (r & [=]) | intros (v & [=] & _)].
Qed.

Lemma Tickers_accepts_exactly_witness :
  (exists r, fst (WebClient.Tickers accept (serving (json_body TestTickers_body)) None [])
             = Return (r, None))
  /\ ~ (exists r,
          fst (WebClient.Tickers accept
                 (serving (json_body
                    (json.JArray [json.JObject [("rank", json.JNumber "1")]]))) None [])
          = Return (r, None)).
Proof.
  split.
  - apply (proj2 (Tickers_accepts_exactly accept (serving (json_body TestTickers_body))
                    _ None [] _ eq_refl eq_refl eq_refl)).
    exists TestTickers_body. split; reflexivity.
  - intros H.
    apply (proj1 (Tickers_accepts_exactly accept
                    (serving (json_body
                       (json.JArray [json.JObject [("rank", json.JNumber "1")]])))
                    _ None [] _ eq_refl eq_refl eq_refl)) in H.
    destruct H as (v & Hv & Ha). injection Hv as <-. discriminate Ha.
Defined.

(** ** [null] elements, unknown members, untouched fields *)

Lemma valuePtr_nil {T : Type} (fields : list (json.Field T)) (zero : T)
      (v : json.Value) (old p : ptr T) (d d' : json.decodeState) (e : error) :
  json.valuePtr fields zero v old d = (p, d', e) ->
  (p = None <-> v = json.JNull).
Proof.
  unfold json.valuePtr. destruct v;
    try (intros [= <- _ _]; split; discriminate).
  - intros [= <- _ _]. tauto.
  - destruct (json.object _ _ _ _) as [[t' d1] e1].
    intros [= <- _ _]. split; discriminate.
Qed.

Lemma array_entries {T : Type} (fields : list (json.Field T)) (zero : T)
      (elems : list json.Value) :
  forall old d ps d',
    json.array fields zero elems old d = (ps, d', None) ->
    Forall2 (fun v p => p = None <-> v = json.JNull) elems ps.
Proof.
  induction elems as [|v elems IH]; intros old d ps d'; cbn [json.array].
  - intros [= <- _]. constructor.
  - destruct (json.valuePtr _ _ v _ d) as [[p d1] [err|]] eqn:Ev; [discriminate|].
    destruct (json.array _ _ elems _ d1) as [[ps' d2] e2] eqn:Ea.
    intros [= <- _ ->]. constructor.
    + exact (valuePtr_nil _ _ _ _ _ _ _ _ Ev).
    + exact (IH _ _ _ _ Ea).
Qed.

Lemma Decode_entries_fresh {T : Type} (fields : list (json.Field T)) (zero : T)
      (next : json.Value + Error) (l : list (ptr T)) :
  json.Decode fields zero next (Some []) = (Some l, None) ->
  exists elems,
    next = inl (json.JArray elems)
    /\ Forall2 (fun v p => p = None <-> v = json.JNull) elems l.
Proof.
  intros H. destruct next as [v|err]; [|discriminate].
  unfold json.Decode, json.unmarshal, json.valueSlice in H.
  destruct v; cbn [json.saveError json.savedError] in H; try discriminate.
  destruct (json.array _ _ _ _ _) as [[ps d] [err|]] eqn:E; [discriminate|].
  injection H as <- _. eexists. split; [reflexivity|].
  exact (array_entries _ _ _ _ _ _ _ E).
Qed.

(** X10. When [Tickers] succeeds with a slice, the body was an array and
    the slice has one entry per element of it, in order; the entry is a
    nil pointer exactly where the element is [null]. So a successful
    result may hold nil entries. *)
Theorem Tickers_nil_entries (url_Parse : string -> error) (cli : WebClient.t)
        (c : http.Client) (opts : ptr TickersOptions.t) (sent : list http.Request)
        (res : http.Response) (l : list (ptr Ticker.t)) :
  WebClient.httpClient cli = Some c ->
  url_Parse (WebClient.Tickers_u cli opts) = None ->
  http.RoundTrip c sent (GET (WebClient.Tickers_u cli opts)) = inl res ->
  fst (WebClient.Tickers url_Parse cli opts sent) = Return (Some l, None) ->
  exists elems,
    http.json (http.Body res) = inl (json.JArray elems)
    /\ length l = length elems
    /\ Forall2 (fun v p => p = None <-> v = json.JNull) elems l.
Proof.
  intros Hc Hu Hr. rewrite Tickers_run. cbv zeta. rewrite Hu, Hc, Hr.
  destruct (json.Decode _ _ _ _) as [tickers [err|]] eqn:E; cbn [fst]; [discriminate|].
  intros [= ->]. apply Decode_entries_fresh in E as (elems & -> & HF).
  exists elems. split; [reflexivity|]. split; [|exact HF].
  symmetry. exact (Forall2_length HF).
Qed.

Lemma Tickers_nil_entries_witness :
  exists elems,
    http.json (json_body (json.JArray [json.JNull; json.JObject []]))
    = inl (json.JArray elems)
    /\ length [None; Some Ticker.zero] = length elems
    /\ Forall2 (fun v p => p = None <-> v = json.JNull) elems [None; Some Ticker.zero].
Proof.
  exact (Tickers_nil_entries accept
           (serving (json_body (json.JArray [json.JNull; json.JObject []])))
           _ None [] _ [None; Some Ticker.zero] eq_refl eq_refl eq_refl eq_refl).
Defined.

(** X11. [Ticker] returns a nil pointer together with a nil error exactly
    when the body is the array [[null]]: the one case in which a caller
    that only checks the error gets no ticker. *)
Theorem Ticker_nil_without_error (url_Parse : string -> error) (cli : WebClient.t)
        (c : http.Client) (id : string) (sent : list http.Request)
        (res : http.Response) :
  let u := fmt.Sprintf "%s/ticker/%s" [WebClient.apiAddr cli; id] in
  WebClient.httpClient cli = Some c ->
  url_Parse u = None ->
  http.RoundTrip c sent (GET u) = inl res ->
  (fst (WebClient.Ticker url_Parse cli id sent) = Return (None, None)
   <-> http.json (http.Body res) = inl (json.JArray [json.JNull])).
Proof.
  intros u Hc Hu Hr. rewrite Ticker_run. cbv zeta. fold u. rewrite Hu, Hc, Hr.
  split.
  - destruct (json.Decode _ _ _ _) as [tickers [err|]] eqn:E; cbn [fst]; [discriminate|].
    destruct tickers as [[|t [|t' l]]|]; cbn [fst]; try discriminate.
    intros [= ->]. apply Decode_entries_fresh in E as (elems & -> & HF).
    inversion HF as [|v p vs ps Hv Hvs]; subst.
    inversion Hvs; subst. rewrite (proj1 Hv eq_refl). reflexivity.
  - intros ->. reflexivity.
Qed.

Lemma Ticker_nil_without_error_witness :
  fst (WebClient.Ticker accept (serving (json_body (json.JArray [json.JNull])))
         "bitcoin" [])
  = Return (None, None).
Proof.
  apply (proj2 (Ticker_nil_without_error accept
                  (serving (json_body (json.JArray [json.JNull])))
                  _ "bitcoin" [] _ eq_refl eq_refl eq_refl)).
  reflexivity.
Defined.

Lemma object_known (members : list (string * json.Value)) :
  forall t d,
    json.object Ticker.fields members t d
    = json.object Ticker.fields (filter known_member members) t d.
Proof.
  induction members as [|[key v] rest IH]; intros t d; [reflexivity|].
  cbn [json.object filter]. unfold known_member at 1. cbn [fst].
  destruct (json.findField Ticker.fields key) as [f|] eqn:Hf.
  - cbn [json.object]. rewrite Hf.
    destruct (json.storeField f v t d) as [[t1 d1] [err|]]; [reflexivity | apply IH].
  - apply IH.
Qed.

Lemma array_known (elems : list json.Value) :
  forall old d,
    json.array Ticker.fields Ticker.zero elems old d
    = json.array Ticker.fields Ticker.zero
        (map (fun e =>
                match e with
                | json.JObject members => json.JObject (filter known_member members)
                | _ => e
                end) elems) old d.
Proof.
  induction elems as [|v elems IH]; intros old d; [reflexivity|].
  cbn [json.array map].
  assert (Hv : forall o,
             json.valuePtr Ticker.fields Ticker.zero v o d
             = json.valuePtr Ticker.fields Ticker.zero
                 match v with
                 | json.JObject members => json.JObject (filter known_member members)
                 | _ => v
                 end o d).
  { intros o. destruct v; try reflexivity.
    unfold json.valuePtr. rewrite <- object_known. reflexivity. }
  rewrite <- Hv.
  destruct (json.valuePtr _ _ v _ d) as [[p d1] [err|]]; [reflexivity|].
  rewrite <- IH. reflexivity.
Qed.

Lemma Decode_known (v : json.Value) (dst : slice (ptr Ticker.t)) :
  json.Decode Ticker.fields Ticker.zero (inl (known_only v)) dst
  = json.Decode Ticker.fields Ticker.zero (inl v) dst.
Proof.
  destruct v; try reflexivity.
  unfold json.Decode, json.unmarshal, json.valueSlice, known_only.
  rewrite <- array_known. reflexivity.
Qed.

(** X12. The members of a ticker object that name no field of [Ticker]
    have no effect: [Tickers] and [Ticker] return the same for a body and
    for the body with those members taken out, whatever they hold. *)
Theorem unknown_members_are_ignored (url_Parse : string -> error)
        (cli : WebClient.t) (c c' : http.Client) (sent : list http.Request)
        (res res' : http.Response) (v : json.Value) :
  http.json (http.Body res) = inl v ->
  http.json (http.Body res') = inl (known_only v) ->
  (forall opts,
      http.RoundTrip c sent (GET (WebClient.Tickers_u cli opts)) = inl res ->
      http.RoundTrip c' sent (GET (WebClient.Tickers_u cli opts)) = inl res' ->
      fst (WebClient.Tickers url_Parse (WithHTTPClient (Some c') cli) opts sent)
      = fst (WebClient.Tickers url_Parse (WithHTTPClient (Some c) cli) opts sent))
  /\ (forall id,
         let u := fmt.Sprintf "%s/ticker/%s" [WebClient.apiAddr cli; id] in
         http.RoundTrip c sent (GET u) = inl res ->
         http.RoundTrip c' sent (GET u) = inl res' ->
         fst (WebClient.Ticker url_Parse (WithHTTPClient (Some c') cli) id sent)
         = fst (WebClient.Ticker url_Parse (WithHTTPClient (Some c) cli) id sent)).
Proof.
  intros Hv Hv'. split.
  - intros opts Hr Hr'. rewrite !Tickers_run. cbv zeta.
    change (WebClient.Tickers_u (WithHTTPClient (Some c') cli) opts)
      with (WebClient.Tickers_u cli opts).
    change (WebClient.Tickers_u (WithHTTPClient (Some c) cli) opts)
      with (WebClient.Tickers_u cli opts).
    cbn [WithHTTPClient WebClient.httpClient].
    rewrite Hr, Hr', Hv, Hv', Decode_known. reflexivity.
  - intros id u Hr Hr'. rewrite !Ticker_run. cbv zeta.
    cbn [WithHTTPClient WebClient.httpClient WebClient.apiAddr]. fold u.
    rewrite Hr, Hr', Hv, Hv', Decode_known. reflexivity.
Qed.

Lemma unknown_members_are_ignored_witness :
  fst (WebClient.Tickers accept
         (WithHTTPClient (Some (replying (json_body (known_only with_max_supply))))
            (serving (json_body json.JNull))) None [])
  = fst (WebClient.Tickers accept
         (WithHTTPClient (Some (replying (json_body with_max_supply)))
            (serving (json_body json.JNull))) None []).
Proof.
  apply (proj1 (unknown_members_are_ignored accept (serving (json_body json.JNull))
                  (replying (json_body with_max_supply))
                  (replying (json_body (known_only with_max_supply)))
                  []
                  {| http.Body := json_body with_max_supply |}
                  {| http.Body := json_body (known_only with_max_supply) |}
                  with_max_supply eq_refl eq_refl) None); reflexivity.
Defined.

(** ** Fields no member sets *)

Lemma literalStoreQuotedInt_sets {T : Type} (s : string) (set : Z -> T) (t t' : T)
      (d d' : json.decodeState) (e : error) :
  json.literalStoreQuotedInt s set t d = (t', d', e) ->
  t' = t \/ exists n, t' = set n.
Proof.
  unfold json.literalStoreQuotedInt.
  destruct s as [|c r]; [intros [= <- _ _]; left; reflexivity|].
  repeat match goal with
         | |- context [if ?b then _ else _] => destruct b
         | |- context [match strconv.ParseInt ?x with _ => _ end] =>
             destruct (strconv.ParseInt x)
         end;
    intros [= <- _ _]; eauto.
Qed.

Lemma storeField_other (f g : json.Field Ticker.t) (v : json.Value)
      (t t' : Ticker.t) (d d' : json.decodeState) (e : error) :
  In f Ticker.fields -> In g Ticker.fields ->
  String.eqb (json.name f) (json.name g) = false ->
  json.storeField f v t d = (t', d', e) ->
  read g t' = read g t.
Proof.
  intros Hf Hg Hn Hs.
  assert (Ht : t' = t
               \/ (exists set s, f = json.StringField (json.name f)
                                       match f with
                                       | json.StringField _ get _ => get
                                       | _ => fun _ => EmptyString
                                       end set
                                 /\ t' = set t s)
               \/ (exists set n, f = json.IntStringField (json.name f)
                                       match f with
                                       | json.IntStringField _ get _ => get
                                       | _ => fun _ => 0%Z
                                       end set
                                 /\ t' = set t n)).
  { destruct f as [n get set | n get set]; cbn [json.storeField json.name] in *.
    - destruct v; injection Hs as <- _ _; eauto 6.
    - destruct v; try (injection Hs as <- _ _; eauto; fail).
      apply literalStoreQuotedInt_sets in Hs as [->|[k ->]]; eauto 8. }
  destruct Ht as [->|Ht]; [reflexivity|].
  cbn [In Ticker.fields] in Hf, Hg.
  repeat destruct Hf as [<-|Hf]; try contradiction;
    (repeat destruct Hg as [<-|Hg]); try contradiction;
    try discriminate Hn;
    destruct Ht as [(set & s & [= <-] & ->)|(set & n & [= <-] & ->)];
    reflexivity.
Qed.

Lemma storeField_null (f : json.Field Ticker.t) (t : Ticker.t) (d : json.decodeState) :
  json.storeField f json.JNull t d = (t, d, None).
Proof. destruct f; reflexivity. Qed.

Lemma object_untouched (g : json.Field Ticker.t) (members : list (string * json.Value)) :
  In g Ticker.fields ->
  (forall kv, In kv members -> names (json.name g) (fst kv) = true -> snd kv = json.JNull) ->
  forall t t' d d' e,
    json.object Ticker.fields members t d = (t', d', e) ->
    read g t' = read g t.
Proof.
  intros Hg. induction members as [|[key v] rest IH]; intros Hm t t' d d' e;
    cbn [json.object].
  - intros [= <- _ _]. reflexivity.
  - assert (Hrest : forall kv, In kv rest ->
                      names (json.name g) (fst kv) = true -> snd kv = json.JNull)
      by (intros kv Hin; apply Hm; right; exact Hin).
    specialize (Hm (key, v) (or_introl eq_refl)). unfold names in Hm. cbn [fst snd] in Hm.
    destruct (json.findField Ticker.fields key) as [f|] eqn:Hf; [|apply IH; exact Hrest].
    destruct (String.eqb (json.name f) (json.name g)) eqn:Hn.
    + rewrite (Hm eq_refl), storeField_null. apply IH; exact Hrest.
    + destruct (json.storeField f v t d) as [[t1 d1] e1] eqn:Hs.
      pose proof (storeField_other _ _ _ _ _ _ _ _ (findField_In _ _ _ Hf) Hg Hn Hs) as H1.
      destruct e1 as [err|].
      * intros [= <- _ _]. exact H1.
      * intros H. rewrite (IH Hrest _ _ _ _ _ H). exact H1.
Qed.

Lemma array_nth (elems : list json.Value) :
  forall i members ps d d' e,
    json.array Ticker.fields Ticker.zero elems [] d = (ps, d', e) ->
    nth_error elems i = Some (json.JObject members) ->
    e = None ->
    exists t d1 d2 e2,
      nth_error ps i = Some (Some t)
      /\ json.object Ticker.fields members Ticker.zero d1 = (t, d2, e2).
Proof.
  induction elems as [|v elems IH]; intros i members ps d d' e; cbn [json.array].
  - destruct i; discriminate.
  - cbn [hd tl].
    destruct (json.valuePtr _ _ v None d) as [[p d1] [err|]] eqn:Ev.
    { intros [= _ _ <-] _ [=]. }
    destruct (json.array _ _ elems [] d1) as [[ps' d2] e2] eqn:Ea.
    intros [= <- _ <-] Hi He. destruct i as [|i]; cbn [nth_error] in *.
    + injection Hi as ->. unfold json.valuePtr in Ev.
      destruct (json.object _ _ _ _) as [[t' d3] e3] eqn:Eo.
      injection Ev as <- _ _. eauto 6.
    + exact (IH _ _ _ _ _ _ Ea Hi He).
Qed.

(** X13. In a successful result of [Tickers], a field of the record made
    from an object is the zero value, the empty text or rank 0, whenever
    no member of the object names the field, or every member that names
    it holds [null]. *)
Theorem unset_fields_are_zero (url_Parse : string -> error) (cli : WebClient.t)
        (c : http.Client) (opts : ptr TickersOptions.t) (sent : list http.Request)
        (res : http.Response) (l : list (ptr Ticker.t))
        (elems : list json.Value) (i : nat) (members : list (string * json.Value))
        (g : json.Field Ticker.t) :
  WebClient.httpClient cli = Some c ->
  url_Parse (WebClient.Tickers_u cli opts) = None ->
  http.RoundTrip c sent (GET (WebClient.Tickers_u cli opts)) = inl res ->
  http.json (http.Body res) = inl (json.JArray elems) ->
  fst (WebClient.Tickers url_Parse cli opts sent) = Return (Some l, None) ->
  nth_error elems i = Some (json.JObject members) ->
  In g Ticker.fields ->
  (forall kv, In kv members -> names (json.name g) (fst kv) = true -> snd kv = json.JNull) ->
  exists t, nth_error l i = Some (Some t) /\ read g t = read g Ticker.zero.
Proof.
  intros Hc Hu Hr Hj. rewrite Tickers_run. cbv zeta. rewrite Hu, Hc, Hr, Hj.
  unfold json.Decode, json.unmarshal, json.valueSlice.
  destruct (json.array _ _ _ _ _) as [[ps d] e] eqn:E.
  intros H Hi Hg Hm.
  assert (He : e = None /\ ps = l).
  { destruct e as [err|]; [discriminate H|].
    destruct (json.savedError d); [discriminate H|]. injection H as ->. tauto. }
  destruct He as [-> ->].
  destruct (array_nth _ _ _ _ _ _ _ E Hi eq_refl) as (t & d1 & d2 & e2 & Hn & Ho).
  exists t. split; [exact Hn|]. exact (object_untouched _ _ Hg Hm _ _ _ _ _ Ho).
Qed.

Lemma unset_fields_are_zero_witness :
  exists t,
    nth_error [Some (Ticker.set_ID Ticker.zero "bitcoin")] 0 = Some (Some t)
    /\ read (json.IntStringField "rank" Ticker.Rank Ticker.set_Rank) t
       = read (json.IntStringField "rank" Ticker.Rank Ticker.set_Rank) Ticker.zero.
Proof.
  apply (unset_fields_are_zero accept
           (serving (json_body
              (json.JArray [json.JObject [member "id" "bitcoin"; ("rank", json.JNull)]])))
           (replying (json_body
              (json.JArray [json.JObject [member "id" "bitcoin"; ("rank", json.JNull)]])))
           None [] _ _ _ 0 [member "id" "bitcoin"; ("rank", json.JNull)]
           (json.IntStringField "rank" Ticker.Rank Ticker.set_Rank)
           eq_refl eq_refl eq_refl eq_refl eq_refl eq_refl).
  - cbn. tauto.
  - intros kv [<-|[<-|[]]]; [discriminate | reflexivity].
Defined.

(** X14. The rank of every record that [Tickers] or [Ticker] returns is
    within the range of a 64-bit [int]: a rank outside it is never
    stored, wrapped or truncated. *)
Theorem Rank_is_within_int64 (url_Parse : string -> error) (cli : WebClient.t)
        (sent : list http.Request) :
  (forall opts l e t,
      fst (WebClient.Tickers url_Parse cli opts sent) = Return (Some l, e) ->
      In (Some t) l ->
      (strconv.minInt64 <= Ticker.Rank t <= strconv.maxInt64)%Z)
  /\ (forall id t e,
         fst (WebClient.Ticker url_Parse cli id sent) = Return (Some t, e) ->
         (strconv.minInt64 <= Ticker.Rank t <= strconv.maxInt64)%Z).
Proof.
  split.
  - intros opts l e t H Hin. apply Tickers_fits in H.
    rewrite Forall_forall in H. exact (H _ Hin).
  - intros id t e H. exact (Ticker_fits _ _ _ _ _ _ H).
Qed.

Lemma Rank_is_within_int64_witness :
  (strconv.minInt64 <= Ticker.Rank (Ticker.set_Rank Ticker.zero 1) <= strconv.maxInt64)%Z.
Proof.
  apply (proj2 (Rank_is_within_int64 accept
                  (serving (json_body (json.JArray [json.JObject [member "rank" "1"]])))
                  []) "bitcoin" _ None).
  reflexivity.
Defined.

(** ** The rows of a page *)

Lemma Node_induction (P : html.Node -> Prop) :
  (forall ty data attr cs, Forall P cs -> P (html.mkNode ty data attr cs)) ->
  forall n, P n.
Proof.
  intros H. fix IH 1. intros [ty data attr cs]. apply H.
  induction cs as [|c cs IHcs]; constructor; [apply IH | exact IHcs].
Qed.

Lemma subnodes_self (n : html.Node) : In n (subnodes n).
Proof. destruct n. left. reflexivity. Qed.

Lemma subnodes_child (n c x : html.Node) :
  In c (html.children n) -> In x (subnodes c) -> In x (subnodes n).
Proof.
  destruct n as [ty data attr cs]. cbn [html.children subnodes]. intros Hc Hx.
  right. apply in_flat_map. exists c. split; assumption.
Qed.

(** What [MatchAll] finds in a subtree matches the selector, lies in the
    subtree, and has for parents nodes of the subtree above it, then the
    parents of the root of the subtree. *)
Lemma MatchAll_sound (s : cascadia.Selector) (n : html.Node) :
  forall parents r,
    In r (cascadia.MatchAll s parents n) ->
    cascadia.Match s (html.parents r) (html.node r) = true
    /\ In (html.node r) (subnodes n)
    /\ (forall p, In p (html.parents r) -> In p parents \/ In p (subnodes n)).
Proof.
  induction n as [ty data attr cs IH] using Node_induction. intros parents r.
  cbn [cascadia.MatchAll]. rewrite in_app_iff. intros [H|H].
  - destruct (cascadia.Match s parents _) eqn:Hm; [|destruct H].
    destruct H as [<-|[]]. cbn [html.parents html.node].
    split; [exact Hm|]. split; [apply subnodes_self | intros p Hp; left; exact Hp].
  - apply in_flat_map in H as (c & Hc & Hr).
    rewrite Forall_forall in IH. destruct (IH c Hc _ _ Hr) as (Hm & Hn & Hp).
    split; [exact Hm|]. split.
    + exact (subnodes_child (html.mkNode ty data attr cs) c _ Hc Hn).
    + intros p Hin. destruct (Hp p Hin) as [[<-|Hq]|Hq].
      * right. apply subnodes_self.
      * left. exact Hq.
      * right. exact (subnodes_child (html.mkNode ty data attr cs) c _ Hc Hq).
Qed.

Lemma anyParent_type (tag : string) (parents : list html.Node) :
  cascadia.anyParent (cascadia.Match (cascadia.typeSelector tag)) parents = true ->
  exists p, In p parents /\ is_tag tag p = true.
Proof.
  induction parents as [|p up IH]; cbn [cascadia.anyParent]; [discriminate|].
  intros H. apply orb_true_iff in H as [H|H].
  - exists p. split; [left; reflexivity | exact H].
  - destruct (IH H) as (q & Hq & Ht). exists q. split; [right; exact Hq | exact Ht].
Qed.

Lemma rows_sound (root : html.Node) (r : html.Ref) :
  In r (rows root) ->
  is_tag "tr" (html.node r) = true
  /\ In (html.node r) (subnodes root)
  /\ exists p, In p (html.parents r) /\ In p (subnodes root) /\ is_tag "tbody" p = true.
Proof.
  unfold rows, goquery.Find, goquery.Document. cbn [html.node html.parents].
  intros H. apply in_flat_map in H as (c & Hc & Hr).
  destruct (html.isElement c); [|destruct Hr].
  apply MatchAll_sound in Hr as (Hm & Hn & Hp).
  cbn [cascadia.tbody_tr cascadia.Match] in Hm. apply andb_true_iff in Hm as [Htr Hup].
  split; [exact Htr|]. split; [exact (subnodes_child root c _ Hc Hn)|].
  apply anyParent_type in Hup as (p & Hin & Ht).
  exists p. split; [exact Hin|]. split; [|exact Ht].
  destruct (Hp p Hin) as [[<-|[]]|Hq]; [apply subnodes_self|].
  exact (subnodes_child root c _ Hc Hq).
Qed.

(** X15. The rows that [Prices] and [Markets] read from a page are [tr]
    elements of the page that lie inside a [tbody] element of it. For a
    page without any [tbody] element both return an empty, non-nil slice
    and no error. *)
Theorem rows_are_tr_inside_tbody (url_Parse : string -> error) (cli : WebClient.t)
        (c : http.Client) (id : string) (sent : list http.Request)
        (res : http.Response) (root : html.Node) :
  http.tree (http.Body res) = inl root ->
  WebClient.httpClient cli = Some c ->
  (forall r, In r (rows root) ->
     is_tag "tr" (html.node r) = true
     /\ In (html.node r) (subnodes root)
     /\ exists p, In p (html.parents r) /\ In p (subnodes root)
                  /\ is_tag "tbody" p = true)
  /\ (existsb (is_tag "tbody") (subnodes root) = false ->
      (forall opts,
          url_Parse (WebClient.Prices_u cli id opts) = None ->
          http.RoundTrip c sent (GET (WebClient.Prices_u cli id opts)) = inl res ->
          fst (WebClient.Prices url_Parse cli id opts sent) = Return (Some [], None))
      /\ (let u := fmt.Sprintf "%s/%s#markets" [WebClient.websiteAddr cli; id] in
          url_Parse u = None ->
          http.RoundTrip c sent (GET u) = inl res ->
          fst (WebClient.Markets url_Parse cli id sent) = Return (Some [], None))).
Proof.
  intros Ht Hc. split; [intros r; apply rows_sound|].
  intros Hno.
  assert (Hrows : rows root = []).
  { destruct (rows root) as [|r l] eqn:E; [reflexivity|]. exfalso.
    destruct (rows_sound root r) as (_ & _ & p & _ & Hp & Htb).
    - rewrite E. left. reflexivity.
    - assert (H : existsb (is_tag "tbody") (subnodes root) = true)
        by (apply existsb_exists; exists p; split; assumption).
      rewrite Hno in H. discriminate H. }
  split.
  - intros opts Hu Hr.
    rewrite (Prices_of_page url_Parse cli c id opts sent res root Hc Hu Hr Ht), Hrows.
    reflexivity.
  - intros u Hu Hr.
    rewrite (Markets_of_page url_Parse cli c id sent res root Hc Hu Hr Ht), Hrows.
    reflexivity.
Qed.

Lemma rows_are_tr_inside_tbody_witness :
  fst (WebClient.Prices accept (serving (html_body no_table_page)) "bitcoin" None [])
  = Return (Some [], None).
Proof.
  apply (proj1 (proj2 (rows_are_tr_inside_tbody accept (serving (html_body no_table_page))
                         _ "bitcoin" [] {| http.Body := html_body no_table_page |}
                         no_table_page eq_refl eq_refl) eq_refl) None);
    reflexivity.
Defined.
